(** * theta_guard: the weekly evaluation pipeline, embedded and verified

    A shallow embedding of the five deterministic stages of
    [src/theta_guard]: the EMA indicator engine, the two-tier entry
    evaluator, the broken-wing-butterfly structure builder, the backtest
    evaluator and the holiday gate.

    Numbers.  Python [float] values are modelled by exact rationals [Q];
    Python [int] parameters by [Z].  Comparisons are the decidable
    comparisons of [Q], and [round(x, 4)] is rounding to the nearest
    multiple of 1/10000 with ties to the even neighbour.  Overflow and NaN
    are outside the model.  Binary rounding is written out where the
    choice the code makes depends on it: the distance of a delta from its
    target in the scan of the structure builder is the double the code
    computes ([Py.float64]).  Elsewhere arithmetic is exact.

    Dictionaries.  Records the code reads with [d.get(key)] carry one
    optional field per key ([None]: key missing or mapped to [None]);
    exceptions are explicit ([option] / sum results) and are caught where
    the source catches them.  The backtest evaluator is given twice: on
    the records its docstring describes ([Backtest]), and on records whose
    [pnl] and [max_loss] hold any value ([BacktestAny]), where the sums
    can raise and the [except] branch is taken. *)

From Stdlib Require Import QArith Qround Qabs Lqa ZArith Lia List String Bool.
From Stdlib Require Import Sorting.Sorted Sorting.Permutation.
Import ListNotations.

Set Warnings "-register-all".

Open Scope Q_scope.

(* ------------------------------------------------------------------ *)
(** ** Python helpers shared by the modules *)

Module Py.

(** [sum(xs)]: left-to-right accumulation from 0. *)
Definition sum (xs : list Q) : Q := fold_left Qplus xs 0.

(** Arithmetic mean of a non-empty list. *)
Definition mean (xs : list Q) : Q := sum xs / inject_Z (Z.of_nat (List.length xs)).

(** Nearest integer, ties to even. *)
Definition round_half_even (x : Q) : Z :=
  let n := Qfloor x in
  let frac := x - inject_Z n in
  match Qcompare frac (1 # 2) with
  | Lt => n
  | Gt => (n + 1)%Z
  | Eq => if Z.even n then n else (n + 1)%Z
  end.

(** [round(x, 4)]. *)
Definition round4 (x : Q) : Q := round_half_even (x * 10000) # 10000.

(** *** Binary64

    Where a result depends on the rounding of a [float] operation, the
    operation is written out: a rational stands for the double nearest to
    it, and the result of an operation is the double nearest to the exact
    result (round to nearest, ties to even; 53 significant bits, no
    quantum below [2^-1074]).  Overflow is not modelled. *)

Definition pow2 (e : Z) : Q :=
  if (0 <=? e)%Z then inject_Z (2 ^ e) else 1 # Z.to_pos (2 ^ (- e)).

(** [floor (log2 |x|)] for [x <> 0]. *)
Definition binade (x : Q) : Z :=
  let e := (Z.log2 (Z.abs (Qnum x)) - Z.log2 (Zpos (Qden x)))%Z in
  if Qle_bool (pow2 e) (Qabs x) then e else (e - 1)%Z.

(** The double nearest to [x]. *)
Definition float64 (x : Q) : Q :=
  if Qeq_bool x 0 then 0
  else
    let quantum := pow2 (Z.max (binade x - 52) (-1074)) in
    inject_Z (round_half_even (x / quantum)) * quantum.

(** [xs[-k]] for [k >= 1]; [None] stands for IndexError. *)
Definition index_neg {A : Type} (xs : list A) (k : nat) : option A :=
  match k with
  | O => None
  | S _ => if (k <=? List.length xs)%nat then nth_error xs (List.length xs - k) else None
  end.

(** Python truthiness of a string and of a list. *)
Definition nonempty_string (s : string) : bool :=
  match s with EmptyString => false | String _ _ => true end.

End Py.

(* ------------------------------------------------------------------ *)
(** ** indicators/ema_engine.py *)

Module Ema.

Definition SLOPE_EPSILON : Q := 1 # 1000000000.

(** One turn of the second loop of [compute_ema_series]. *)
Definition ema_step (multiplier ema_previous price : Q) : Q :=
  (price - ema_previous) * multiplier + ema_previous.

(** The second loop: [rest] is [prices[period:]], the state is
    [(ema_previous, ema_series)]. *)
Fixpoint ema_loop (multiplier : Q) (rest : list Q) (ema_previous : Q)
         (ema_series : list Q) : list Q :=
  match rest with
  | [] => ema_series
  | price :: rest' =>
      let ema_current := ema_step multiplier ema_previous price in
      ema_loop multiplier rest' ema_current (ema_series ++ [ema_current])
  end.

Definition compute_ema_series (prices : list Q) (period : Z) : option (list Q) :=
  if (period <? 1)%Z then None
  else if (Z.of_nat (List.length prices) <? period + 2)%Z then None
  else
    let multiplier := 2 / inject_Z (period + 1) in
    let n := Z.to_nat period in
    let sma_seed := Py.sum (firstn n prices) / inject_Z period in
    let ema_series := repeat sma_seed n in
    Some (ema_loop multiplier (skipn n prices) sma_seed ema_series).

Record ema_state : Type := mk_ema_state {
  short_ema : option Q;
  long_ema : option Q;
  short_above_long : bool;
  long_ema_slope : string;
  data_points_used : Z;
  valid : bool;
  reason : string
}.

Definition set_reason (r : ema_state) (s : string) : ema_state :=
  mk_ema_state (short_ema r) (long_ema r) (short_above_long r)
               (long_ema_slope r) (data_points_used r) (valid r) s.

Section State.

(** Text formatting of the f-strings: [str] of an int, the [.4f] format
    of a float, [str] of a bool. *)
Variable fmt_int : Z -> string.
Variable fmt_4f : Q -> string.
Variable fmt_bool : bool -> string.

Definition classify_slope (slope_diff : Q) : string :=
  if Qlt_le_dec SLOPE_EPSILON slope_diff then "positive"%string
  else if Qlt_le_dec slope_diff (- SLOPE_EPSILON) then "negative"%string
  else "zero"%string.

Definition compute_ema_state (prices : list Q) (short_period long_period : Z)
  : ema_state :=
  let len := Z.of_nat (List.length prices) in
  let result := mk_ema_state None None false "negative" len false "" in
  if (short_period <? 1)%Z then
    set_reason result
      ("Invalid short_period: " ++ fmt_int short_period ++ ". Must be positive integer.")%string
  else if (long_period <? 1)%Z then
    set_reason result
      ("Invalid long_period: " ++ fmt_int long_period ++ ". Must be positive integer.")%string
  else if (long_period <=? short_period)%Z then
    set_reason result
      ("short_period (" ++ fmt_int short_period ++ ") must be less than long_period ("
         ++ fmt_int long_period ++ ").")%string
  else
    let min_required := (long_period + 2)%Z in
    if (len <? min_required)%Z then
      set_reason result
        ("Insufficient data: " ++ fmt_int len ++ " prices provided, minimum "
           ++ fmt_int min_required ++ " required for period " ++ fmt_int long_period ++ ".")%string
    else
      match compute_ema_series prices short_period,
            compute_ema_series prices long_period with
      | None, _ => set_reason result "Failed to compute short EMA series."
      | Some _, None => set_reason result "Failed to compute long EMA series."
      | Some short_ema_series, Some long_ema_series =>
          match Py.index_neg short_ema_series 1,
                Py.index_neg long_ema_series 1,
                Py.index_neg long_ema_series 2 with
          | Some short_ema_current, Some long_ema_current, Some long_ema_previous =>
              let above :=
                if Qlt_le_dec long_ema_current short_ema_current then true else false in
              let slope := classify_slope (long_ema_current - long_ema_previous) in
              mk_ema_state (Some short_ema_current) (Some long_ema_current)
                above slope len true
                ("EMA state computed: short(" ++ fmt_int short_period ++ ")="
                   ++ fmt_4f short_ema_current ++ ", long(" ++ fmt_int long_period ++ ")="
                   ++ fmt_4f long_ema_current ++ ", short_above_long=" ++ fmt_bool above
                   ++ ", slope=" ++ slope ++ ".")%string
          | _, _, _ =>
              set_reason result
                "Unexpected error during EMA computation. Defaulting to invalid state."
          end
      end.

End State.

(** *** Price series of the testable properties *)

(** Every price exceeds the one before it, starting above [prev]. *)
Fixpoint increasing_from (prev : Q) (prices : list Q) : Prop :=
  match prices with
  | [] => True
  | p :: rest => prev < p /\ increasing_from p rest
  end.

Definition strictly_increasing (prices : list Q) : Prop :=
  match prices with
  | [] => True
  | p :: rest => increasing_from p rest
  end.


(** Ten prices rising by 1 each. *)
Definition unit_steps : list Q :=
  [100; 101; 102; 103; 104; 105; 106; 107; 108; 109].

End Ema.

(* ------------------------------------------------------------------ *)
(** ** signals/entry_evaluator.py *)

Module Entry.

(** The arguments are annotated [dict[str, Any]] but arrive unchecked, so
    a value is any Python object.  [PObj truth eq_str] is an object of
    some other class: [truth] is the outcome of its truth test and
    [eq_str s] the outcome of testing [obj == s], [None] when the test
    raises. *)
Inductive pyval : Type :=
| PNone
| PBool (b : bool)
| PStr (s : string)
| PNum (q : Q)
| PDict (items : list (string * pyval))
| PObj (truth : option bool) (eq_str : string -> option bool).

Definition DECISION_TRADE_ALLOWED : string := "TRADE ALLOWED".
Definition DECISION_NO_TRADE : string := "NO TRADE".

(** [isinstance(v, dict)]. *)
Definition is_dict (v : pyval) : bool :=
  match v with PDict _ => true | _ => false end.

Fixpoint lookup (key : string) (items : list (string * pyval)) : option pyval :=
  match items with
  | [] => None
  | (k, v) :: items' => if String.eqb k key then Some v else lookup key items'
  end.

(** [v.get(key, default)]; [None] is the AttributeError of a non-dict. *)
Definition get (v : pyval) (key : string) (default : pyval) : option pyval :=
  match v with
  | PDict items =>
      Some (match lookup key items with Some x => x | None => default end)
  | _ => None
  end.

(** Truth test of a value; [None] when it raises. *)
Definition truthy (v : pyval) : option bool :=
  match v with
  | PNone => Some false
  | PBool b => Some b
  | PStr s => Some (Py.nonempty_string s)
  | PNum q => Some (negb (Qeq_bool q 0))
  | PDict items => Some (match items with [] => false | _ :: _ => true end)
  | PObj truth _ => truth
  end.

(** Truth of [v == s] for a string literal [s]. *)
Definition eq_string (v : pyval) (s : string) : option bool :=
  match v with
  | PStr s' => Some (String.eqb s' s)
  | PObj _ eq_str => eq_str s
  | _ => Some false
  end.

Definition bind {A B : Type} (m : option A) (k : A -> option B) : option B :=
  match m with Some a => k a | None => None end.

Notation "x <- m ;; k" := (bind m (fun x => k))
  (at level 61, m at next level, right associativity).

Record entry_decision : Type := mk_entry_decision {
  decision : string;
  hard_blocks_triggered : list string;
  signal_failures : list string;
  reasons : list string
}.

Section Evaluate.

(** [str(v)] as interpolated by the f-strings, taken to be total. *)
Variable fmt_val : pyval -> string.

(** One [if not isinstance ... elif not d.get(flag, False)] block of
    [_evaluate_hard_blocks], threading [(triggered, reasons)]. *)
Definition check_block (v : pyval) (flag : string)
           (invalid_tag invalid_reason block_tag : string)
           (block_reason : pyval -> string)
           (acc : list string * list string)
  : option (list string * list string) :=
  let '(triggered, reasons) := acc in
  if negb (is_dict v) then
    Some (triggered ++ [invalid_tag], reasons ++ [invalid_reason])
  else
    flagv <- get v flag (PBool false) ;;
    ok <- truthy flagv ;;
    if negb ok then
      Some (triggered ++ [block_tag], reasons ++ [block_reason v])
    else Some (triggered, reasons).

Definition reason_of (v : pyval) (default : string) : string :=
  match get v "reason" (PStr default) with
  | Some r => ("HARD BLOCK: " ++ fmt_val r)%string
  | None => "HARD BLOCK: "%string
  end.

Definition _evaluate_hard_blocks (holiday_result ema_state entry_context : pyval)
  : option (list string * list string) :=
  acc <- check_block holiday_result "is_trade_week"
           "holiday_data_invalid"
           "HARD BLOCK: Holiday result is missing or malformed."
           "holiday_block"
           (fun v => reason_of v "Holiday check failed.")
           ([], []) ;;
  acc <- check_block entry_context "entry_time_valid"
           "entry_context_invalid"
           "HARD BLOCK: Entry context is missing or malformed."
           "entry_time_invalid"
           (fun _ => "HARD BLOCK: Entry time is outside the valid window."%string)
           acc ;;
  check_block ema_state "valid"
           "ema_data_invalid"
           "HARD BLOCK: EMA state is missing or malformed."
           "ema_invalid"
           (fun v => reason_of v "EMA data is invalid.")
           acc.

Definition _evaluate_signal_conditions (ema_state : pyval)
  : option (list string * list string) :=
  short_above_long <- get ema_state "short_above_long" (PBool false) ;;
  above <- truthy short_above_long ;;
  let '(failed, reasons) :=
    if negb above then
      (["short_ema_not_above_long"%string],
       ["SIGNAL FAIL: 3-period EMA is not above 8-period EMA."%string])
    else ([], []) in
  long_ema_slope <- get ema_state "long_ema_slope" (PStr "negative") ;;
  negative <- eq_string long_ema_slope "negative" ;;
  if negative then
    Some (failed ++ ["long_ema_slope_negative"%string],
          reasons ++ ["SIGNAL FAIL: 8-period EMA slope is negative."%string])
  else Some (failed, reasons).

(** The [except Exception] handler: it appends to whatever list
    [result["hard_blocks_triggered"]] holds when the exception arrives. *)
Definition on_exception (triggered signal reasons : list string) : entry_decision :=
  mk_entry_decision DECISION_NO_TRADE
    (triggered ++ ["evaluation_error"%string])
    signal
    (reasons ++ ["Unexpected error during evaluation. Defaulting to NO TRADE."%string]).

Definition evaluate_entry (holiday_result ema_state entry_context : pyval)
  : entry_decision :=
  match _evaluate_hard_blocks holiday_result ema_state entry_context with
  | None => on_exception [] [] []
  | Some (triggered, hb_reasons) =>
      match triggered with
      | _ :: _ => mk_entry_decision DECISION_NO_TRADE triggered [] hb_reasons
      | [] =>
          match _evaluate_signal_conditions ema_state with
          | None => on_exception triggered [] hb_reasons
          | Some (failed, sc_reasons) =>
              let reasons := hb_reasons ++ sc_reasons in
              match failed with
              | _ :: _ => mk_entry_decision DECISION_NO_TRADE triggered failed reasons
              | [] =>
                  mk_entry_decision DECISION_TRADE_ALLOWED triggered failed
                    (reasons ++ ["All hard blocks cleared and signal conditions met."%string])
              end
          end
      end
  end.

End Evaluate.

End Entry.

(* ------------------------------------------------------------------ *)
(** ** strategies/bwb_builder.py *)

Module Bwb.

Definition STRUCTURE_PUT_CREDIT_BWB : string := "PUT_CREDIT_BWB".
Definition STRUCTURE_CALL_DEBIT_BWB : string := "CALL_DEBIT_BWB".

Definition TARGET_DELTA_PUT_SHORT : Q := 55 # 100.
Definition TARGET_DELTA_CALL_SHORT : Q := 45 # 100.

(** One record of the option chain.  A field is [None] when the key is
    missing from the dict (for [delta] also when it maps to [None]). *)
Record option_record : Type := mk_option {
  otype : option string;
  strike : option Q;
  delta : option Q;
  bid : option Q;
  ask : option Q
}.

Record leg : Type := mk_leg {
  leg_action : string;
  leg_quantity : Z;
  leg_type : string;
  leg_strike : Q;
  leg_price : Q;
  leg_delta : option Q
}.

Record bwb_structure : Type := mk_bwb {
  structure_type : string;
  legs : list leg;
  net_premium : Q;
  max_loss : option Q;
  valid : bool;
  reason : string
}.

Definition set_reason (r : bwb_structure) (s : string) : bwb_structure :=
  mk_bwb (structure_type r) (legs r) (net_premium r) (max_loss r) (valid r) s.

Definition option_string_eqb (a : option string) (s : string) : bool :=
  match a with Some x => String.eqb x s | None => false end.

Definition _filter_options (option_chain : list option_record) (option_type : string)
  : list option_record :=
  filter (fun opt => option_string_eqb (otype opt) option_type) option_chain.

(** [x["strike"]] for every record; [None] is the KeyError. *)
Fixpoint strike_keys (opts : list option_record) : option (list (Q * option_record)) :=
  match opts with
  | [] => Some []
  | o :: opts' =>
      match strike o, strike_keys opts' with
      | Some k, Some rest => Some ((k, o) :: rest)
      | _, _ => None
      end
  end.

(** [sorted(opts, key=lambda x: x["strike"])]: a stable sort; a record
    goes in front of the later records whose key is not smaller.  The
    sorted list keeps every record paired with its key, which is what
    [p["strike"]] and [opt.get("strike")] read afterwards. *)
Fixpoint insert_by_strike (x : Q * option_record) (l : list (Q * option_record))
  : list (Q * option_record) :=
  match l with
  | [] => [x]
  | y :: l' =>
      if Qle_bool (fst x) (fst y) then x :: l else y :: insert_by_strike x l'
  end.

Definition sorted_by_strike (opts : list option_record)
  : option (list (Q * option_record)) :=
  match strike_keys opts with
  | Some keyed => Some (fold_right insert_by_strike [] keyed)
  | None => None
  end.

(** [abs(abs(delta) - target_delta)] on doubles: [abs] is exact, the
    subtraction is rounded.  Decimal deltas that are equally far from the
    target need not be so as doubles. *)
Definition delta_distance (target_delta d : Q) : Q :=
  Qabs (Py.float64 (Qabs (Py.float64 d) - Py.float64 target_delta)).

(** The loop of [_find_closest_delta]; the state is
    [(closest, min_distance)], [min_distance = None] standing for
    [float("inf")]. *)
Definition closest_step (target_delta : Q)
           (st : option (Q * option_record) * option Q)
           (opt : Q * option_record)
  : option (Q * option_record) * option Q :=
  match delta (snd opt) with
  | None => st
  | Some d =>
      let distance := delta_distance target_delta d in
      match snd st with
      | None => (Some opt, Some distance)
      | Some min_distance =>
          if Qlt_le_dec distance min_distance then (Some opt, Some distance) else st
      end
  end.

Definition _find_closest_delta (options : list (Q * option_record)) (target_delta : Q)
  : option (Q * option_record) :=
  fst (fold_left (closest_step target_delta) options (None, None)).

(** [strikes.index(s)]; [None] is the ValueError. *)
Fixpoint index_of (s : Q) (strikes : list Q) : option nat :=
  match strikes with
  | [] => None
  | x :: strikes' =>
      if Qeq_bool x s then Some O
      else match index_of s strikes' with Some i => Some (S i) | None => None end
  end.

Fixpoint _find_option_by_strike (options : list (Q * option_record)) (s : Q)
  : option option_record :=
  match options with
  | [] => None
  | (k, opt) :: options' =>
      if Qeq_bool k s then Some opt else _find_option_by_strike options' s
  end.

Definition get_or_zero (x : option Q) : Q :=
  match x with Some v => v | None => 0 end.

Definition _mid_price (opt : option_record) : Q :=
  (get_or_zero (bid opt) + get_or_zero (ask opt)) / 2.

Definition _make_leg (action : string) (quantity : Z) (option_type : string)
           (s price : Q) (d : option Q) : leg :=
  mk_leg action quantity option_type s (Py.round4 price)
         (match d with Some x => Some (Py.round4 x) | None => None end).

Definition floor_at_zero (loss : Q) : Q :=
  if Qlt_le_dec 0 loss then Py.round4 loss else 0.

Section Builder.

(** [str] of a strike and the [.2f] format, for the reason texts. *)
Variable fmt_num : Q -> string.
Variable fmt_2f : Q -> string.

(** The builders return [None] when an exception escapes them. *)
Definition _build_put_credit_bwb (option_chain : list option_record)
           (result : bwb_structure) : option bwb_structure :=
  let puts := _filter_options option_chain "put" in
  match puts with
  | [] => Some (set_reason result "No put options found in chain.")
  | _ :: _ =>
  match sorted_by_strike puts with
  | None => None
  | Some puts_sorted =>
  let strikes := map fst puts_sorted in
  match _find_closest_delta puts_sorted TARGET_DELTA_PUT_SHORT with
  | None => Some (set_reason result "Could not find put option near 55 delta.")
  | Some (short_strike, short_put) =>
  match index_of short_strike strikes with
  | None => None
  | Some short_idx =>
  if (List.length strikes <=? short_idx + 1)%nat then
    Some (set_reason result
            ("No strike available above short strike " ++ fmt_num short_strike ++ ".")%string)
  else
  let long_upper_strike := nth (short_idx + 1) strikes 0 in
  if (short_idx <? 2)%nat then
    Some (set_reason result
            ("Not enough strikes below short strike " ++ fmt_num short_strike
               ++ " for wing.")%string)
  else
  let long_lower_strike := nth (short_idx - 2) strikes 0 in
  match _find_option_by_strike puts_sorted long_upper_strike,
        _find_option_by_strike puts_sorted long_lower_strike with
  | None, _ =>
      Some (set_reason result
              ("Could not find put at strike " ++ fmt_num long_upper_strike ++ ".")%string)
  | Some _, None =>
      Some (set_reason result
              ("Could not find put at strike " ++ fmt_num long_lower_strike ++ ".")%string)
  | Some long_upper, Some long_lower =>
      let short_price := _mid_price short_put in
      let long_upper_price := _mid_price long_upper in
      let long_lower_price := _mid_price long_lower in
      let net_premium := 2 * short_price - long_upper_price - long_lower_price in
      let upper_spread_width := long_upper_strike - short_strike in
      let max_loss_upper := upper_spread_width - net_premium in
      let max_loss := floor_at_zero max_loss_upper in
      Some (mk_bwb (structure_type result)
              [ _make_leg "SELL" 2 "put" short_strike short_price (delta short_put);
                _make_leg "BUY" 1 "put" long_upper_strike long_upper_price (delta long_upper);
                _make_leg "BUY" 1 "put" long_lower_strike long_lower_price (delta long_lower) ]
              (Py.round4 net_premium)
              (Some max_loss)
              true
              ("PUT credit BWB built: short " ++ fmt_num short_strike ++ " (x2), long "
                 ++ fmt_num long_upper_strike ++ ", wing " ++ fmt_num long_lower_strike
                 ++ ". Net credit: " ++ fmt_2f net_premium ++ ", Max loss: "
                 ++ fmt_2f max_loss)%string)
  end
  end
  end
  end
  end.

Definition _build_call_debit_bwb (option_chain : list option_record)
           (result : bwb_structure) : option bwb_structure :=
  let calls := _filter_options option_chain "call" in
  match calls with
  | [] => Some (set_reason result "No call options found in chain.")
  | _ :: _ =>
  match sorted_by_strike calls with
  | None => None
  | Some calls_sorted =>
  let strikes := map fst calls_sorted in
  match _find_closest_delta calls_sorted TARGET_DELTA_CALL_SHORT with
  | None => Some (set_reason result "Could not find call option near 45 delta.")
  | Some (short_strike, short_call) =>
  match index_of short_strike strikes with
  | None => None
  | Some short_idx =>
  if (List.length strikes <=? short_idx + 2)%nat then
    Some (set_reason result
            ("Not enough strikes above short strike " ++ fmt_num short_strike
               ++ " for wing.")%string)
  else
  let long_upper_strike := nth (short_idx + 2) strikes 0 in
  if (short_idx <? 1)%nat then
    Some (set_reason result
            ("No strike available below short strike " ++ fmt_num short_strike ++ ".")%string)
  else
  let long_lower_strike := nth (short_idx - 1) strikes 0 in
  match _find_option_by_strike calls_sorted long_upper_strike,
        _find_option_by_strike calls_sorted long_lower_strike with
  | None, _ =>
      Some (set_reason result
              ("Could not find call at strike " ++ fmt_num long_upper_strike ++ ".")%string)
  | Some _, None =>
      Some (set_reason result
              ("Could not find call at strike " ++ fmt_num long_lower_strike ++ ".")%string)
  | Some long_upper, Some long_lower =>
      let short_price := _mid_price short_call in
      let long_upper_price := _mid_price long_upper in
      let long_lower_price := _mid_price long_lower in
      let net_premium := 2 * short_price - long_upper_price - long_lower_price in
      let lower_spread_width := short_strike - long_lower_strike in
      let max_loss_lower := lower_spread_width - net_premium in
      let max_loss := floor_at_zero max_loss_lower in
      Some (mk_bwb (structure_type result)
              [ _make_leg "SELL" 2 "call" short_strike short_price (delta short_call);
                _make_leg "BUY" 1 "call" long_upper_strike long_upper_price (delta long_upper);
                _make_leg "BUY" 1 "call" long_lower_strike long_lower_price (delta long_lower) ]
              (Py.round4 net_premium)
              (Some max_loss)
              true
              ("CALL debit BWB built: short " ++ fmt_num short_strike ++ " (x2), wing "
                 ++ fmt_num long_upper_strike ++ ", long " ++ fmt_num long_lower_strike
                 ++ ". Net premium: " ++ fmt_2f net_premium ++ ", Max loss: "
                 ++ fmt_2f max_loss)%string)
  end
  end
  end
  end
  end.

Definition build_bwb_structure (option_chain : list option_record)
           (structure_type : string) : bwb_structure :=
  let result := mk_bwb structure_type [] 0 None false "" in
  match option_chain with
  | [] => set_reason result "Invalid or empty option chain provided."
  | _ :: _ =>
      let built :=
        if String.eqb structure_type STRUCTURE_PUT_CREDIT_BWB then
          _build_put_credit_bwb option_chain result
        else if String.eqb structure_type STRUCTURE_CALL_DEBIT_BWB then
          _build_call_debit_bwb option_chain result
        else
          Some (set_reason result ("Unknown structure type: " ++ structure_type)%string) in
      match built with
      | Some r => r
      | None => set_reason result "Unexpected error during structure construction."
      end
  end.

End Builder.

(** *** The worked put chain (the module's own demonstration data) *)

Definition put (k d b a : Q) : option_record :=
  mk_option (Some "put"%string) (Some k) (Some d) (Some b) (Some a).

Definition sample_put_chain : list option_record :=
  [ put 5800 (-(70 # 100)) 45 46;
    put 5825 (-(65 # 100)) 38 39;
    put 5850 (-(60 # 100)) 32 33;
    put 5875 (-(55 # 100)) 26 27;
    put 5900 (-(50 # 100)) 21 22;
    put 5925 (-(45 # 100)) 17 18;
    put 5950 (-(40 # 100)) 13 14 ].

(** A chain, listed out of order, in which the strikes 5850 and 5900 are
    equally close to the target: both carry the delta -0.56. *)
Definition tied_put_chain : list option_record :=
  [ put 5925 (-(45 # 100)) 17 18;
    put 5900 (-(56 # 100)) 21 22;
    put 5800 (-(70 # 100)) 45 46;
    put 5850 (-(56 # 100)) 32 33;
    put 5825 (-(65 # 100)) 38 39 ].

Definition tied_put_chain_sorted : list (Q * option_record) :=
  [ (5800, put 5800 (-(70 # 100)) 45 46);
    (5825, put 5825 (-(65 # 100)) 38 39);
    (5850, put 5850 (-(56 # 100)) 32 33);
    (5900, put 5900 (-(56 # 100)) 21 22);
    (5925, put 5925 (-(45 # 100)) 17 18) ].

(** The distance of a delta from the target as decimals, without the
    rounding of the subtraction: the words of the specification. *)
Definition decimal_distance (target_delta d : Q) : Q := Qabs (Qabs d - target_delta).

(** A chain in which the deltas -0.50 and -0.60 are equally far from
    0.55 as decimals. *)
Definition decimal_tie_put_chain : list option_record :=
  [ put 5800 (-(30 # 100)) 2 3;
    put 5825 (-(40 # 100)) 5 6;
    put 5850 (-(50 # 100)) 10 11;
    put 5875 (-(60 # 100)) 17 18;
    put 5900 (-(70 # 100)) 26 27;
    put 5925 (-(80 # 100)) 37 38 ].

(** A chain whose deltas at 5850 and 5875 are the neighbouring doubles
    0.09999999999999999 and 0.1: the second is closer to 0.55, and the
    rounded distances are equal. *)
Definition near_tie_put_chain : list option_record :=
  [ put 5800 (-(1 # 100)) 2 3;
    put 5825 (-(2 # 100)) 5 6;
    put 5850 (-(7205759403792793 # 72057594037927936)) 10 11;
    put 5875 (-(3602879701896397 # 36028797018963968)) 17 18;
    put 5900 (-(3 # 100)) 26 27 ].

(** *** The scan of [_find_closest_delta], as an invariant

    [scan_inv target seen st]: after the records [seen], the loop state
    [st] is either still empty, no record seen carrying a delta, or it
    holds a record [x] of [seen] with its distance [m], every record seen
    before [x] being strictly farther from the target and every record
    seen after it at least as far. *)
Definition scan_inv (target_delta : Q) (seen : list (Q * option_record))
           (st : option (Q * option_record) * option Q) : Prop :=
  match st with
  | (None, None) => forall y, In y seen -> delta (snd y) = None
  | (Some x, Some m) =>
      exists d before after,
        seen = before ++ x :: after
        /\ delta (snd x) = Some d
        /\ m = delta_distance target_delta d
        /\ (forall y d', In y before -> delta (snd y) = Some d' ->
                         m < delta_distance target_delta d')
        /\ (forall y d', In y after -> delta (snd y) = Some d' ->
                         m <= delta_distance target_delta d')
  | _ => False
  end.

(** Ascending strike order of the keyed records. *)
Definition ascending (l : list (Q * option_record)) : Prop :=
  StronglySorted (fun x y => fst x <= fst y) l.

(** What a leg says about the position: action, quantity, strike. *)
Definition leg_summary (l : leg) : string * Z * Q :=
  (leg_action l, leg_quantity l, leg_strike l).

End Bwb.

(* ------------------------------------------------------------------ *)
(** ** backtest/evaluator.py *)

Module Backtest.

Definition DECISION_TRADE_ALLOWED : string := "TRADE ALLOWED".
Definition OUTCOME_WIN : string := "WIN".
Definition OUTCOME_LOSS : string := "LOSS".
Definition OUTCOME_SKIPPED : string := "SKIPPED".

(** One weekly record as the docstring of [evaluate_backtest] describes
    it: [pnl] is a float, [max_loss] a float or [None].  [None]: the key
    is missing (for [max_loss] also: it maps to [None]).  On such records
    no statement of the [try] block raises; [BacktestAny] below has the
    records with other values and the [except] branch. *)
Record weekly_record : Type := mk_week {
  week : string;
  decision : option string;
  outcome : option string;
  pnl : option Q;
  max_loss : option Q
}.

Record metrics : Type := mk_metrics {
  total_trades : Z;
  wins : Z;
  losses : Z;
  win_rate : Q;
  average_win : Q;
  average_loss : Q;
  expectancy : Q;
  cumulative_pnl : Q;
  max_drawdown : Q;
  return_on_risk : Q
}.

Definition _empty_result : metrics := mk_metrics 0 0 0 0 0 0 0 0 0 0.

(** [w.get(key) == s]. *)
Definition get_eqb (field : option string) (s : string) : bool :=
  match field with Some x => String.eqb x s | None => false end.

Definition _filter_traded_weeks (weekly_results : list weekly_record)
  : list weekly_record :=
  filter (fun w => get_eqb (decision w) DECISION_TRADE_ALLOWED
                   && negb (get_eqb (outcome w) OUTCOME_SKIPPED))
         weekly_results.

(** [w.get("pnl", 0.0)]. *)
Definition get_pnl (w : weekly_record) : Q :=
  match pnl w with Some x => x | None => 0 end.

(** [[w.get("max_loss") for w in ws if w.get("max_loss") is not None]]. *)
Fixpoint known_max_losses (ws : list weekly_record) : list Q :=
  match ws with
  | [] => []
  | w :: ws' =>
      match max_loss w with
      | Some m => m :: known_max_losses ws'
      | None => known_max_losses ws'
      end
  end.

(** The loop of [_compute_max_drawdown] on the state
    [(cumulative, peak, max_dd)]. *)
Definition drawdown_step (st : Q * Q * Q) (x : Q) : Q * Q * Q :=
  let '(cumulative, peak, max_dd) := st in
  let cumulative := cumulative + x in
  let peak := if Qlt_le_dec peak cumulative then cumulative else peak in
  let drawdown := peak - cumulative in
  let max_dd := if Qlt_le_dec max_dd drawdown then drawdown else max_dd in
  (cumulative, peak, max_dd).

Definition _compute_max_drawdown (pnls : list Q) : Q :=
  match pnls with
  | [] => 0
  | _ :: _ => snd (fold_left drawdown_step pnls (0, 0, 0))
  end.

(** [sum(xs) / len(xs) if xs else 0.0]. *)
Definition mean_or_zero (xs : list Q) : Q :=
  match xs with
  | [] => 0
  | _ :: _ => Py.sum xs / inject_Z (Z.of_nat (List.length xs))
  end.

Definition evaluate_backtest (weekly_results : list weekly_record) : metrics :=
  match weekly_results with
  | [] => _empty_result
  | _ :: _ =>
      let traded_weeks := _filter_traded_weeks weekly_results in
      match traded_weeks with
      | [] => _empty_result
      | _ :: _ =>
          let wins := filter (fun w => get_eqb (outcome w) OUTCOME_WIN) traded_weeks in
          let losses := filter (fun w => get_eqb (outcome w) OUTCOME_LOSS) traded_weeks in
          let total_trades := Z.of_nat (List.length traded_weeks) in
          let win_count := Z.of_nat (List.length wins) in
          let loss_count := Z.of_nat (List.length losses) in
          let win_pnls := map get_pnl wins in
          let loss_pnls := map get_pnl losses in
          let all_pnls := map get_pnl traded_weeks in
          let max_losses := known_max_losses traded_weeks in
          let win_rate :=
            if (0 <? total_trades)%Z
            then inject_Z win_count / inject_Z total_trades else 0 in
          let average_win := mean_or_zero win_pnls in
          let average_loss := mean_or_zero loss_pnls in
          let expectancy := mean_or_zero all_pnls in
          let cumulative_pnl := Py.sum all_pnls in
          let max_drawdown := _compute_max_drawdown all_pnls in
          let avg_max_loss := mean_or_zero max_losses in
          let return_on_risk :=
            if Qlt_le_dec 0 avg_max_loss then expectancy / avg_max_loss else 0 in
          mk_metrics total_trades win_count loss_count
            (Py.round4 win_rate) (Py.round4 average_win) (Py.round4 average_loss)
            (Py.round4 expectancy) (Py.round4 cumulative_pnl)
            (Py.round4 max_drawdown) (Py.round4 return_on_risk)
      end
  end.

(** *** The aggregator in the words of the specification (step 4) *)

(** A week is traded when its decision is TRADE ALLOWED and its outcome
    is not SKIPPED. *)
Definition traded (w : weekly_record) : Prop :=
  decision w = Some DECISION_TRADE_ALLOWED /\ outcome w <> Some OUTCOME_SKIPPED.

(** The [maxLoss] values of the weeks that report a known, positive one. *)
Fixpoint positive_max_losses (ws : list weekly_record) : list Q :=
  match ws with
  | [] => []
  | w :: ws' =>
      match max_loss w with
      | Some m =>
          if Qlt_le_dec 0 m then m :: positive_max_losses ws'
          else positive_max_losses ws'
      | None => positive_max_losses ws'
      end
  end.

(** [returnOnRisk] as step 4 words it: expectancy over the mean of the
    known positive [maxLoss] values of the traded weeks, 0 without any. *)
Definition spec_return_on_risk (weekly_results : list weekly_record) : Q :=
  let traded_weeks := _filter_traded_weeks weekly_results in
  let expectancy := Py.mean (map get_pnl traded_weeks) in
  match positive_max_losses traded_weeks with
  | [] => 0
  | m :: ms => Py.round4 (expectancy / Py.mean (m :: ms))
  end.

(** Two traded winning weeks, the second with a maximum loss of 0.0 (the
    floor the structure builder applies). *)
Definition zero_risk_weeks : list weekly_record :=
  [ mk_week "2024-01-08" (Some "TRADE ALLOWED"%string) (Some "WIN"%string)
            (Some 2) (Some 10);
    mk_week "2024-01-15" (Some "TRADE ALLOWED"%string) (Some "WIN"%string)
            (Some 2) (Some 0) ].

(** The synthetic data of the module's demonstration: eight traded weeks
    and two skipped ones. *)
Definition synthetic_week (name decision outcome : string) (pnl : Q)
           (max_loss : option Q) : weekly_record :=
  mk_week name (Some decision) (Some outcome) (Some pnl) max_loss.

Definition synthetic_data : list weekly_record :=
  [ synthetic_week "2024-01-08" "TRADE ALLOWED" "WIN" (250 # 100) (Some (2250 # 100));
    synthetic_week "2024-01-15" "NO TRADE" "SKIPPED" 0 None;
    synthetic_week "2024-01-22" "TRADE ALLOWED" "WIN" (275 # 100) (Some (2225 # 100));
    synthetic_week "2024-01-29" "TRADE ALLOWED" "LOSS" (-(2240 # 100)) (Some (2240 # 100));
    synthetic_week "2024-02-05" "TRADE ALLOWED" "WIN" (280 # 100) (Some (2220 # 100));
    synthetic_week "2024-02-12" "TRADE ALLOWED" "WIN" (255 # 100) (Some (2245 # 100));
    synthetic_week "2024-02-19" "NO TRADE" "SKIPPED" 0 None;
    synthetic_week "2024-02-26" "TRADE ALLOWED" "WIN" (265 # 100) (Some (2235 # 100));
    synthetic_week "2024-03-04" "TRADE ALLOWED" "LOSS" (-(2230 # 100)) (Some (2230 # 100));
    synthetic_week "2024-03-11" "TRADE ALLOWED" "WIN" (245 # 100) (Some (2255 # 100)) ].

End Backtest.

(* ------------------------------------------------------------------ *)
(** ** backtest/evaluator.py on arbitrary records

    [Backtest] above takes the records as documented: [pnl] is a float,
    [max_loss] a float or [None].  On those no statement of the [try]
    block raises.  Here the two keys may hold any value, the sums raise
    on a value that is not a number, and the [except] branch answers with
    the all-zero result.  The two models agree on documented records
    ([BacktestAnyFacts.documented_records]). *)

Module BacktestAny.

(** A value under the key [pnl] or [max_loss]: [None], a number
    ([int], [float], [bool]), or anything else, such as a string. *)
Inductive value : Type :=
| VNone
| VNumber (x : Q)
| VOther.

(** One weekly record; a field is [None] when the key is missing. *)
Record weekly_record : Type := mk_week {
  week : string;
  decision : option string;
  outcome : option string;
  pnl : option value;
  max_loss : option value
}.

Definition _filter_traded_weeks (weekly_results : list weekly_record)
  : list weekly_record :=
  filter (fun w => Backtest.get_eqb (decision w) Backtest.DECISION_TRADE_ALLOWED
                   && negb (Backtest.get_eqb (outcome w) Backtest.OUTCOME_SKIPPED))
         weekly_results.

(** [w.get("pnl", 0.0)]: the default only replaces a missing key. *)
Definition get_pnl (w : weekly_record) : value :=
  match pnl w with Some v => v | None => VNumber 0 end.

(** [[w.get("max_loss") for w in ws if w.get("max_loss") is not None]]. *)
Fixpoint known_max_losses (ws : list weekly_record) : list value :=
  match ws with
  | [] => []
  | w :: ws' =>
      match max_loss w with
      | None | Some VNone => known_max_losses ws'
      | Some v => v :: known_max_losses ws'
      end
  end.

(** [sum(xs)]: left-to-right from 0; [None] is the TypeError raised at
    the first value that is not a number. *)
Fixpoint sum_from (acc : Q) (xs : list value) : option Q :=
  match xs with
  | [] => Some acc
  | VNumber x :: xs' => sum_from (acc + x) xs'
  | _ :: _ => None
  end.

Definition sum (xs : list value) : option Q := sum_from 0 xs.

(** [sum(xs) / len(xs) if xs else 0.0]. *)
Definition mean_or_zero (xs : list value) : option Q :=
  match xs with
  | [] => Some 0
  | _ :: _ =>
      match sum xs with
      | Some s => Some (s / inject_Z (Z.of_nat (List.length xs)))
      | None => None
      end
  end.

(** The loop of [_compute_max_drawdown]: [cumulative += pnl] raises on a
    value that is not a number. *)
Definition drawdown_step (st : option (Q * Q * Q)) (v : value) : option (Q * Q * Q) :=
  match st, v with
  | Some s, VNumber x => Some (Backtest.drawdown_step s x)
  | _, _ => None
  end.

Definition _compute_max_drawdown (pnls : list value) : option Q :=
  match pnls with
  | [] => Some 0
  | _ :: _ =>
      match fold_left drawdown_step pnls (Some (0, 0, 0)) with
      | Some s => Some (snd s)
      | None => None
      end
  end.

Definition bind {A B : Type} (x : option A) (f : A -> option B) : option B :=
  match x with Some a => f a | None => None end.

Notation "x <- m ;; k" := (bind m (fun x => k))
  (at level 61, m at next level, right associativity).

(** The [try] block; [None]: an exception escapes it. *)
Definition evaluate_backtest_try (weekly_results : list weekly_record)
  : option Backtest.metrics :=
  match weekly_results with
  | [] => Some Backtest._empty_result
  | _ :: _ =>
      let traded_weeks := _filter_traded_weeks weekly_results in
      match traded_weeks with
      | [] => Some Backtest._empty_result
      | _ :: _ =>
          let wins :=
            filter (fun w => Backtest.get_eqb (outcome w) Backtest.OUTCOME_WIN)
                   traded_weeks in
          let losses :=
            filter (fun w => Backtest.get_eqb (outcome w) Backtest.OUTCOME_LOSS)
                   traded_weeks in
          let total_trades := Z.of_nat (List.length traded_weeks) in
          let win_count := Z.of_nat (List.length wins) in
          let loss_count := Z.of_nat (List.length losses) in
          let win_pnls := map get_pnl wins in
          let loss_pnls := map get_pnl losses in
          let all_pnls := map get_pnl traded_weeks in
          let max_losses := known_max_losses traded_weeks in
          let win_rate :=
            if (0 <? total_trades)%Z
            then inject_Z win_count / inject_Z total_trades else 0 in
          average_win <- mean_or_zero win_pnls ;;
          average_loss <- mean_or_zero loss_pnls ;;
          expectancy <- mean_or_zero all_pnls ;;
          cumulative_pnl <- sum all_pnls ;;
          max_drawdown <- _compute_max_drawdown all_pnls ;;
          avg_max_loss <- mean_or_zero max_losses ;;
          let return_on_risk :=
            if Qlt_le_dec 0 avg_max_loss then expectancy / avg_max_loss else 0 in
          Some (Backtest.mk_metrics total_trades win_count loss_count
                  (Py.round4 win_rate) (Py.round4 average_win) (Py.round4 average_loss)
                  (Py.round4 expectancy) (Py.round4 cumulative_pnl)
                  (Py.round4 max_drawdown) (Py.round4 return_on_risk))
      end
  end.

(** [except Exception: return _empty_result()]. *)
Definition evaluate_backtest (weekly_results : list weekly_record) : Backtest.metrics :=
  match evaluate_backtest_try weekly_results with
  | Some result => result
  | None => Backtest._empty_result
  end.

(** *** Readable and unreadable weeks *)

(** A week is traded when its decision is TRADE ALLOWED and its outcome
    is not SKIPPED. *)
Definition traded (w : weekly_record) : Prop :=
  decision w = Some Backtest.DECISION_TRADE_ALLOWED
  /\ outcome w <> Some Backtest.OUTCOME_SKIPPED.

(** The pnl of a week is the number [x]: the number under the key, or
    0.0 for a missing key. *)
Definition pnl_is (w : weekly_record) (x : Q) : Prop :=
  pnl w = Some (VNumber x) \/ (pnl w = None /\ x = 0).

(** The pnl of a week is not a number. *)
Definition pnl_unreadable (w : weekly_record) : Prop :=
  pnl w = Some VNone \/ pnl w = Some VOther.

(** The [max_loss] of a week is present and neither [None] nor a number. *)
Definition max_loss_unreadable (w : weekly_record) : Prop :=
  max_loss w = Some VOther.

(** The numbers of a list of values; [None] when one is not a number. *)
Fixpoint numbers (xs : list value) : option (list Q) :=
  match xs with
  | [] => Some []
  | VNumber x :: xs' =>
      match numbers xs' with Some ys => Some (x :: ys) | None => None end
  | _ :: _ => None
  end.

(** A documented record, as a record of this module. *)
Definition documented (w : Backtest.weekly_record) : weekly_record :=
  mk_week (Backtest.week w) (Backtest.decision w) (Backtest.outcome w)
          (option_map VNumber (Backtest.pnl w))
          (option_map VNumber (Backtest.max_loss w)).

(** Weeks of a small backtest: a win, a skipped week, a loss. *)
Definition week_win : weekly_record :=
  mk_week "2024-01-08" (Some "TRADE ALLOWED"%string) (Some "WIN"%string)
          (Some (VNumber (250 # 100))) (Some (VNumber (2250 # 100))).

Definition week_skipped : weekly_record :=
  mk_week "2024-01-15" (Some "NO TRADE"%string) (Some "SKIPPED"%string)
          (Some (VNumber 0)) (Some VNone).

Definition week_loss : weekly_record :=
  mk_week "2024-01-29" (Some "TRADE ALLOWED"%string) (Some "LOSS"%string)
          (Some (VNumber (-(2240 # 100)))) (Some (VNumber (2240 # 100))).

(** A TRADE ALLOWED week whose outcome is none of WIN, LOSS, SKIPPED,
    once with a number as pnl and once with [None]. *)
Definition week_open : weekly_record :=
  mk_week "2024-01-22" (Some "TRADE ALLOWED"%string) (Some "OPEN"%string)
          (Some (VNumber (-(125 # 100)))) None.

Definition week_open_unsettled : weekly_record :=
  mk_week "2024-01-22" (Some "TRADE ALLOWED"%string) (Some "OPEN"%string)
          (Some VNone) None.

End BacktestAny.

(* ------------------------------------------------------------------ *)
(** ** calendar/holiday_gate.py *)

Module Holiday.

(** A [datetime.date] is its proleptic Gregorian ordinal
    ([date.toordinal()]): day 1 is 0001-01-01, a Monday, and the last
    date, 9999-12-31, is day 3652059. *)
Definition MIN_ORDINAL : Z := 1.
Definition MAX_ORDINAL : Z := 3652059.

Definition valid_date (d : Z) : Prop := (MIN_ORDINAL <= d <= MAX_ORDINAL)%Z.

(** [d.weekday()]: Monday is 0. *)
Definition weekday (d : Z) : Z := ((d + 6) mod 7)%Z.

(** [d + timedelta(days=k)]; [None] is the OverflowError of a date out
    of range. *)
Definition add_days (d k : Z) : option Z :=
  let r := (d + k)%Z in
  if ((MIN_ORDINAL <=? r) && (r <=? MAX_ORDINAL))%Z then Some r else None.

Record trade_week_result : Type := mk_trade_week {
  allowed : bool;              (* key "is_trade_week" *)
  monday_trading_day : bool;
  friday_trading_day : bool;
  reason : string
}.

Definition set_reason (r : trade_week_result) (s : string) : trade_week_result :=
  mk_trade_week (allowed r) (monday_trading_day r) (friday_trading_day r) s.

(** [d in trading_dates]. *)
Definition mem_date (d : Z) (trading_dates : list Z) : bool :=
  existsb (Z.eqb d) trading_dates.

Section Gate.

(** [datetime.strptime(s, "%Y-%m-%d").date()]; [None] when it raises
    ValueError or TypeError. *)
Variable strptime : string -> option Z.

(** The calendar collaborator: [get_calendar] is
    [mcal.get_calendar("NYSE")], [None] when it raises; [schedule c a b]
    is [c.schedule(start_date=a, end_date=b)]: [None] when it raises,
    [Some None] for a [None] schedule, [Some (Some ds)] for a frame whose
    index holds the dates [ds] (an empty frame has no dates). *)
Variable Calendar : Type.
Variable get_calendar : option Calendar.
Variable schedule : Calendar -> Z -> Z -> option (option (list Z)).

(** [str(d)] of a date. *)
Variable fmt_date : Z -> string.

Definition result0 : trade_week_result := mk_trade_week false false false "".

(** [None]: an exception leaves the function. *)
Definition is_trade_week (monday_date : string) : option trade_week_result :=
  match strptime monday_date with
  | None =>
      Some (set_reason result0
              ("Invalid date format: " ++ monday_date ++ ". Expected YYYY-MM-DD.")%string)
  | Some monday =>
      if negb (weekday monday =? 0)%Z then
        Some (set_reason result0 ("Date " ++ monday_date ++ " is not a Monday.")%string)
      else
        match add_days monday 4 with
        | None => None
        | Some friday =>
            match get_calendar with
            | None =>
                Some (set_reason result0
                        "Failed to load NYSE calendar. Defaulting to NO TRADE.")
            | Some nyse =>
                match schedule nyse monday friday with
                | None =>
                    Some (set_reason result0
                            "Failed to retrieve market schedule. Defaulting to NO TRADE.")
                | Some None | Some (Some []) =>
                    Some (set_reason result0
                            "No trading days found in the specified week.")
                | Some (Some ((_ :: _) as trading_dates)) =>
                    let monday_is_trading_day := mem_date monday trading_dates in
                    let friday_is_trading_day := mem_date friday trading_dates in
                    let result :=
                      mk_trade_week false monday_is_trading_day friday_is_trading_day "" in
                    Some
                      (if negb monday_is_trading_day && negb friday_is_trading_day then
                         set_reason result
                           ("HARD BLOCK: Both Monday (" ++ monday_date ++ ") and Friday ("
                              ++ fmt_date friday ++ ") are market holidays.")%string
                       else if negb monday_is_trading_day then
                         set_reason result
                           ("HARD BLOCK: Monday (" ++ monday_date
                              ++ ") is a market holiday.")%string
                       else if negb friday_is_trading_day then
                         set_reason result
                           ("HARD BLOCK: Friday (" ++ fmt_date friday
                              ++ ") is a market holiday.")%string
                       else
                         mk_trade_week true monday_is_trading_day friday_is_trading_day
                           ("Trade week allowed: Monday (" ++ monday_date ++ ") and Friday ("
                              ++ fmt_date friday ++ ") are both trading days.")%string)
                end
            end
        end
  end.

End Gate.

(** *** A calendar for one week: Monday 2024-01-08 (day 738893) to
    Friday 2024-01-12, all five days open. *)

Definition january_strptime (s : string) : option Z :=
  if String.eqb s "2024-01-08" then Some 738893%Z else None.

Definition january_schedule (_ : unit) (a b : Z) : option (option (list Z)) :=
  Some (Some (filter (fun d => (a <=? d) && (d <=? b))%Z
                     [738893; 738894; 738895; 738896; 738897]%Z)).

End Holiday.

(* ------------------------------------------------------------------ *)
(** ** risk/gamma_warning.py: [extract_short_strike] *)

Module GammaWarning.

(** The first leg with action SELL and quantity 2; [None] for a value
    that is not a dict and for a structure without such a leg. *)
Definition extract_short_strike (bwb_structure : option Bwb.bwb_structure) : option Q :=
  match bwb_structure with
  | None => None
  | Some s =>
      match find (fun l => String.eqb (Bwb.leg_action l) "SELL"
                           && (Bwb.leg_quantity l =? 2)%Z) (Bwb.legs s) with
      | Some l => Some (Bwb.leg_strike l)
      | None => None
      end
  end.

End GammaWarning.

(* ------------------------------------------------------------------ *)
(** ** The worked call chain of bwb_builder.py *)

Module BwbData.
Import Bwb.

Definition call (k d b a : Q) : option_record :=
  mk_option (Some "call"%string) (Some k) (Some d) (Some b) (Some a).

Definition sample_call_chain : list option_record :=
  [ call 5850 (60 # 100) 55 56;
    call 5875 (55 # 100) 45 46;
    call 5900 (50 # 100) 36 37;
    call 5925 (45 # 100) 28 29;
    call 5950 (40 # 100) 21 22;
    call 5975 (35 # 100) 15 16;
    call 6000 (30 # 100) 10 11 ].

Definition sample_call_chain_sorted : list (Q * option_record) :=
  [ (5850, call 5850 (60 # 100) 55 56);
    (5875, call 5875 (55 # 100) 45 46);
    (5900, call 5900 (50 # 100) 36 37);
    (5925, call 5925 (45 # 100) 28 29);
    (5950, call 5950 (40 # 100) 21 22);
    (5975, call 5975 (35 # 100) 15 16);
    (6000, call 6000 (30 # 100) 10 11) ].

(** No two records of the list share a strike. *)
Definition distinct_strikes (opts : list option_record) : Prop :=
  forall a b ka kb,
    In a opts -> In b opts -> strike a = Some ka -> strike b = Some kb ->
    ka == kb -> a = b.

(** A record paired with its strike, as the sort keys it. *)
Definition key_pair (o : option_record) : Q * option_record :=
  (match strike o with Some k => k | None => 0 end, o).

End BwbData.

(* ------------------------------------------------------------------ *)
(** ** run_week.py *)

Module RunWeek.

Definition DECISION_TRADE_ALLOWED : string := "TRADE ALLOWED".

(** The dicts the stages return, as [evaluate_entry] receives them. *)
Definition holiday_dict (r : Holiday.trade_week_result) : Entry.pyval :=
  Entry.PDict
    [ ("is_trade_week"%string, Entry.PBool (Holiday.allowed r));
      ("monday_trading_day"%string, Entry.PBool (Holiday.monday_trading_day r));
      ("friday_trading_day"%string, Entry.PBool (Holiday.friday_trading_day r));
      ("reason"%string, Entry.PStr (Holiday.reason r)) ].

Definition optional_number (x : option Q) : Entry.pyval :=
  match x with Some q => Entry.PNum q | None => Entry.PNone end.

Definition ema_dict (s : Ema.ema_state) : Entry.pyval :=
  Entry.PDict
    [ ("short_ema"%string, optional_number (Ema.short_ema s));
      ("long_ema"%string, optional_number (Ema.long_ema s));
      ("short_above_long"%string, Entry.PBool (Ema.short_above_long s));
      ("long_ema_slope"%string, Entry.PStr (Ema.long_ema_slope s));
      ("data_points_used"%string, Entry.PNum (inject_Z (Ema.data_points_used s)));
      ("valid"%string, Entry.PBool (Ema.valid s));
      ("reason"%string, Entry.PStr (Ema.reason s)) ].

Definition entry_context_dict (entry_time_valid : bool) : Entry.pyval :=
  Entry.PDict
    [ ("entry_day"%string, Entry.PStr "Monday");
      ("entry_time_valid"%string, Entry.PBool entry_time_valid) ].

Record pipeline_result : Type := mk_pipeline {
  holiday_result : option Holiday.trade_week_result;
  ema_state : option Ema.ema_state;
  entry_decision : option Entry.entry_decision;
  bwb_structure : option Bwb.bwb_structure;
  spot_proxy : option Q;
  option_chain : list Bwb.option_record;
  macro_events : list string
}.

(** The decision the [except] handler installs when none was reached. *)
Definition pipeline_error : Entry.entry_decision :=
  Entry.mk_entry_decision "NO TRADE" ["pipeline_error"%string] []
    ["Unexpected error in pipeline. Defaulting to NO TRADE."%string].

Section Pipeline.

(** Collaborators and text formatting of the four stages. *)
Variable strptime : string -> option Z.
Variable Calendar : Type.
Variable get_calendar : option Calendar.
Variable schedule : Calendar -> Z -> Z -> option (option (list Z)).
Variable fmt_date : Z -> string.
Variable fmt_int : Z -> string.
Variable fmt_4f : Q -> string.
Variable fmt_bool : bool -> string.
Variable fmt_val : Entry.pyval -> string.
Variable fmt_num : Q -> string.
Variable fmt_2f : Q -> string.

(** [research.event_calendar.get_macro_event_tags]: an annotation that
    is only passed through; it catches its own exceptions. *)
Variable get_macro_event_tags : string -> list string.

Definition run_weekly_pipeline (monday_date : string) (entry_time_valid : bool)
           (prices : list Q) (chain : list Bwb.option_record)
           (structure_type : string) : pipeline_result :=
  let spot := Py.index_neg prices 1 in
  let events := get_macro_event_tags monday_date in
  match Holiday.is_trade_week strptime Calendar get_calendar schedule fmt_date
                              monday_date with
  | None => mk_pipeline None None (Some pipeline_error) None spot chain events
  | Some holiday =>
      let ema := Ema.compute_ema_state fmt_int fmt_4f fmt_bool prices 3 8 in
      let decision :=
        Entry.evaluate_entry fmt_val (holiday_dict holiday) (ema_dict ema)
                             (entry_context_dict entry_time_valid) in
      if negb (String.eqb (Entry.decision decision) DECISION_TRADE_ALLOWED) then
        mk_pipeline (Some holiday) (Some ema) (Some decision) None spot chain events
      else
        mk_pipeline (Some holiday) (Some ema) (Some decision)
          (Some (Bwb.build_bwb_structure fmt_num fmt_2f chain structure_type))
          spot chain events
  end.

End Pipeline.

End RunWeek.

(* ------------------------------------------------------------------ *)
(** ** research/historical_options_outcomes.py *)

Module Outcomes.

Definition DECISION_TRADE_ALLOWED : string := "TRADE ALLOWED".

(** One weekly decision; [None]: the key is missing. *)
Record decision_record : Type := mk_decision {
  monday_date : option string;
  week : option string;
  decision : option string;
  structure_type : option string
}.

(** One record of a Friday chain, with the keys read here. *)
Record friday_record : Type := mk_friday {
  f_type : option string;
  f_strike : option Q;
  settlement_price : option Q
}.

(** The weekly record built here: the keys [evaluate_backtest] reads,
    and the [structure_type] key beside them. *)
Record outcome_record : Type := mk_outcome {
  record : Backtest.weekly_record;
  record_structure_type : option string
}.

Definition get_string (x : option string) (default : string) : string :=
  match x with Some s => s | None => default end.

(** [_build_option_lookup]: the entries written into the dict, in chain
    order; a later entry with an equal key replaces an earlier one, so
    [lookup_get] answers with the last match. *)
Definition _build_option_lookup (chain : list friday_record)
  : list (string * Q * friday_record) :=
  flat_map (fun opt =>
              match f_type opt, f_strike opt with
              | Some t, Some k =>
                  if Py.nonempty_string t then [(t, k, opt)] else []
              | _, _ => []
              end) chain.

Definition lookup_get (lookup : list (string * Q * friday_record))
           (option_type : string) (k : Q) : option friday_record :=
  fold_left (fun found entry =>
               let '(t, k', opt) := entry in
               if String.eqb t option_type && Qeq_bool k' k then Some opt else found)
            lookup None.

(** The loop of [_compute_expiration_pnl] on [total_leg_value]; [None]
    is the early [return None]. *)
Fixpoint leg_values (friday_lookup : list (string * Q * friday_record))
         (legs : list Bwb.leg) (total_leg_value : Q) : option Q :=
  match legs with
  | [] => Some total_leg_value
  | leg :: legs' =>
      match lookup_get friday_lookup (Bwb.leg_type leg) (Bwb.leg_strike leg) with
      | None => None
      | Some friday_option =>
          match settlement_price friday_option with
          | None => None
          | Some settlement =>
              let entry_price := Bwb.leg_price leg in
              let quantity := inject_Z (Bwb.leg_quantity leg) in
              let leg_pnl :=
                if String.eqb (Bwb.leg_action leg) "SELL"
                then (entry_price - settlement) * quantity
                else (settlement - entry_price) * quantity in
              leg_values friday_lookup legs' (total_leg_value + leg_pnl)
          end
      end
  end.

Definition _compute_expiration_pnl (legs : list Bwb.leg)
           (friday_chain : list friday_record) (net_premium : Q) : option Q :=
  match leg_values (_build_option_lookup friday_chain) legs 0 with
  | Some total_leg_value => Some (total_leg_value + net_premium)
  | None => None
  end.

Section Evaluate.

Variable fmt_num : Q -> string.
Variable fmt_2f : Q -> string.

(** [monday_chains] and [friday_chains] are dicts, read with [.get]. *)
Variable monday_chains : string -> option (list Bwb.option_record).
Variable friday_chains : string -> option (list friday_record).

Definition skipped (week_label decision : string) (st : option string)
           (max_loss : option Q) : outcome_record :=
  mk_outcome (Backtest.mk_week week_label (Some decision) (Some "SKIPPED"%string)
                               (Some 0) max_loss) st.

Definition _evaluate_single_week (d : decision_record) : outcome_record :=
  let monday := get_string (monday_date d) "" in
  let week_label := get_string (week d) "" in
  let decision := get_string (decision d) "NO TRADE" in
  let structure_type := get_string (structure_type d) "PUT_CREDIT_BWB" in
  if negb (String.eqb decision DECISION_TRADE_ALLOWED) then
    skipped week_label decision None None
  else
    match monday_chains monday with
    | None | Some [] => skipped week_label decision (Some structure_type) None
    | Some ((_ :: _) as monday_chain) =>
        match friday_chains monday with
        | None | Some [] => skipped week_label decision (Some structure_type) None
        | Some ((_ :: _) as friday_chain) =>
            let bwb_result :=
              Bwb.build_bwb_structure fmt_num fmt_2f monday_chain structure_type in
            if negb (Bwb.valid bwb_result) then
              skipped week_label decision (Some structure_type) None
            else
              let max_loss := Bwb.max_loss bwb_result in
              match _compute_expiration_pnl (Bwb.legs bwb_result) friday_chain
                                            (Bwb.net_premium bwb_result) with
              | None => skipped week_label decision (Some structure_type) max_loss
              | Some total_pnl =>
                  mk_outcome
                    (Backtest.mk_week week_label (Some decision)
                       (Some (if Qle_bool 0 total_pnl then "WIN" else "LOSS")%string)
                       (Some (Py.round4 total_pnl)) max_loss)
                    (Some structure_type)
              end
        end
    end.

Record outcomes_result : Type := mk_outcomes {
  metrics : Backtest.metrics;
  weekly_records : list outcome_record
}.

Definition evaluate_historical_outcomes (weekly_decisions : list decision_record)
  : outcomes_result :=
  let weekly_records := map _evaluate_single_week weekly_decisions in
  mk_outcomes (Backtest.evaluate_backtest (map record weekly_records)) weekly_records.

End Evaluate.

End Outcomes.

(** The chains of the module's demonstration. *)
Module OutcomesData.
Import Outcomes.

Definition settled (k settlement : Q) : friday_record :=
  mk_friday (Some "put"%string) (Some k) (Some settlement).

Definition friday_chain_win : list friday_record :=
  [ settled 5800 0; settled 5825 0; settled 5850 0; settled 5875 0;
    settled 5900 (5 # 100); settled 5925 (10 # 100); settled 5950 (15 # 100) ].

Definition friday_chain_loss : list friday_record :=
  [ settled 5800 0; settled 5825 0; settled 5850 15; settled 5875 40;
    settled 5900 65; settled 5925 90; settled 5950 115 ].

Definition weekly_decisions : list decision_record :=
  [ mk_decision (Some "2024-01-08") (Some "2024-W02") (Some "TRADE ALLOWED")
                (Some "PUT_CREDIT_BWB");
    mk_decision (Some "2024-01-15") (Some "2024-W03") (Some "NO TRADE")
                (Some "PUT_CREDIT_BWB");
    mk_decision (Some "2024-01-22") (Some "2024-W04") (Some "TRADE ALLOWED")
                (Some "PUT_CREDIT_BWB") ]%string.

Definition monday_chains (monday : string) : option (list Bwb.option_record) :=
  if String.eqb monday "2024-01-08" then Some Bwb.sample_put_chain
  else if String.eqb monday "2024-01-22" then Some Bwb.sample_put_chain
  else None.

Definition friday_chains (monday : string) : option (list friday_record) :=
  if String.eqb monday "2024-01-08" then Some friday_chain_win
  else if String.eqb monday "2024-01-22" then Some friday_chain_loss
  else None.

(** A leg has a settled quote in a Friday chain. *)
Definition quoted (chain : list friday_record) (l : Bwb.leg) : Prop :=
  exists opt k s,
    In opt chain /\ f_type opt = Some (Bwb.leg_type l)
    /\ f_strike opt = Some k /\ k == Bwb.leg_strike l
    /\ settlement_price opt = Some s.

(** The records that count as trades. *)
Definition win_or_loss (w : Backtest.weekly_record) : Prop :=
  Backtest.outcome w = Some "WIN"%string \/ Backtest.outcome w = Some "LOSS"%string.

Definition allowed_count (ds : list decision_record) : nat :=
  List.length (filter (fun d => String.eqb (get_string (decision d) "NO TRADE")
                                         DECISION_TRADE_ALLOWED) ds).

End OutcomesData.

(* ------------------------------------------------------------------ *)
(** ** Further price series of the demonstrations in ema_engine.py *)

Module EmaSeries.




End EmaSeries.

(* ------------------------------------------------------------------ *)
(** ** Readings of the entry evaluator's inputs *)

Module EntryInputs.
Import Entry.

(** The truth of [v.get(key, False)]: [None] when [v] is not a dict or
    the truth test raises. *)
Definition flag (v : pyval) (key : string) : option bool :=
  bind (get v key (PBool false)) truthy.

(** The truth of [ema_state.get("long_ema_slope", "negative") == "negative"]. *)
Definition slope_negative (ema_state : pyval) : option bool :=
  bind (get ema_state "long_ema_slope" (PStr "negative"))
       (fun v => eq_string v "negative").

(** The tag one block of [_evaluate_hard_blocks] contributes: the
    invalid tag for a value that is not a dict, the block tag for a flag
    that is not set, nothing for a flag that is set; [None] when the truth
    test raises. *)
Definition block_tags (v : pyval) (key invalid_tag block_tag : string)
  : option (list string) :=
  if negb (is_dict v) then Some [invalid_tag]
  else match flag v key with
       | Some true => Some []
       | Some false => Some [block_tag]
       | None => None
       end.

(** Inputs of the module's demonstrations. *)
Definition holiday_ok : pyval :=
  PDict [("is_trade_week"%string, PBool true);
         ("reason"%string, PStr "Trade week allowed.")].

Definition holiday_closed : pyval :=
  PDict [("is_trade_week"%string, PBool false);
         ("reason"%string, PStr "Monday is a market holiday.")].

Definition ema_ok : pyval :=
  PDict [("valid"%string, PBool true);
         ("short_above_long"%string, PBool true);
         ("long_ema_slope"%string, PStr "positive");
         ("reason"%string, PStr "EMA computed.")].

Definition context_ok : pyval :=
  PDict [("entry_day"%string, PStr "Monday");
         ("entry_time_valid"%string, PBool true)].

End EntryInputs.

(* ------------------------------------------------------------------ *)
(** ** The drawdown loop of backtest/evaluator.py, as an invariant *)

Module Drawdown.

(** [drawdown_inv done st]: after the pnls [done], the loop state
    [(cumulative, peak, max_dd)] holds their sum, the largest sum of a
    prefix of [done] (the empty prefix included), and the largest loss
    of a contiguous run of [done] (the empty run included). *)
Definition drawdown_inv (done : list Q) (st : Q * Q * Q) : Prop :=
  let '(cumulative, peak, max_dd) := st in
  cumulative == Py.sum done
  /\ (forall a b, done = a ++ b -> Py.sum a <= peak)
  /\ (exists a b, done = a ++ b /\ peak == Py.sum a)
  /\ (forall a b c, done = a ++ b ++ c -> - Py.sum b <= max_dd)
  /\ (exists a b c, done = a ++ b ++ c /\ max_dd == - Py.sum b).

(** The pnl sequence of the module's drawdown demonstration. *)
Definition traded_pnls : list Q :=
  [250 # 100; 275 # 100; -(2240 # 100); 280 # 100; 255 # 100; 265 # 100;
   -(2230 # 100); 245 # 100].

End Drawdown.

(* ------------------------------------------------------------------ *)
(** * Theorems *)

Module PyFacts.
Import Py.

Lemma index_neg_last {A : Type} (xs : list A) (y : A) :
  index_neg (xs ++ [y]) 1 = Some y.
Proof.
  unfold index_neg. rewrite length_app. change (List.length [y]) with 1%nat.
  destruct (Nat.leb_spec 1 (List.length xs + 1)); [| lia].
  replace (List.length xs + 1 - 1)%nat with (List.length xs) by lia.
  rewrite nth_error_app2 by lia. now rewrite Nat.sub_diag.
Qed.

Lemma index_neg_before_last {A : Type} (xs : list A) (y z : A) :
  index_neg (xs ++ [y; z]) 2 = Some y.
Proof.
  unfold index_neg. rewrite length_app. change (List.length [y; z]) with 2%nat.
  destruct (Nat.leb_spec 2 (List.length xs + 2)); [| lia].
  replace (List.length xs + 2 - 2)%nat with (List.length xs) by lia.
  rewrite nth_error_app2 by lia. now rewrite Nat.sub_diag.
Qed.

Lemma two_last {A : Type} (xs : list A) :
  (2 <= List.length xs)%nat -> exists front y z, xs = front ++ [y; z].
Proof.
  intros H.
  destruct (exists_last (l := xs)) as [xs1 [z ->]].
  { intros ->. simpl in H. lia. }
  rewrite length_app in H. simpl in H.
  destruct (exists_last (l := xs1)) as [xs2 [y ->]].
  { intros ->. simpl in H. lia. }
  exists xs2, y, z. now rewrite <- app_assoc.
Qed.

(** *** Binary64 rounding *)

Lemma round_half_even_error (y : Q) :
  Qabs (inject_Z (Py.round_half_even y) - y) <= 1 # 2.
Proof.
  unfold Py.round_half_even.
  pose proof (Qfloor_le y) as Hlo.
  pose proof (Qlt_floor y) as Hhi.
  rewrite inject_Z_plus in Hhi. change (inject_Z 1) with 1 in Hhi.
  set (n := Qfloor y) in *.
  assert (Hsame : Qabs (inject_Z n - y) <= 1 # 2 <-> y - inject_Z n <= 1 # 2).
  { split; intros H.
    - apply Qabs_Qle_condition in H. lra.
    - apply Qabs_Qle_condition. lra. }
  assert (Hnext : Qabs (inject_Z (n + 1) - y) <= 1 # 2 <-> 1 # 2 <= y - inject_Z n).
  { rewrite inject_Z_plus. change (inject_Z 1) with 1. split; intros H.
    - apply Qabs_Qle_condition in H. lra.
    - apply Qabs_Qle_condition. lra. }
  destruct (Qcompare_spec (y - inject_Z n) (1 # 2)) as [E | L | G].
  - destruct (Z.even n); [apply Hsame | apply Hnext]; lra.
  - apply Hsame. lra.
  - apply Hnext. lra.
Qed.

Lemma pow2_pos (e : Z) : 0 < Py.pow2 e.
Proof.
  unfold Py.pow2. destruct (Z.leb_spec 0 e) as [H | H].
  - change 0 with (inject_Z 0). rewrite <- Zlt_Qlt. now apply Z.pow_pos_nonneg.
  - reflexivity.
Qed.

Lemma pow2_small (e : Z) : (e <= -52)%Z -> Py.pow2 e <= 1 # (2 ^ 52).
Proof.
  intros H. unfold Py.pow2.
  destruct (Z.leb_spec 0 e) as [? | _]; [lia |].
  unfold Qle. cbn [Qnum Qden]. rewrite Z.mul_1_l, Z.mul_1_l.
  rewrite Z2Pos.id by (apply Z.pow_pos_nonneg; lia).
  change (Z.pos (2 ^ 52)) with (2 ^ 52)%Z.
  apply Z.pow_le_mono_r; lia.
Qed.

Lemma binade_small (x : Q) : Qabs x < 2 -> (Py.binade x <= 0)%Z.
Proof.
  intros Hx. unfold Py.binade.
  set (e := (Z.log2 (Z.abs (Qnum x)) - Z.log2 (Z.pos (Qden x)))%Z).
  assert (He : (e <= 1)%Z).
  { unfold e. destruct x as [n d]. cbn [Qnum Qden].
    unfold Qabs, Qlt in Hx. cbn [Qnum Qden] in Hx.
    assert (Hn : (Z.abs n <= 2 * Z.pos d)%Z) by lia.
    apply Z.log2_le_mono in Hn.
    rewrite Z.log2_double in Hn by lia. lia. }
  destruct (Qle_bool (Py.pow2 e) (Qabs x)) eqn:Hc; [| lia].
  apply Qle_bool_iff in Hc.
  destruct (Z.eq_dec e 1) as [E | NE]; [| lia].
  rewrite E in Hc. change (Py.pow2 1) with 2 in Hc. lra.
Qed.

(** Round to nearest: a double is within half a quantum of the number it
    stands for; below 2 in absolute value that is at most [2^-53]. *)
Lemma float64_error (x : Q) : Qabs x < 2 -> Qabs (Py.float64 x - x) <= 1 # (2 ^ 53).
Proof.
  intros Hx. unfold Py.float64.
  destruct (Qeq_bool x 0) eqn:Hz.
  - apply Qeq_bool_iff in Hz.
    setoid_replace (0 - x) with 0 by lra. discriminate.
  - set (q := Py.pow2 (Z.max (Py.binade x - 52) (-1074))).
    assert (Hq : 0 < q) by apply pow2_pos.
    assert (Hsmall : q <= 1 # (2 ^ 52)).
    { apply pow2_small. pose proof (binade_small x Hx). lia. }
    pose proof (round_half_even_error (x / q)) as Herr.
    set (r := inject_Z (Py.round_half_even (x / q))) in *.
    assert (E : r * q - x == (r - x / q) * q) by (field; lra).
    rewrite E, Qabs_Qmult, (Qabs_pos q) by lra.
    apply Qle_trans with ((1 # 2) * q).
    + apply Qmult_le_compat_r; [exact Herr | lra].
    + apply Qle_trans with ((1 # 2) * (1 # 2 ^ 52)); [| apply Qle_refl].
      apply Qmult_le_l; [reflexivity | exact Hsmall].
Qed.

End PyFacts.

Module EmaFacts.
Import Ema.

Lemma ema_loop_length (m : Q) (rest : list Q) :
  forall prev acc,
    List.length (ema_loop m rest prev acc) = (List.length acc + List.length rest)%nat.
Proof.
  induction rest as [| p rest IH]; intros prev acc; simpl.
  - lia.
  - rewrite IH, length_app. simpl. lia.
Qed.

(** The loop only appends: what is already in the series stays. *)
Lemma ema_loop_keeps (m : Q) (rest : list Q) :
  forall prev acc i,
    (i < List.length acc)%nat -> nth i (ema_loop m rest prev acc) 0 = nth i acc 0.
Proof.
  induction rest as [| p rest IH]; intros prev acc i Hi; simpl.
  - reflexivity.
  - rewrite IH by (rewrite length_app; simpl; lia).
    now rewrite app_nth1.
Qed.

(** Every appended position is one recurrence step away from the
    position before it. *)
Lemma ema_loop_recurrence (m : Q) (rest : list Q) :
  forall prev acc j,
    acc <> [] ->
    nth (List.length acc - 1) acc 0 = prev ->
    (j < List.length rest)%nat ->
    nth (List.length acc + j) (ema_loop m rest prev acc) 0
    = ema_step m (nth (List.length acc + j - 1) (ema_loop m rest prev acc) 0)
                 (nth j rest 0).
Proof.
  induction rest as [| p rest IH]; intros prev acc j Hne Hlast Hj; simpl in Hj.
  - lia.
  - assert (Hlen : (0 < List.length acc)%nat).
    { destruct acc; [congruence | simpl; lia]. }
    simpl ema_loop.
    set (cur := ema_step m prev p).
    destruct j as [| j].
    + rewrite Nat.add_0_r.
      rewrite !ema_loop_keeps by (rewrite length_app; simpl; lia).
      rewrite app_nth2 by lia. rewrite Nat.sub_diag. simpl nth at 1.
      rewrite app_nth1 by lia. now rewrite Hlast.
    + specialize (IH cur (acc ++ [cur]) j).
      rewrite length_app in IH. simpl List.length in IH.
      replace (List.length acc + S j)%nat with (List.length acc + 1 + j)%nat by lia.
      apply IH.
      * destruct acc; discriminate.
      * rewrite app_nth2 by lia.
        now replace (List.length acc + 1 - 1 - List.length acc)%nat with 0%nat by lia.
      * lia.
Qed.

(** C3. With [period >= 1] and [len(prices) >= period + 2],
    [compute_ema_series] returns a series as long as the prices whose
    first [period] positions all hold the arithmetic mean of the first
    [period] prices and whose position [i], [period <= i < len(prices)],
    is [(price[i] - ema[i-1]) * (2/(period+1)) + ema[i-1]]; with
    [len(prices) < period + 2] it returns [None]. *)
Theorem compute_ema_series_spec (prices : list Q) (period : Z)
        (Hperiod : (1 <= period)%Z) :
  ((period + 2 <= Z.of_nat (List.length prices))%Z ->
   exists ema,
     compute_ema_series prices period = Some ema /\
     List.length ema = List.length prices /\
     (forall i, (i < Z.to_nat period)%nat ->
                nth i ema 0 = Py.mean (firstn (Z.to_nat period) prices)) /\
     (forall i, (Z.to_nat period <= i < List.length prices)%nat ->
                nth i ema 0
                = (nth i prices 0 - nth (i - 1) ema 0) * (2 / inject_Z (period + 1))
                  + nth (i - 1) ema 0))
  /\
  ((Z.of_nat (List.length prices) < period + 2)%Z ->
   compute_ema_series prices period = None).
Proof.
  unfold compute_ema_series.
  destruct (Z.ltb_spec period 1) as [Hlt | _]; [lia |].
  split; intros Hlen.
  - destruct (Z.ltb_spec (Z.of_nat (List.length prices)) (period + 2)) as [Hlt | _];
      [lia |].
    set (n := Z.to_nat period).
    assert (Hn : (n + 2 <= List.length prices)%nat) by (unfold n; lia).
    set (seed := Py.sum (firstn n prices) / inject_Z period).
    assert (Hseed : seed = Py.mean (firstn n prices)).
    { unfold seed, Py.mean. rewrite length_firstn, Nat.min_l by lia.
      unfold n. now rewrite Z2Nat.id by lia. }
    assert (Hskip : List.length (skipn n prices) = (List.length prices - n)%nat)
      by apply length_skipn.
    eexists. split; [reflexivity |]. split; [| split].
    + rewrite ema_loop_length, repeat_length, Hskip. lia.
    + intros i Hi.
      rewrite ema_loop_keeps by (now rewrite repeat_length).
      rewrite <- Hseed.
      apply nth_repeat_lt. exact Hi.
    + intros i [Hlo Hhi].
      assert (Hrep : List.length (repeat seed n) = n) by apply repeat_length.
      replace i with (List.length (repeat seed n) + (i - n))%nat at 1 3 by lia.
      replace (i - 1)%nat
        with (List.length (repeat seed n) + (i - n) - 1)%nat by lia.
      rewrite ema_loop_recurrence.
      * unfold ema_step.
        replace (nth (i - n) (skipn n prices) 0) with (nth i prices 0); [reflexivity |].
        rewrite nth_skipn. f_equal. lia.
      * intros E. apply (f_equal (@List.length Q)) in E. rewrite Hrep in E.
        simpl in E. unfold n in E. lia.
      * rewrite Hrep. apply nth_repeat_lt. unfold n. lia.
      * rewrite Hskip. lia.
  - destruct (Z.ltb_spec (Z.of_nat (List.length prices)) (period + 2)) as [_ | Hge];
      [reflexivity | lia].
Qed.

Lemma compute_ema_series_spec_witness :
  exists ema,
    compute_ema_series [10; 11; 12; 13; 14] 3 = Some ema /\
    List.length ema = 5%nat /\
    (forall i, (i < 3)%nat -> nth i ema 0 = Py.mean [10; 11; 12]) /\
    (forall i, (3 <= i < 5)%nat ->
               nth i ema 0
               = (nth i [10; 11; 12; 13; 14] 0 - nth (i - 1) ema 0) * (2 / inject_Z (3 + 1))
                 + nth (i - 1) ema 0).
Proof.
  apply (proj1 (compute_ema_series_spec [10; 11; 12; 13; 14] 3 ltac:(lia))).
  simpl. lia.
Defined.

End EmaFacts.

Module EmaStateFacts.
Import Ema.

Lemma ema_loop_snoc (m : Q) (rest : list Q) (a : Q) :
  forall prev acc,
    ema_loop m (rest ++ [a]) prev acc
    = ema_loop m rest prev acc ++ [ema_step m (fold_left (ema_step m) rest prev) a].
Proof.
  induction rest as [| p rest IH]; intros prev acc; simpl.
  - reflexivity.
  - apply IH.
Qed.

(** The last two entries of the series, as runs of the recurrence. *)
Lemma ema_loop_last_two (m : Q) (rest : list Q) (a b prev : Q) (acc : list Q) :
  let e := fold_left (ema_step m) rest prev in
  Py.index_neg (ema_loop m (rest ++ [a; b]) prev acc) 1
  = Some (ema_step m (ema_step m e a) b)
  /\ Py.index_neg (ema_loop m (rest ++ [a; b]) prev acc) 2
     = Some (ema_step m e a).
Proof.
  intros e.
  change (rest ++ [a; b]) with (rest ++ [a] ++ [b]).
  rewrite app_assoc, !ema_loop_snoc, fold_left_app. simpl fold_left. fold e.
  split.
  - apply PyFacts.index_neg_last.
  - rewrite <- app_assoc. apply PyFacts.index_neg_before_last.
Qed.

Lemma compute_ema_series_last_two (front mid : list Q) (a b : Q) (period : Z) :
  (1 <= period)%Z ->
  List.length front = Z.to_nat period ->
  let m := 2 / inject_Z (period + 1) in
  let seed := Py.sum front / inject_Z period in
  let e := fold_left (ema_step m) mid seed in
  exists series,
    compute_ema_series (front ++ mid ++ [a; b]) period = Some series
    /\ Py.index_neg series 1 = Some (ema_step m (ema_step m e a) b)
    /\ Py.index_neg series 2 = Some (ema_step m e a).
Proof.
  intros Hp Hlen m seed e.
  unfold compute_ema_series.
  destruct (Z.ltb_spec period 1) as [? | _]; [lia |].
  rewrite !length_app. simpl List.length.
  destruct (Z.ltb_spec (Z.of_nat (List.length front + (List.length mid + 2))) (period + 2))
    as [? | _]; [lia |].
  rewrite <- Hlen.
  rewrite firstn_app, firstn_all, Nat.sub_diag, firstn_O, app_nil_r.
  rewrite skipn_app, skipn_all, Nat.sub_diag. simpl skipn. simpl app at 1.
  eexists. split; [reflexivity |].
  apply ema_loop_last_two.
Qed.

Lemma last_cons_default (x : Q) (xs : list Q) (d : Q) : last (x :: xs) d = last xs x.
Proof.
  revert x d. induction xs as [| y ys IH]; intros x d; [reflexivity |].
  change (last (x :: y :: ys) d) with (last (y :: ys) d).
  now rewrite !IH.
Qed.

Lemma increasing_from_app (xs ys : list Q) :
  forall prev,
    increasing_from prev (xs ++ ys)
    <-> increasing_from prev xs /\ increasing_from (last xs prev) ys.
Proof.
  induction xs as [| x xs IH]; intros prev.
  - simpl. tauto.
  - rewrite last_cons_default. simpl. rewrite IH. tauto.
Qed.

(** On rising prices the fast average stays strictly between the slow
    average and the latest price. *)
Lemma ema_pair_invariant (ms ml : Q) (Hms : ms == 1 # 2) (Hml : ml == 2 # 9) :
  forall rest s l prev,
    l < s -> s <= prev -> increasing_from prev rest ->
    fold_left (ema_step ml) rest l < fold_left (ema_step ms) rest s
    /\ fold_left (ema_step ms) rest s <= last rest prev.
Proof.
  induction rest as [| x rest IH]; intros s l prev Hls Hsp Hinc.
  - simpl. split; assumption.
  - destruct Hinc as [Hpx Hinc].
    rewrite last_cons_default. simpl fold_left.
    apply IH; [| | exact Hinc]; unfold ema_step; rewrite ?Hms, ?Hml; lra.
Qed.

Lemma ten_prices (prices : list Q) :
  (10 <= List.length prices)%nat ->
  exists p0 p1 p2 p3 p4 p5 p6 p7 mid a b,
    prices = [p0; p1; p2; p3; p4; p5; p6; p7] ++ mid ++ [a; b].
Proof.
  intros H.
  do 8 (destruct prices as [| ? prices]; [simpl in H; lia |]).
  simpl in H.
  destruct (PyFacts.two_last prices) as (mid & a & b & ->); [lia |].
  now repeat eexists.
Qed.




(** The module's third demonstration: five prices are too few. *)
Example insufficient_prices (fmt_int : Z -> string) (fmt_4f : Q -> string)
        (fmt_bool : bool -> string) :
  let st := compute_ema_state fmt_int fmt_4f fmt_bool [100; 101; 102; 103; 104] 3 8 in
  valid st = false /\ short_ema st = None /\ long_ema st = None
  /\ data_points_used st = 5%Z.
Proof.
  cbv zeta. repeat split; reflexivity.
Qed.

End EmaStateFacts.

Module EntryFacts.
Import Entry.

(** C4. Whatever the three arguments are, [evaluate_entry] answers
    TRADE ALLOWED only with no hard block and no signal failure; and when
    a hard block is reported, the signal conditions were not evaluated:
    [signal_failures] is empty and the decision is NO TRADE. *)
Theorem evaluate_entry_gate (fmt_val : pyval -> string)
        (holiday_result ema_state entry_context : pyval) :
  let r := evaluate_entry fmt_val holiday_result ema_state entry_context in
  (decision r = DECISION_TRADE_ALLOWED ->
   hard_blocks_triggered r = [] /\ signal_failures r = [])
  /\ (hard_blocks_triggered r <> [] ->
      signal_failures r = [] /\ decision r = DECISION_NO_TRADE).
Proof.
  unfold evaluate_entry, on_exception.
  destruct (_evaluate_hard_blocks fmt_val holiday_result ema_state entry_context)
    as [[triggered hb_reasons] |]; cbn.
  - destruct triggered as [| t triggered]; cbn.
    + destruct (_evaluate_signal_conditions ema_state) as [[failed sc_reasons] |]; cbn.
      * destruct failed as [| f failed]; cbn; split; intros H;
          solve [discriminate H | now contradiction H | now split].
      * split; intros H; [discriminate H | now split].
    + split; intros H; [discriminate H | now split].
  - split; intros H; [discriminate H | now split].
Qed.

End EntryFacts.

Module BwbFacts.
Import Bwb.

Lemma round_half_even_nonneg (y : Q) : 0 <= y -> (0 <= Py.round_half_even y)%Z.
Proof.
  intros Hy. unfold Py.round_half_even.
  assert (Hfloor : (0 <= Qfloor y)%Z).
  { change 0%Z with (Qfloor 0). now apply Qfloor_resp_le. }
  destruct (Qcompare (y - inject_Z (Qfloor y)) (1 # 2)); [| lia | lia].
  destruct (Z.even (Qfloor y)); lia.
Qed.

Lemma round4_nonneg (x : Q) : 0 <= x -> 0 <= Py.round4 x.
Proof.
  intros Hx. unfold Py.round4.
  assert (H : (0 <= Py.round_half_even (x * 10000))%Z).
  { apply round_half_even_nonneg. lra. }
  unfold Qle. simpl. lia.
Qed.

Lemma floor_at_zero_nonneg (loss : Q) : 0 <= floor_at_zero loss.
Proof.
  unfold floor_at_zero.
  destruct (Qlt_le_dec 0 loss) as [Hpos | _]; [| apply Qle_refl].
  apply round4_nonneg. now apply Qlt_le_weak.
Qed.

Ltac break_match :=
  match goal with
  | |- context [match ?x with _ => _ end] => destruct x eqn:?
  end.

Ltac invalid_shape :=
  left; cbn; repeat split; discriminate.

Ltac valid_shape :=
  right; cbn; split; [reflexivity |];
  do 4 eexists; split; [reflexivity |]; split; reflexivity.

(** What a builder hands back: the untouched initial result with a
    reason, or a valid structure whose loss went through the floor. *)
Lemma put_builder_outcome (fmt_num fmt_2f : Q -> string)
      (chain : list option_record) (t : string) (r : bwb_structure) :
  _build_put_credit_bwb fmt_num fmt_2f chain (mk_bwb t [] 0 None false "") = Some r ->
  (valid r = false /\ legs r = [] /\ net_premium r = 0 /\ max_loss r = None
   /\ reason r <> ""%string)
  \/ (valid r = true
      /\ exists short upper lower net,
          legs r = [short; upper; lower]
          /\ net_premium r = Py.round4 net
          /\ max_loss r
             = Some (floor_at_zero (leg_strike upper - leg_strike short - net))).
Proof.
  unfold _build_put_credit_bwb. cbv zeta.
  repeat break_match; intros H; try discriminate H;
    injection H as <-; solve [invalid_shape | valid_shape].
Qed.

Lemma call_builder_outcome (fmt_num fmt_2f : Q -> string)
      (chain : list option_record) (t : string) (r : bwb_structure) :
  _build_call_debit_bwb fmt_num fmt_2f chain (mk_bwb t [] 0 None false "") = Some r ->
  (valid r = false /\ legs r = [] /\ net_premium r = 0 /\ max_loss r = None
   /\ reason r <> ""%string)
  \/ (valid r = true
      /\ exists short upper lower net,
          legs r = [short; upper; lower]
          /\ net_premium r = Py.round4 net
          /\ max_loss r
             = Some (floor_at_zero (leg_strike short - leg_strike lower - net))).
Proof.
  unfold _build_call_debit_bwb. cbv zeta.
  repeat break_match; intros H; try discriminate H;
    injection H as <-; solve [invalid_shape | valid_shape].
Qed.

Lemma build_outcome (fmt_num fmt_2f : Q -> string)
      (chain : list option_record) (t : string) :
  let r := build_bwb_structure fmt_num fmt_2f chain t in
  (valid r = false /\ legs r = [] /\ net_premium r = 0 /\ max_loss r = None
   /\ reason r <> ""%string)
  \/ (valid r = true
      /\ exists short upper lower net,
          legs r = [short; upper; lower]
          /\ net_premium r = Py.round4 net
          /\ ((t = STRUCTURE_PUT_CREDIT_BWB
               /\ max_loss r
                  = Some (floor_at_zero (leg_strike upper - leg_strike short - net)))
              \/ (t = STRUCTURE_CALL_DEBIT_BWB
                  /\ max_loss r
                     = Some (floor_at_zero (leg_strike short - leg_strike lower - net))))).
Proof.
  unfold build_bwb_structure. cbv zeta.
  destruct chain as [| o chain]; [invalid_shape |].
  destruct (String.eqb_spec t STRUCTURE_PUT_CREDIT_BWB) as [Hput | _].
  - destruct (_build_put_credit_bwb _ _ _ _) as [r |] eqn:E; [| invalid_shape].
    destruct (put_builder_outcome _ _ _ _ _ E)
      as [Hbad | (Hv & short & upper & lower & net & Hlegs & Hnet & Hloss)];
      [now left |].
    right. split; [exact Hv |]. exists short, upper, lower, net. auto.
  - destruct (String.eqb_spec t STRUCTURE_CALL_DEBIT_BWB) as [Hcall | _].
    + destruct (_build_call_debit_bwb _ _ _ _) as [r |] eqn:E; [| invalid_shape].
      destruct (call_builder_outcome _ _ _ _ _ E)
        as [Hbad | (Hv & short & upper & lower & net & Hlegs & Hnet & Hloss)];
        [now left |].
      right. split; [exact Hv |]. exists short, upper, lower, net. auto.
    + invalid_shape.
Qed.

(** C8. A structure returned with [valid = True] has a [max_loss] that
    is not negative: it is the width of the spread on the risk side (long
    upper minus short strike for the put structure, short minus long lower
    strike for the call structure) minus the net premium, floored at 0. *)
Theorem valid_structure_max_loss (fmt_num fmt_2f : Q -> string)
        (chain : list option_record) (t : string)
        (Hvalid : valid (build_bwb_structure fmt_num fmt_2f chain t) = true) :
  let r := build_bwb_structure fmt_num fmt_2f chain t in
  exists short upper lower net width,
    legs r = [short; upper; lower]
    /\ net_premium r = Py.round4 net
    /\ ((t = STRUCTURE_PUT_CREDIT_BWB /\ width = leg_strike upper - leg_strike short)
        \/ (t = STRUCTURE_CALL_DEBIT_BWB /\ width = leg_strike short - leg_strike lower))
    /\ max_loss r = Some (if Qlt_le_dec 0 (width - net) then Py.round4 (width - net) else 0)
    /\ exists loss, max_loss r = Some loss /\ 0 <= loss.
Proof.
  intros r.
  destruct (build_outcome fmt_num fmt_2f chain t)
    as [(Hf & _) | (_ & short & upper & lower & net & Hlegs & Hnet & Hloss)].
  - rewrite Hf in Hvalid. discriminate Hvalid.
  - destruct Hloss as [(Ht & Hloss) | (Ht & Hloss)].
    + exists short, upper, lower, net, (leg_strike upper - leg_strike short).
      repeat split; auto.
      eexists. split; [exact Hloss | apply floor_at_zero_nonneg].
    + exists short, upper, lower, net, (leg_strike short - leg_strike lower).
      repeat split; auto.
      eexists. split; [exact Hloss | apply floor_at_zero_nonneg].
Qed.

Lemma valid_structure_max_loss_witness :
  let r := build_bwb_structure (fun _ => EmptyString) (fun _ => EmptyString)
                               sample_put_chain STRUCTURE_PUT_CREDIT_BWB in
  exists short upper lower net width,
    legs r = [short; upper; lower]
    /\ net_premium r = Py.round4 net
    /\ ((STRUCTURE_PUT_CREDIT_BWB = STRUCTURE_PUT_CREDIT_BWB
         /\ width = leg_strike upper - leg_strike short)
        \/ (STRUCTURE_PUT_CREDIT_BWB = STRUCTURE_CALL_DEBIT_BWB
            /\ width = leg_strike short - leg_strike lower))
    /\ max_loss r = Some (if Qlt_le_dec 0 (width - net) then Py.round4 (width - net) else 0)
    /\ exists loss, max_loss r = Some loss /\ 0 <= loss.
Proof.
  apply (valid_structure_max_loss (fun _ => EmptyString) (fun _ => EmptyString)
           sample_put_chain STRUCTURE_PUT_CREDIT_BWB).
  vm_compute. reflexivity.
Defined.

(** C10. A result with [valid = False] has [net_premium = 0.0], no
    [max_loss], no legs and a reason that is not empty. *)
Theorem invalid_structure_defaults (fmt_num fmt_2f : Q -> string)
        (chain : list option_record) (t : string)
        (Hinvalid : valid (build_bwb_structure fmt_num fmt_2f chain t) = false) :
  net_premium (build_bwb_structure fmt_num fmt_2f chain t) = 0
  /\ max_loss (build_bwb_structure fmt_num fmt_2f chain t) = None
  /\ legs (build_bwb_structure fmt_num fmt_2f chain t) = []
  /\ reason (build_bwb_structure fmt_num fmt_2f chain t) <> ""%string.
Proof.
  destruct (build_outcome fmt_num fmt_2f chain t)
    as [(_ & Hlegs & Hnet & Hloss & Hreason) | (Ht & _)].
  - repeat split; assumption.
  - rewrite Ht in Hinvalid. discriminate Hinvalid.
Qed.

Lemma invalid_structure_defaults_witness :
  let r := build_bwb_structure (fun _ => EmptyString) (fun _ => EmptyString)
                               [put 5875 (-(55 # 100)) 26 27; put 5900 (-(50 # 100)) 21 22]
                               STRUCTURE_PUT_CREDIT_BWB in
  net_premium r = 0 /\ max_loss r = None /\ legs r = [] /\ reason r <> ""%string.
Proof.
  apply (invalid_structure_defaults (fun _ => EmptyString) (fun _ => EmptyString)
           [put 5875 (-(55 # 100)) 26 27; put 5900 (-(50 # 100)) 21 22]
           STRUCTURE_PUT_CREDIT_BWB).
  vm_compute. reflexivity.
Defined.

(** C6. The worked put scenario: the structure is valid, sells two puts
    at 5875, buys one at 5900 and one at 5825, for a net premium of -7.0
    and a maximum loss of 32.0. *)
Theorem put_credit_worked_scenario (fmt_num fmt_2f : Q -> string) :
  let r := build_bwb_structure fmt_num fmt_2f sample_put_chain STRUCTURE_PUT_CREDIT_BWB in
  valid r = true
  /\ map leg_summary (legs r)
     = [("SELL"%string, 2%Z, 5875); ("BUY"%string, 1%Z, 5900); ("BUY"%string, 1%Z, 5825)]
  /\ map leg_type (legs r) = ["put"%string; "put"%string; "put"%string]
  /\ net_premium r == - 7
  /\ exists loss, max_loss r = Some loss /\ loss == 32.
Proof.
  cbv zeta. split; [vm_compute; reflexivity |].
  split; [vm_compute; reflexivity |].
  split; [vm_compute; reflexivity |].
  split; [vm_compute; reflexivity |].
  eexists. split; vm_compute; reflexivity.
Qed.

(** *** The stable sort by strike *)

Lemma strike_keys_spec (opts : list option_record) :
  forall keyed,
    strike_keys opts = Some keyed ->
    map snd keyed = opts
    /\ Forall (fun p => strike (snd p) = Some (fst p)) keyed.
Proof.
  induction opts as [| o opts IH]; intros keyed H; simpl in H.
  - injection H as <-. split; [reflexivity | constructor].
  - destruct (strike o) as [k |] eqn:Hk; [| discriminate H].
    destruct (strike_keys opts) as [rest |]; [| discriminate H].
    injection H as <-. destruct (IH rest eq_refl) as [Hmap Hall].
    split; [simpl; now rewrite Hmap | constructor; [exact Hk | exact Hall]].
Qed.

Lemma insert_by_strike_perm (x : Q * option_record) (l : list (Q * option_record)) :
  Permutation (insert_by_strike x l) (x :: l).
Proof.
  induction l as [| y l IH]; simpl.
  - apply Permutation_refl.
  - destruct (Qle_bool (fst x) (fst y)); [apply Permutation_refl |].
    eapply perm_trans; [apply perm_skip, IH | apply perm_swap].
Qed.

Lemma insert_by_strike_ascending (x : Q * option_record) (l : list (Q * option_record)) :
  ascending l -> ascending (insert_by_strike x l).
Proof.
  unfold ascending.
  induction l as [| y l IH]; intros Hl; simpl.
  - constructor; constructor.
  - inversion Hl as [| ? ? Hl' Hy]; subst.
    destruct (Qle_bool (fst x) (fst y)) eqn:E.
    + apply Qle_bool_iff in E.
      constructor; [exact Hl |].
      constructor; [exact E |].
      eapply Forall_impl; [| exact Hy].
      intros z Hz. simpl in Hz. eapply Qle_trans; eassumption.
    + assert (Hyx : fst y <= fst x).
      { destruct (Qlt_le_dec (fst y) (fst x)) as [Hlt | Hle];
          [now apply Qlt_le_weak |].
        apply Qle_bool_iff in Hle. congruence. }
      constructor; [now apply IH |].
      eapply Permutation_Forall;
        [apply Permutation_sym, insert_by_strike_perm |].
      constructor; assumption.
Qed.

Lemma sorted_by_strike_spec (opts : list option_record) (ps : list (Q * option_record)) :
  sorted_by_strike opts = Some ps ->
  ascending ps
  /\ Permutation (map snd ps) opts
  /\ Forall (fun p => strike (snd p) = Some (fst p)) ps.
Proof.
  unfold sorted_by_strike.
  destruct (strike_keys opts) as [keyed |] eqn:Hk; [| discriminate].
  intros H. injection H as <-.
  destruct (strike_keys_spec opts keyed Hk) as [Hmap Hall].
  assert (Hperm : Permutation (fold_right insert_by_strike [] keyed) keyed).
  { clear. induction keyed as [| x keyed IH]; simpl; [constructor |].
    eapply perm_trans; [apply insert_by_strike_perm | now apply perm_skip]. }
  split; [| split].
  - clear. induction keyed as [| x keyed IH]; simpl.
    + constructor.
    + now apply insert_by_strike_ascending.
  - rewrite <- Hmap. now apply Permutation_map.
  - eapply Permutation_Forall; [apply Permutation_sym, Hperm | exact Hall].
Qed.

(** *** The scan for the closest delta *)

Lemma scan_step (t : Q) (seen : list (Q * option_record))
      (st : option (Q * option_record) * option Q) (x : Q * option_record) :
  scan_inv t seen st -> scan_inv t (seen ++ [x]) (closest_step t st x).
Proof.
  unfold closest_step.
  destruct st as [[c |] [m |]]; simpl; intros Hinv; try contradiction.
  - destruct Hinv as (d & before & after & Hseen & Hd & Hm & Hbefore & Hafter).
    (* a record that does not displace [c] joins the records after it *)
    assert (Hkeep : (forall dx, delta (snd x) = Some dx -> m <= delta_distance t dx) ->
                    scan_inv t (seen ++ [x]) (Some c, Some m)).
    { intros Hx. exists d, before, (after ++ [x]). rewrite Hseen, <- app_assoc.
      split; [reflexivity |]. split; [exact Hd |]. split; [exact Hm |].
      split; [exact Hbefore |].
      intros y d' Hy Hd'. apply in_app_or in Hy.
      destruct Hy as [Hy | [<- | []]]; [now apply (Hafter y d') | now apply Hx]. }
    destruct (delta (snd x)) as [dx |] eqn:Hdx; [| apply Hkeep; discriminate].
    destruct (Qlt_le_dec (delta_distance t dx) m) as [Hlt | Hle];
      [| apply Hkeep; now intros ? [= <-]].
    exists dx, seen, [].
    split; [reflexivity |]. split; [exact Hdx |]. split; [reflexivity |].
    split; [| intros y d' []].
    intros y d' Hy Hd'. rewrite Hseen in Hy.
    apply in_app_or in Hy. destruct Hy as [Hy | [<- | Hy]].
    + specialize (Hbefore y d' Hy Hd'). lra.
    + rewrite Hd in Hd'. injection Hd' as <-. rewrite <- Hm. exact Hlt.
    + specialize (Hafter y d' Hy Hd'). lra.
  - destruct (delta (snd x)) as [dx |] eqn:Hdx.
    + exists dx, seen, [].
      split; [reflexivity |]. split; [exact Hdx |]. split; [reflexivity |].
      split; [| intros y d' []].
      intros y d' Hy Hd'. rewrite (Hinv y Hy) in Hd'. discriminate Hd'.
    + intros y Hy. apply in_app_or in Hy.
      destruct Hy as [Hy | [<- | []]]; [now apply Hinv | exact Hdx].
Qed.

Lemma scan_fold (t : Q) (l : list (Q * option_record)) :
  forall seen st,
    scan_inv t seen st ->
    scan_inv t (seen ++ l) (fold_left (closest_step t) l st).
Proof.
  induction l as [| x l IH]; intros seen st Hinv; simpl.
  - now rewrite app_nil_r.
  - change (x :: l) with ([x] ++ l). rewrite app_assoc.
    apply IH. now apply scan_step.
Qed.

Lemma find_closest_delta_inv (t : Q) (options : list (Q * option_record)) :
  scan_inv t options (fold_left (closest_step t) options (None, None)).
Proof.
  apply (scan_fold t options [] (None, None)). intros y [].
Qed.

(** Without any delta in the chain the search finds nothing. *)
Lemma find_closest_delta_none (t : Q) (options : list (Q * option_record)) :
  _find_closest_delta options t = None <->
  (forall y, In y options -> delta (snd y) = None).
Proof.
  unfold _find_closest_delta.
  pose proof (find_closest_delta_inv t options) as Hinv.
  destruct (fold_left (closest_step t) options (None, None)) as [[c |] [m |]];
    simpl in *; try contradiction.
  - split; [discriminate |]. intros Hnone.
    destruct Hinv as (d & before & after & Hseen & Hd & _).
    rewrite (Hnone c) in Hd; [discriminate Hd |].
    rewrite Hseen. apply in_or_app. right. now left.
  - split; [intros _; exact Hinv | reflexivity].
Qed.

(** The short leg of a valid put structure is the record the scan chose. *)
Lemma put_builder_short_leg (fmt_num fmt_2f : Q -> string)
      (chain : list option_record) (t : string) (r : bwb_structure)
      (ps : list (Q * option_record)) (k : Q) (o : option_record) :
  sorted_by_strike (_filter_options chain "put") = Some ps ->
  _find_closest_delta ps TARGET_DELTA_PUT_SHORT = Some (k, o) ->
  _build_put_credit_bwb fmt_num fmt_2f chain (mk_bwb t [] 0 None false "") = Some r ->
  valid r = true ->
  exists upper lower,
    legs r = [_make_leg "SELL" 2 "put" k (_mid_price o) (delta o); upper; lower].
Proof.
  unfold _build_put_credit_bwb. cbv zeta.
  intros Hsorted. revert Hsorted.
  destruct (_filter_options chain "put") as [| p puts].
  - intros Hsorted Hfound. injection Hsorted as <-. discriminate Hfound.
  - intros -> ->.
    repeat break_match; intros H; try discriminate H;
      injection H as <-; cbn; intros Hv; try discriminate Hv.
    eexists. eexists. reflexivity.
Qed.

Lemma ascending_suffix (xs ys : list (Q * option_record)) :
  ascending (xs ++ ys) -> ascending ys.
Proof.
  unfold ascending. induction xs as [| x xs IH]; simpl; intros H; [exact H |].
  inversion H; subst. now apply IH.
Qed.

Lemma abs_cases (v : Q) : (0 <= v /\ Qabs v == v) \/ (v <= 0 /\ Qabs v == - v).
Proof.
  destruct (Qlt_le_dec v 0) as [H | H].
  - right. split; [lra |]. apply Qabs_neg. lra.
  - left. split; [exact H |]. now apply Qabs_pos.
Qed.

Ltac name_abs v x :=
  let H := fresh "Habs" in
  pose proof (abs_cases v) as H; set (x := Qabs v) in *; clearbody x;
  destruct H as [[? ?] | [? ?]].

(** The computed distance is the decimal one up to three roundings. *)
Lemma delta_distance_error (t d : Q) :
  0 <= t -> t <= 3 # 4 -> Qabs d <= 1 ->
  Qabs (delta_distance t d - decimal_distance t d) <= 3 # (2 ^ 53).
Proof.
  intros Ht0 Ht1 Hd.
  unfold delta_distance, decimal_distance.
  assert (Hd2 : Qabs d < 2) by lra.
  assert (Ht2 : Qabs t < 2) by (rewrite Qabs_pos by exact Ht0; lra).
  pose proof (PyFacts.float64_error d Hd2) as Ea.
  pose proof (PyFacts.float64_error t Ht2) as ET.
  clear Hd2 Ht2.
  set (a := Py.float64 d) in *. clearbody a.
  set (T := Py.float64 t) in *. clearbody T.
  assert (Heps : (3 # 2 ^ 53) == 3 * (1 # 2 ^ 53)) by reflexivity.
  assert (Heps_small : (1 # 2 ^ 53) <= 1 # 16) by discriminate.
  assert (Heps_pos : 0 <= 1 # 2 ^ 53) by discriminate.
  rewrite Heps. clear Heps.
  pose proof (PyFacts.float64_error (Qabs a - T)) as Es.
  set (s := Py.float64 (Qabs a - T)) in *. clearbody s.
  set (eps := 1 # 2 ^ 53) in *. clearbody eps.
  apply Qabs_Qle_condition in Ea. apply Qabs_Qle_condition in ET.
  assert (Hs : Qabs (Qabs a - T) < 2).
  { name_abs d ad; name_abs a aa; name_abs (aa - T) as_; lra. }
  specialize (Es Hs). clear Hs.
  apply Qabs_Qle_condition in Es.
  apply Qabs_Qle_condition.
  name_abs d ad; name_abs a aa; name_abs s ss; name_abs (ad - t) dd; lra.
Qed.

(** The distances the scan compares are doubles: 0.55 - 0.5 and
    0.6 - 0.55 differ in the last bits, as do 0.56 - 0.45 and
    0.45 - 0.34. *)
Example delta_distance_doubles :
  Py.float64 (55 # 100) == 2476979795053773 # 4503599627370496
  /\ Py.float64 (6 # 10) == 5404319552844595 # 9007199254740992
  /\ delta_distance TARGET_DELTA_PUT_SHORT (-(50 # 100))
     == 225179981368525 # 4503599627370496
  /\ delta_distance TARGET_DELTA_PUT_SHORT (-(60 # 100))
     == 450359962737049 # 9007199254740992
  /\ delta_distance TARGET_DELTA_CALL_SHORT (56 # 100)
     == 1981583836043019 # 18014398509481984
  /\ delta_distance TARGET_DELTA_CALL_SHORT (34 # 100)
     == 990791918021509 # 9007199254740992
  /\ delta_distance TARGET_DELTA_PUT_SHORT (-(55 # 100)) == 0.
Proof.
  repeat split; vm_compute; reflexivity.
Qed.

(** C5 (amended). In the ascending list of the put records, the record
    the put builder takes as its short strike carries a delta, and no put
    record with a delta is closer to 0.55 in the distance the code
    computes, [abs(abs(delta) - 0.55)] on doubles; every record listed
    before it is strictly farther, so among records at the same minimal
    computed distance it is the first and its strike the lowest.  As
    decimals, with deltas between -1 and 1, no put is closer to 0.55 than
    the selected one by more than [6 * 2^-53].  A valid structure sells
    the selected record twice. *)
Theorem put_short_strike_selection (fmt_num fmt_2f : Q -> string)
        (chain : list option_record)
        (ps : list (Q * option_record)) (k : Q) (o : option_record)
        (Hsorted : sorted_by_strike (_filter_options chain "put") = Some ps)
        (Hfound : _find_closest_delta ps TARGET_DELTA_PUT_SHORT = Some (k, o)) :
  ascending ps
  /\ Permutation (map snd ps) (_filter_options chain "put")
  /\ exists d before after,
      ps = before ++ (k, o) :: after
      /\ strike o = Some k
      /\ delta o = Some d
      /\ (forall y d', In y ps -> delta (snd y) = Some d' ->
            delta_distance TARGET_DELTA_PUT_SHORT d
            <= delta_distance TARGET_DELTA_PUT_SHORT d')
      /\ (forall y d', In y before -> delta (snd y) = Some d' ->
            delta_distance TARGET_DELTA_PUT_SHORT d
            < delta_distance TARGET_DELTA_PUT_SHORT d')
      /\ (forall y d', In y ps -> delta (snd y) = Some d' ->
            delta_distance TARGET_DELTA_PUT_SHORT d'
            == delta_distance TARGET_DELTA_PUT_SHORT d ->
            k <= fst y)
      /\ (Qabs d <= 1 ->
          forall y d', In y ps -> delta (snd y) = Some d' -> Qabs d' <= 1 ->
            decimal_distance TARGET_DELTA_PUT_SHORT d
            <= decimal_distance TARGET_DELTA_PUT_SHORT d' + (6 # 2 ^ 53))
      /\ (valid (build_bwb_structure fmt_num fmt_2f chain STRUCTURE_PUT_CREDIT_BWB) = true ->
          exists upper lower,
            legs (build_bwb_structure fmt_num fmt_2f chain STRUCTURE_PUT_CREDIT_BWB)
            = [_make_leg "SELL" 2 "put" k (_mid_price o) (Some d); upper; lower]).
Proof.
  destruct (sorted_by_strike_spec _ _ Hsorted) as (Hasc & Hperm & Hkeys).
  split; [exact Hasc |]. split; [exact Hperm |].
  pose proof (find_closest_delta_inv TARGET_DELTA_PUT_SHORT ps) as Hinv.
  unfold _find_closest_delta in Hfound.
  destruct (fold_left (closest_step TARGET_DELTA_PUT_SHORT) ps (None, None))
    as [c m] eqn:Hscan.
  simpl in Hfound. subst c.
  destruct m as [m |]; [| contradiction].
  destruct Hinv as (d & before & after & Hps & Hd & Hm & Hbefore & Hafter).
  simpl in Hd. subst m.
  exists d, before, after.
  split; [exact Hps |].
  split.
  { rewrite Forall_forall in Hkeys. apply (Hkeys (k, o)).
    rewrite Hps. apply in_or_app. right. now left. }
  split; [exact Hd |].
  assert (Hmin : forall y d', In y ps -> delta (snd y) = Some d' ->
                   delta_distance TARGET_DELTA_PUT_SHORT d
                   <= delta_distance TARGET_DELTA_PUT_SHORT d').
  { intros y d' Hy Hd'. rewrite Hps in Hy.
    apply in_app_or in Hy. destruct Hy as [Hy | [<- | Hy]].
    - apply Qlt_le_weak. now apply (Hbefore y d').
    - simpl in Hd'. rewrite Hd in Hd'. injection Hd' as <-. apply Qle_refl.
    - now apply (Hafter y d'). }
  split; [exact Hmin |].
  split; [exact Hbefore |].
  split.
  { intros y d' Hy Hd' Htie. rewrite Hps in Hy.
    apply in_app_or in Hy. destruct Hy as [Hy | [<- | Hy]].
    - exfalso. specialize (Hbefore y d' Hy Hd'). lra.
    - apply Qle_refl.
    - rewrite Hps in Hasc. apply ascending_suffix in Hasc.
      inversion Hasc as [| ? ? _ Hall]; subst.
      rewrite Forall_forall in Hall. exact (Hall y Hy). }
  split.
  { intros Hunit y d' Hy Hd' Hunit'.
    specialize (Hmin y d' Hy Hd').
    assert (Ht0 : 0 <= TARGET_DELTA_PUT_SHORT) by discriminate.
    assert (Ht1 : TARGET_DELTA_PUT_SHORT <= 3 # 4) by discriminate.
    pose proof (delta_distance_error _ d Ht0 Ht1 Hunit) as E.
    pose proof (delta_distance_error _ d' Ht0 Ht1 Hunit') as E'.
    apply Qabs_Qle_condition in E. apply Qabs_Qle_condition in E'.
    assert (Hsix : (6 # 2 ^ 53) == 2 * (3 # 2 ^ 53)) by reflexivity.
    rewrite Hsix. lra. }
  intros Hvalid.
  unfold build_bwb_structure in *. cbv zeta in *.
  destruct chain as [| o0 chain]; [discriminate Hvalid |].
  change (String.eqb STRUCTURE_PUT_CREDIT_BWB STRUCTURE_PUT_CREDIT_BWB) with true in *.
  cbv iota in *.
  assert (Hfound' : _find_closest_delta ps TARGET_DELTA_PUT_SHORT = Some (k, o)).
  { unfold _find_closest_delta. now rewrite Hscan. }
  destruct (_build_put_credit_bwb fmt_num fmt_2f (o0 :: chain) _) as [r |] eqn:Hr;
    [| discriminate Hvalid].
  rewrite <- Hd.
  exact (put_builder_short_leg _ _ _ _ _ _ _ _ Hsorted Hfound' Hr Hvalid).
Qed.

Lemma put_short_strike_selection_witness :
  ascending tied_put_chain_sorted
  /\ Permutation (map snd tied_put_chain_sorted) (_filter_options tied_put_chain "put")
  /\ exists d before after,
      tied_put_chain_sorted = before ++ (5850, put 5850 (-(56 # 100)) 32 33) :: after
      /\ strike (put 5850 (-(56 # 100)) 32 33) = Some 5850
      /\ delta (put 5850 (-(56 # 100)) 32 33) = Some d
      /\ (forall y d', In y tied_put_chain_sorted -> delta (snd y) = Some d' ->
            delta_distance TARGET_DELTA_PUT_SHORT d
            <= delta_distance TARGET_DELTA_PUT_SHORT d')
      /\ (forall y d', In y before -> delta (snd y) = Some d' ->
            delta_distance TARGET_DELTA_PUT_SHORT d
            < delta_distance TARGET_DELTA_PUT_SHORT d')
      /\ (forall y d', In y tied_put_chain_sorted -> delta (snd y) = Some d' ->
            delta_distance TARGET_DELTA_PUT_SHORT d'
            == delta_distance TARGET_DELTA_PUT_SHORT d ->
            5850 <= fst y)
      /\ (Qabs d <= 1 ->
          forall y d', In y tied_put_chain_sorted -> delta (snd y) = Some d' ->
            Qabs d' <= 1 ->
            decimal_distance TARGET_DELTA_PUT_SHORT d
            <= decimal_distance TARGET_DELTA_PUT_SHORT d' + (6 # 2 ^ 53))
      /\ (valid (build_bwb_structure (fun _ => EmptyString) (fun _ => EmptyString)
                   tied_put_chain STRUCTURE_PUT_CREDIT_BWB) = true ->
          exists upper lower,
            legs (build_bwb_structure (fun _ => EmptyString) (fun _ => EmptyString)
                    tied_put_chain STRUCTURE_PUT_CREDIT_BWB)
            = [_make_leg "SELL" 2 "put" 5850 (_mid_price (put 5850 (-(56 # 100)) 32 33))
                 (Some d); upper; lower]).
Proof.
  apply (put_short_strike_selection (fun _ => EmptyString) (fun _ => EmptyString)
           tied_put_chain tied_put_chain_sorted 5850 (put 5850 (-(56 # 100)) 32 33)).
  - vm_compute. reflexivity.
  - vm_compute. reflexivity.
Defined.

(** C5 as stated fails where rounding decides.

    A decimal tie: in [decimal_tie_put_chain] the puts at 5850 (delta
    -0.50) and 5875 (delta -0.60) are equally far from 0.55 and no put is
    closer, so the lowest qualifying strike is 5850; the builder sells the
    put at 5875, because as doubles [0.6 - 0.55] is smaller than
    [0.55 - 0.5].

    A rounded tie: in [near_tie_put_chain] the deltas at 5850 and 5875 are
    doubles, the put at 5875 is strictly the closest to 0.55 (and to the
    double 0.55), so it is the record the claim selects; the two rounded
    distances are equal, and the builder sells the put at 5850. *)
Lemma put_short_strike_rounded_distance :
  (let chain := decimal_tie_put_chain in
   let low := put 5850 (-(50 # 100)) 10 11 in
   let high := put 5875 (-(60 # 100)) 17 18 in
   let r := build_bwb_structure (fun _ => EmptyString) (fun _ => EmptyString)
              chain STRUCTURE_PUT_CREDIT_BWB in
   In low chain /\ In high chain
   /\ decimal_distance TARGET_DELTA_PUT_SHORT (-(50 # 100))
      == decimal_distance TARGET_DELTA_PUT_SHORT (-(60 # 100))
   /\ Forall (fun o => exists d,
                  delta o = Some d
                  /\ decimal_distance TARGET_DELTA_PUT_SHORT (-(50 # 100))
                     <= decimal_distance TARGET_DELTA_PUT_SHORT d) chain
   /\ delta_distance TARGET_DELTA_PUT_SHORT (-(60 # 100))
      < delta_distance TARGET_DELTA_PUT_SHORT (-(50 # 100))
   /\ valid r = true
   /\ map leg_summary (legs r)
      = [("SELL"%string, 2%Z, 5875); ("BUY"%string, 1%Z, 5900);
         ("BUY"%string, 1%Z, 5825)])
  /\ (let chain := near_tie_put_chain in
      let d_low := - (7205759403792793 # 72057594037927936) in
      let d_high := - (3602879701896397 # 36028797018963968) in
      let r := build_bwb_structure (fun _ => EmptyString) (fun _ => EmptyString)
                 chain STRUCTURE_PUT_CREDIT_BWB in
      In (put 5850 d_low 10 11) chain /\ In (put 5875 d_high 17 18) chain
      /\ Py.float64 d_low == d_low /\ Py.float64 d_high == d_high
      /\ decimal_distance TARGET_DELTA_PUT_SHORT d_high
         < decimal_distance TARGET_DELTA_PUT_SHORT d_low
      /\ decimal_distance (Py.float64 TARGET_DELTA_PUT_SHORT) d_high
         < decimal_distance (Py.float64 TARGET_DELTA_PUT_SHORT) d_low
      /\ Forall (fun o => exists d,
                     delta o = Some d
                     /\ decimal_distance TARGET_DELTA_PUT_SHORT d_high
                        <= decimal_distance TARGET_DELTA_PUT_SHORT d) chain
      /\ delta_distance TARGET_DELTA_PUT_SHORT d_high
         == delta_distance TARGET_DELTA_PUT_SHORT d_low
      /\ valid r = true
      /\ map leg_summary (legs r)
         = [("SELL"%string, 2%Z, 5850); ("BUY"%string, 1%Z, 5875);
            ("BUY"%string, 1%Z, 5800)]).
Proof.
  split; cbv zeta.
  - split; [simpl; tauto |]. split; [simpl; tauto |].
    split; [reflexivity |].
    split.
    { unfold decimal_tie_put_chain.
      repeat (constructor;
              [eexists; split; [reflexivity | apply Qle_bool_iff; reflexivity] |]).
      constructor. }
    split; [reflexivity |].
    split; vm_compute; reflexivity.
  - split; [simpl; tauto |]. split; [simpl; tauto |].
    split; [vm_compute; reflexivity |]. split; [vm_compute; reflexivity |].
    split; [reflexivity |]. split; [reflexivity |].
    split.
    { unfold near_tie_put_chain.
      repeat (constructor;
              [eexists; split; [reflexivity | apply Qle_bool_iff; reflexivity] |]).
      constructor. }
    split; [vm_compute; reflexivity |].
    split; vm_compute; reflexivity.
Qed.

End BwbFacts.

Module BacktestFacts.
Import Backtest.

Lemma get_eqb_true (field : option string) (s : string) :
  get_eqb field s = true <-> field = Some s.
Proof.
  unfold get_eqb. destruct field as [x |].
  - rewrite String.eqb_eq. split; [now intros -> | now intros [= ->]].
  - split; discriminate.
Qed.

Lemma get_eqb_false (field : option string) (s : string) :
  get_eqb field s = false <-> field <> Some s.
Proof.
  rewrite <- get_eqb_true. destruct (get_eqb field s); split; congruence.
Qed.

Lemma traded_filter (w : weekly_record) :
  get_eqb (decision w) DECISION_TRADE_ALLOWED
  && negb (get_eqb (outcome w) OUTCOME_SKIPPED) = true
  <-> traded w.
Proof.
  unfold traded.
  rewrite andb_true_iff, negb_true_iff, get_eqb_true, get_eqb_false. tauto.
Qed.

Lemma in_traded_weeks (ws : list weekly_record) (w : weekly_record) :
  In w (_filter_traded_weeks ws) <-> In w ws /\ traded w.
Proof.
  unfold _filter_traded_weeks. rewrite filter_In, traded_filter. tauto.
Qed.

(** *** Sums *)

Lemma fold_sum_shift (xs : list Q) :
  forall a, fold_left Qplus xs a == a + Py.sum xs.
Proof.
  unfold Py.sum.
  induction xs as [| x xs IH]; intros a; simpl.
  - ring.
  - rewrite (IH (a + x)), (IH (0 + x)). ring.
Qed.

Lemma sum_cons (x : Q) (xs : list Q) : Py.sum (x :: xs) == x + Py.sum xs.
Proof.
  unfold Py.sum at 1. simpl. rewrite fold_sum_shift. ring.
Qed.

Lemma sum_insert (xs zs : list Q) (y : Q) :
  Py.sum (xs ++ y :: zs) == Py.sum (xs ++ zs) + y.
Proof.
  induction xs as [| x xs IH]; simpl.
  - rewrite sum_cons. ring.
  - rewrite !sum_cons, IH. ring.
Qed.

Lemma sum_nonpositive (xs : list Q) :
  Forall (fun x => x <= 0) xs -> Py.sum xs <= 0.
Proof.
  induction 1 as [| x xs Hx _ IH]; [apply Qle_refl |].
  rewrite sum_cons. lra.
Qed.

Lemma sum_positive (xs : list Q) :
  xs <> [] -> Forall (fun x => 0 < x) xs -> 0 < Py.sum xs.
Proof.
  intros Hne Hall. induction Hall as [| x xs Hx Hall IH]; [congruence |].
  rewrite sum_cons. destruct xs as [| x' xs'].
  - unfold Py.sum. simpl. lra.
  - assert (0 < Py.sum (x' :: xs')) by (apply IH; discriminate). lra.
Qed.

Lemma length_positive (xs : list Q) :
  xs <> [] -> 0 < inject_Z (Z.of_nat (List.length xs)).
Proof.
  intros Hne. destruct xs as [| x xs]; [congruence |].
  change 0 with (inject_Z 0). rewrite <- Zlt_Qlt. simpl List.length. lia.
Qed.

Lemma mean_nonpositive (xs : list Q) :
  xs <> [] -> Forall (fun x => x <= 0) xs -> Py.mean xs <= 0.
Proof.
  intros Hne Hall. unfold Py.mean.
  apply Qle_shift_div_r; [now apply length_positive |].
  rewrite Qmult_0_l. now apply sum_nonpositive.
Qed.

Lemma mean_positive (xs : list Q) :
  xs <> [] -> Forall (fun x => 0 < x) xs -> 0 < Py.mean xs.
Proof.
  intros Hne Hall. unfold Py.mean.
  apply Qlt_shift_div_l; [now apply length_positive |].
  rewrite Qmult_0_l. now apply sum_positive.
Qed.

Lemma mean_or_zero_mean (xs : list Q) : xs <> [] -> mean_or_zero xs = Py.mean xs.
Proof. destruct xs; [congruence | reflexivity]. Qed.

(** *** Known and positive maximum losses *)

Lemma known_max_losses_spec (ws : list weekly_record) (m : Q) :
  In m (known_max_losses ws) <-> exists w, In w ws /\ max_loss w = Some m.
Proof.
  induction ws as [| w ws IH]; simpl.
  - split; [intros [] | intros (w & [] & _)].
  - destruct (max_loss w) as [m' |] eqn:Hw; simpl; rewrite IH; split.
    + intros [<- | (w' & Hin & Hm)]; [exists w; auto | exists w'; auto].
    + intros (w' & [<- | Hin] & Hm); [left; congruence | right; exists w'; auto].
    + intros (w' & Hin & Hm). exists w'; auto.
    + intros (w' & [<- | Hin] & Hm); [congruence | exists w'; auto].
Qed.

Lemma no_positive_max_loss (ws : list weekly_record) :
  positive_max_losses ws = [] -> Forall (fun m => m <= 0) (known_max_losses ws).
Proof.
  induction ws as [| w ws IH]; simpl; intros H; [constructor |].
  destruct (max_loss w) as [m |]; [| now apply IH].
  destruct (Qlt_le_dec 0 m) as [_ | Hle]; [discriminate H |].
  constructor; [exact Hle | now apply IH].
Qed.

Lemma all_positive_max_loss (ws : list weekly_record) :
  Forall (fun m => 0 < m) (known_max_losses ws) ->
  positive_max_losses ws = known_max_losses ws.
Proof.
  induction ws as [| w ws IH]; simpl; intros H; [reflexivity |].
  destruct (max_loss w) as [m |]; [| now apply IH].
  inversion H as [| ? ? Hm Hrest]; subst.
  destruct (Qlt_le_dec 0 m) as [_ | Hle]; [now rewrite IH |].
  exfalso. lra.
Qed.

Lemma round4_zero : Py.round4 0 == 0.
Proof. reflexivity. Qed.

(** C1 (amended). With at least one traded week, [return_on_risk] is the
    unrounded expectancy divided by the mean of the [max_loss] values of
    all traded weeks that report one, whatever their sign, rounded to 4
    places; it is 0 when no traded week reports a [max_loss] or when that
    mean is not positive.  So it is 0 when no traded week has a positive
    [max_loss], and it is the value of the specification when every
    reported [max_loss] is positive. *)
Theorem return_on_risk_known_max_losses (ws : list weekly_record)
        (Htraded : exists w, In w ws /\ traded w) :
  let r := evaluate_backtest ws in
  let traded_weeks := _filter_traded_weeks ws in
  let expectancy := Py.mean (map get_pnl traded_weeks) in
  let known := known_max_losses traded_weeks in
  return_on_risk r
  = Py.round4 (match known with
               | [] => 0
               | _ :: _ =>
                   if Qlt_le_dec 0 (Py.mean known)
                   then expectancy / Py.mean known else 0
               end)
  /\ (positive_max_losses traded_weeks = [] -> return_on_risk r == 0)
  /\ (Forall (fun m => 0 < m) known -> return_on_risk r == spec_return_on_risk ws).
Proof.
  destruct Htraded as (w0 & Hin & Htr).
  assert (Hne : _filter_traded_weeks ws <> []).
  { intros E. assert (Hw0 : In w0 (_filter_traded_weeks ws)).
    { apply in_traded_weeks. now split. }
    rewrite E in Hw0. contradiction. }
  cbv zeta.
  assert (Hcode :
            return_on_risk (evaluate_backtest ws)
            = Py.round4
                (match known_max_losses (_filter_traded_weeks ws) with
                 | [] => 0
                 | _ :: _ =>
                     if Qlt_le_dec 0 (Py.mean (known_max_losses (_filter_traded_weeks ws)))
                     then Py.mean (map get_pnl (_filter_traded_weeks ws))
                          / Py.mean (known_max_losses (_filter_traded_weeks ws))
                     else 0
                 end)).
  { unfold evaluate_backtest, spec_return_on_risk.
    destruct ws as [| w ws]; [simpl in Hne; congruence |].
    destruct (_filter_traded_weeks (w :: ws)) as [| t tw]; [congruence |].
    cbv zeta. cbn [return_on_risk].
    destruct (known_max_losses (t :: tw)) as [| m ms]; [| reflexivity].
    cbn [mean_or_zero].
    destruct (Qlt_le_dec 0 0) as [Habs | _]; [| reflexivity].
    exfalso. lra. }
  split; [exact Hcode |]. split.
  - intros Hnone. rewrite Hcode.
    apply no_positive_max_loss in Hnone.
    destruct (known_max_losses (_filter_traded_weeks ws)) as [| m ms] eqn:Hk;
      [apply round4_zero |].
    destruct (Qlt_le_dec 0 (Py.mean (m :: ms))) as [Hpos | _]; [| apply round4_zero].
    exfalso. assert (Py.mean (m :: ms) <= 0) by (now apply mean_nonpositive). lra.
  - intros Hall. rewrite Hcode. unfold spec_return_on_risk.
    rewrite (all_positive_max_loss _ Hall).
    destruct (known_max_losses (_filter_traded_weeks ws)) as [| m ms] eqn:Hk;
      [apply round4_zero |].
    destruct (Qlt_le_dec 0 (Py.mean (m :: ms))) as [_ | Hle]; [reflexivity |].
    exfalso. assert (0 < Py.mean (m :: ms)) by (now apply mean_positive). lra.
Qed.

Lemma return_on_risk_known_max_losses_witness :
  let r := evaluate_backtest zero_risk_weeks in
  let traded_weeks := _filter_traded_weeks zero_risk_weeks in
  let expectancy := Py.mean (map get_pnl traded_weeks) in
  let known := known_max_losses traded_weeks in
  return_on_risk r
  = Py.round4 (match known with
               | [] => 0
               | _ :: _ =>
                   if Qlt_le_dec 0 (Py.mean known)
                   then expectancy / Py.mean known else 0
               end)
  /\ (positive_max_losses traded_weeks = [] -> return_on_risk r == 0)
  /\ (Forall (fun m => 0 < m) known ->
      return_on_risk r == spec_return_on_risk zero_risk_weeks).
Proof.
  apply (return_on_risk_known_max_losses zero_risk_weeks).
  eexists. split; [left; reflexivity |].
  split; [reflexivity | discriminate].
Defined.

(** C1 as stated fails on [zero_risk_weeks]: both weeks are traded, the
    expectancy is 2, and the maximum losses 10 and 0 average to 5 in the
    code, which returns 0.4, while the mean over the positive ones alone
    is 10 and the stated value 0.2. *)
Lemma return_on_risk_counts_zero_max_loss :
  (forall w, In w zero_risk_weeks -> traded w)
  /\ return_on_risk (evaluate_backtest zero_risk_weeks) == 4 # 10
  /\ spec_return_on_risk zero_risk_weeks == 2 # 10
  /\ ~ return_on_risk (evaluate_backtest zero_risk_weeks)
       == spec_return_on_risk zero_risk_weeks.
Proof.
  split.
  { intros w [<- | [<- | []]]; (split; [reflexivity | discriminate]). }
  split; [reflexivity |]. split; [reflexivity |].
  intros H. vm_compute in H. discriminate H.
Qed.

(** The worked backtest scenario of the specification, on the module's
    synthetic data. *)
Example synthetic_backtest :
  let r := evaluate_backtest synthetic_data in
  total_trades r = 8%Z /\ wins r = 6%Z /\ losses r = 2%Z
  /\ win_rate r == 75 # 100
  /\ average_win r == 26167 # 10000
  /\ average_loss r == - (2235 # 100)
  /\ expectancy r == - (3625 # 1000)
  /\ cumulative_pnl r == - 29
  /\ max_drawdown r == 367 # 10
  /\ return_on_risk r == - (1620 # 10000).
Proof.
  cbv zeta. repeat split; vm_compute; reflexivity.
Qed.

Lemma disjoint_filters_length {A : Type} (f g : A -> bool) (l : list A) :
  (forall x, f x = true -> g x = false) ->
  (List.length (filter f l) + List.length (filter g l) <= List.length l)%nat.
Proof.
  intros Hfg. induction l as [| x l IH]; simpl; [lia |].
  destruct (f x) eqn:Hf.
  - rewrite (Hfg x Hf). simpl. lia.
  - destruct (g x); simpl; lia.
Qed.

Lemma filter_insert {A : Type} (f : A -> bool) (l1 l2 : list A) (x : A) :
  filter f (l1 ++ x :: l2)
  = if f x then filter f l1 ++ x :: filter f l2 else filter f (l1 ++ l2).
Proof.
  rewrite !filter_app. simpl. now destruct (f x).
Qed.

End BacktestFacts.

Module HolidayFacts.
Import Holiday.

(** The last Monday of the calendar is 9999-12-27, so its Friday is the
    last date: adding four days to a Monday never overflows. *)
Lemma friday_of_monday (monday : Z) :
  valid_date monday -> weekday monday = 0%Z ->
  add_days monday 4 = Some (monday + 4)%Z.
Proof.
  unfold valid_date, weekday, add_days, MIN_ORDINAL, MAX_ORDINAL.
  intros Hrange Hmon.
  destruct (Z.leb_spec 1 (monday + 4)); [| lia].
  destruct (Z.leb_spec (monday + 4) 3652059); [reflexivity |].
  exfalso.
  pose proof (Z.div_mod (monday + 6) 7 ltac:(lia)) as Hdiv.
  rewrite Hmon in Hdiv. lia.
Qed.

Section GateFacts.

Variable strptime : string -> option Z.
Variable Calendar : Type.
Variable get_calendar : option Calendar.
Variable schedule : Calendar -> Z -> Z -> option (option (list Z)).
Variable fmt_date : Z -> string.

(** [strptime] only produces dates. *)
Hypothesis strptime_valid : forall s d, strptime s = Some d -> valid_date d.

(** C7. For every input string the gate returns a result (no exception
    leaves it).  With a Monday date and a schedule that is available and
    not empty, [allowed] is the conjunction of "Monday is a trading day"
    and "Monday + 4 days is a trading day".  When the string does not
    parse, or is not a Monday, or the calendar cannot be loaded, or the
    schedule query fails or comes back [None] or empty, [allowed] is false.
    The reason is never empty. *)
Theorem is_trade_week_fail_closed (monday_date : string) :
  exists r,
    is_trade_week strptime Calendar get_calendar schedule fmt_date monday_date = Some r
    /\ reason r <> ""%string
    /\ (forall monday nyse dates,
           strptime monday_date = Some monday ->
           weekday monday = 0%Z ->
           get_calendar = Some nyse ->
           schedule nyse monday (monday + 4) = Some (Some dates) ->
           dates <> [] ->
           monday_trading_day r = mem_date monday dates
           /\ friday_trading_day r = mem_date (monday + 4) dates
           /\ allowed r = mem_date monday dates && mem_date (monday + 4) dates)
    /\ (strptime monday_date = None
        \/ (exists d, strptime monday_date = Some d /\ weekday d <> 0%Z)
        \/ get_calendar = None
        \/ (exists monday nyse,
               strptime monday_date = Some monday
               /\ get_calendar = Some nyse
               /\ (schedule nyse monday (monday + 4) = None
                   \/ schedule nyse monday (monday + 4) = Some None
                   \/ schedule nyse monday (monday + 4) = Some (Some []))) ->
        allowed r = false).
Proof.
  unfold is_trade_week.
  destruct (strptime monday_date) as [monday |] eqn:Hparse.
  2:{ eexists. split; [reflexivity |]. cbn. split; [discriminate |].
      split; [intros ? ? ? [=] |]. reflexivity. }
  destruct (Z.eqb_spec (weekday monday) 0) as [Hmon | Hnot]; cbn [negb].
  2:{ eexists. split; [reflexivity |]. cbn. split; [discriminate |].
      split; [| reflexivity].
      intros ? ? ? [= <-] Hw. contradiction. }
  rewrite (friday_of_monday monday (strptime_valid _ _ Hparse) Hmon).
  destruct get_calendar as [nyse |] eqn:Hcal.
  2:{ eexists. split; [reflexivity |]. cbn. split; [discriminate |].
      split; [intros ? ? ? _ _ [=] |]. reflexivity. }
  destruct (schedule nyse monday (monday + 4)) as [[[| d dates] |] |] eqn:Hsched.
  - eexists. split; [reflexivity |]. cbn. split; [discriminate |].
    split; [| reflexivity].
    intros ? ? ? [= <-] _ [= <-] Hs Hne. rewrite Hsched in Hs.
    injection Hs as <-. congruence.
  - set (m := mem_date monday (d :: dates)).
    set (f := mem_date (monday + 4) (d :: dates)).
    eexists. split; [reflexivity |].
    split.
    { destruct m, f; cbn; discriminate. }
    split.
    + intros ? ? ? [= <-] _ [= <-] Hs _. rewrite Hsched in Hs.
      injection Hs as <-. fold m f.
      destruct m, f; cbn; repeat split; reflexivity.
    + intros [Hfail | [(d' & [= <-] & Hfail) | [Hfail | Hfail]]];
        [discriminate Hfail | contradiction | discriminate Hfail |].
      destruct Hfail as (monday' & nyse' & [= <-] & [= <-] & Hs).
      rewrite Hsched in Hs.
      destruct Hs as [Hs | [Hs | Hs]]; discriminate Hs.
  - eexists. split; [reflexivity |]. cbn. split; [discriminate |].
    split; [| reflexivity].
    intros ? ? ? [= <-] _ [= <-] Hs _. rewrite Hsched in Hs. discriminate Hs.
  - eexists. split; [reflexivity |]. cbn. split; [discriminate |].
    split; [| reflexivity].
    intros ? ? ? [= <-] _ [= <-] Hs _. rewrite Hsched in Hs. discriminate Hs.
Qed.

End GateFacts.

Lemma january_strptime_valid (s : string) (d : Z) :
  january_strptime s = Some d -> valid_date d.
Proof.
  unfold january_strptime.
  destruct (String.eqb s "2024-01-08"); intros [= <-].
  unfold valid_date, MIN_ORDINAL, MAX_ORDINAL. lia.
Qed.

Lemma is_trade_week_fail_closed_witness :
  exists r,
    is_trade_week january_strptime unit (Some tt) january_schedule
                  (fun _ => EmptyString) "2024-01-08" = Some r
    /\ reason r <> ""%string
    /\ (forall monday nyse dates,
           january_strptime "2024-01-08" = Some monday ->
           weekday monday = 0%Z ->
           Some tt = Some nyse ->
           january_schedule nyse monday (monday + 4) = Some (Some dates) ->
           dates <> [] ->
           monday_trading_day r = mem_date monday dates
           /\ friday_trading_day r = mem_date (monday + 4) dates
           /\ allowed r = mem_date monday dates && mem_date (monday + 4) dates)
    /\ (january_strptime "2024-01-08" = None
        \/ (exists d, january_strptime "2024-01-08" = Some d /\ weekday d <> 0%Z)
        \/ Some tt = None
        \/ (exists monday nyse,
               january_strptime "2024-01-08" = Some monday
               /\ Some tt = Some nyse
               /\ (january_schedule nyse monday (monday + 4) = None
                   \/ january_schedule nyse monday (monday + 4) = Some None
                   \/ january_schedule nyse monday (monday + 4) = Some (Some []))) ->
        allowed r = false).
Proof.
  apply (is_trade_week_fail_closed january_strptime unit (Some tt) january_schedule
           (fun _ => EmptyString) january_strptime_valid "2024-01-08").
Defined.

End HolidayFacts.

(* ------------------------------------------------------------------ *)
(** * Further properties of the code *)

Module EmaMore.
Import Ema EmaSeries.

(** With enough prices the series exists and has a last and a
    last-but-one entry. *)
Lemma compute_ema_series_ends (prices : list Q) (period : Z) :
  (1 <= period)%Z ->
  (period + 2 <= Z.of_nat (List.length prices))%Z ->
  exists series e1 e2,
    compute_ema_series prices period = Some series
    /\ Py.index_neg series 1 = Some e1
    /\ Py.index_neg series 2 = Some e2.
Proof.
  intros Hp Hlen.
  set (n := Z.to_nat period).
  assert (Hsplit : prices = firstn n prices ++ skipn n prices)
    by (symmetry; apply firstn_skipn).
  destruct (PyFacts.two_last (skipn n prices)) as (mid & a & b & Hrest).
  { rewrite length_skipn. unfold n. lia. }
  rewrite Hrest in Hsplit.
  destruct (EmaStateFacts.compute_ema_series_last_two
              (firstn n prices) mid a b period Hp)
    as (series & Hs & H1 & H2).
  { rewrite length_firstn. unfold n. lia. }
  rewrite <- Hsplit in Hs.
  exists series. eexists. eexists. split; [exact Hs |]. split; eassumption.
Qed.

(** X1. [compute_ema_state] reports the number of prices it was given;
    it is valid exactly when [1 <= short_period < long_period] and there
    are at least [long_period + 2] prices; an invalid state carries no
    EMA value, the defaults [short_above_long = False] and slope
    ["negative"], and a reason; a valid state carries both EMA values. *)
Theorem compute_ema_state_valid_iff
        (fmt_int : Z -> string) (fmt_4f : Q -> string) (fmt_bool : bool -> string)
        (prices : list Q) (short_period long_period : Z) :
  let st := compute_ema_state fmt_int fmt_4f fmt_bool prices short_period long_period in
  data_points_used st = Z.of_nat (List.length prices)
  /\ (valid st = true <->
      (1 <= short_period /\ short_period < long_period
       /\ long_period + 2 <= Z.of_nat (List.length prices))%Z)
  /\ (valid st = false ->
      short_ema st = None /\ long_ema st = None /\ short_above_long st = false
      /\ long_ema_slope st = "negative"%string /\ reason st <> ""%string)
  /\ (valid st = true -> short_ema st <> None /\ long_ema st <> None).
Proof.
  unfold compute_ema_state. cbv zeta.
  destruct (Z.ltb_spec short_period 1) as [H1 | H1].
  { cbn. repeat split; try discriminate; try lia. }
  destruct (Z.ltb_spec long_period 1) as [H2 | H2].
  { cbn. repeat split; try discriminate; try lia. }
  destruct (Z.leb_spec long_period short_period) as [H3 | H3].
  { cbn. repeat split; try discriminate; try lia. }
  destruct (Z.ltb_spec (Z.of_nat (List.length prices)) (long_period + 2)) as [H4 | H4].
  { cbn. repeat split; try discriminate; try lia. }
  destruct (compute_ema_series_ends prices short_period H1 ltac:(lia))
    as (ss & s1 & s2 & -> & -> & _).
  destruct (compute_ema_series_ends prices long_period H2 H4)
    as (ls & l1 & l2 & -> & -> & ->).
  cbn. repeat split; try discriminate; try lia.
Qed.

(** *** The state on ten or more prices *)

(** The state computed from [p0 .. p7], any further prices [mid] and the
    last two prices [a] and [b], in terms of the two runs of the
    recurrence. *)
Lemma compute_ema_state_run
      (fmt_int : Z -> string) (fmt_4f : Q -> string) (fmt_bool : bool -> string)
      (p0 p1 p2 p3 p4 p5 p6 p7 : Q) (mid : list Q) (a b : Q) :
  let ms := 2 / inject_Z (3 + 1) in
  let ml := 2 / inject_Z (8 + 1) in
  let seed_s := Py.sum [p0; p1; p2] / inject_Z 3 in
  let seed_l := Py.sum [p0; p1; p2; p3; p4; p5; p6; p7] / inject_Z 8 in
  let s7 := fold_left (ema_step ms) [p3; p4; p5; p6; p7] seed_s in
  let sa := ema_step ms (fold_left (ema_step ms) mid s7) a in
  let la := ema_step ml (fold_left (ema_step ml) mid seed_l) a in
  let st := compute_ema_state fmt_int fmt_4f fmt_bool
              ([p0; p1; p2; p3; p4; p5; p6; p7] ++ mid ++ [a; b]) 3 8 in
  valid st = true
  /\ short_ema st = Some (ema_step ms sa b)
  /\ long_ema st = Some (ema_step ml la b)
  /\ short_above_long st
     = (if Qlt_le_dec (ema_step ml la b) (ema_step ms sa b) then true else false)
  /\ long_ema_slope st = classify_slope (ema_step ml la b - la).
Proof.
  intros ms ml seed_s seed_l s7 sa la st.
  destruct (EmaStateFacts.compute_ema_series_last_two
              [p0; p1; p2] ([p3; p4; p5; p6; p7] ++ mid) a b 3)
    as (ss & Hss & Hs1 & _); [lia | reflexivity |].
  destruct (EmaStateFacts.compute_ema_series_last_two
              [p0; p1; p2; p3; p4; p5; p6; p7] mid a b 8)
    as (ls & Hls & Hl1 & Hl2); [lia | reflexivity |].
  rewrite <- app_assoc in Hss.
  change ([p0; p1; p2] ++ [p3; p4; p5; p6; p7] ++ mid ++ [a; b])
    with ([p0; p1; p2; p3; p4; p5; p6; p7] ++ mid ++ [a; b]) in Hss.
  rewrite fold_left_app in Hs1.
  unfold st, compute_ema_state.
  change (3 <? 1)%Z with false. change (8 <? 1)%Z with false.
  change (8 <=? 3)%Z with false. cbv iota.
  destruct (Z.ltb_spec
              (Z.of_nat (List.length ([p0; p1; p2; p3; p4; p5; p6; p7] ++ mid ++ [a; b])))
              (8 + 2)) as [Hshort | _].
  { rewrite !length_app in Hshort. simpl in Hshort. lia. }
  rewrite Hss, Hls, Hs1, Hl1, Hl2. cbv zeta. cbn.
  repeat split; reflexivity.
Qed.

Lemma short_multiplier : 2 / inject_Z (3 + 1) == 1 # 2.
Proof. reflexivity. Qed.

Lemma long_multiplier : 2 / inject_Z (8 + 1) == 2 # 9.
Proof. reflexivity. Qed.

Lemma short_seed (p0 p1 p2 : Q) :
  Py.sum [p0; p1; p2] / inject_Z 3 == (p0 + p1 + p2) * (1 # 3).
Proof. unfold Py.sum. simpl. field. Qed.

Lemma long_seed (p0 p1 p2 p3 p4 p5 p6 p7 : Q) :
  Py.sum [p0; p1; p2; p3; p4; p5; p6; p7] / inject_Z 8
  == (p0 + p1 + p2 + p3 + p4 + p5 + p6 + p7) * (1 # 8).
Proof. unfold Py.sum. simpl. field. Qed.





End EmaMore.

Module EntryMore.
Import Entry EntryInputs.

Lemma check_block_tags (v : pyval) (key inv_tag inv_reason blk_tag : string)
      (blk_reason : pyval -> string) (triggered reasons : list string) :
  match check_block v key inv_tag inv_reason blk_tag blk_reason (triggered, reasons),
        block_tags v key inv_tag blk_tag with
  | Some (triggered', reasons'), Some tags =>
      triggered' = triggered ++ tags
      /\ List.length reasons' = (List.length reasons + List.length tags)%nat
  | None, None => True
  | _, _ => False
  end.
Proof.
  unfold check_block, block_tags, flag, bind.
  destruct (negb (is_dict v)).
  - split; [reflexivity |]. rewrite length_app. reflexivity.
  - destruct (get v key (PBool false)) as [x |]; [| exact I].
    destruct (truthy x) as [[|] |]; [| | exact I].
    + split; [now rewrite app_nil_r | simpl; lia].
    + split; [reflexivity |]. rewrite length_app. reflexivity.
Qed.

(** The tags of the three blocks, one after the other: no block is
    skipped because an earlier one triggered. *)
Lemma hard_blocks_tags (fmt_val : pyval -> string) (h e c : pyval) :
  match _evaluate_hard_blocks fmt_val h e c,
        block_tags h "is_trade_week" "holiday_data_invalid" "holiday_block",
        block_tags c "entry_time_valid" "entry_context_invalid" "entry_time_invalid",
        block_tags e "valid" "ema_data_invalid" "ema_invalid" with
  | Some (triggered, reasons), Some th, Some tc, Some te =>
      triggered = th ++ tc ++ te /\ List.length reasons = List.length triggered
  | Some _, _, _, _ => False
  | None, Some _, Some _, Some _ => False
  | None, _, _, _ => True
  end.
Proof.
  unfold _evaluate_hard_blocks, bind.
  match goal with
  | |- context [check_block h ?k ?a ?b ?c0 ?d ([], [])] =>
      pose proof (check_block_tags h k a b c0 d [] []) as H1;
      destruct (check_block h k a b c0 d ([], [])) as [[t1 r1] |]
  end;
  destruct (block_tags h "is_trade_week" "holiday_data_invalid" "holiday_block")
    as [th |]; try contradiction; [| exact I].
  destruct H1 as [-> Hr1].
  match goal with
  | |- context [check_block c ?k ?a ?b ?c0 ?d (?t, ?r)] =>
      pose proof (check_block_tags c k a b c0 d t r) as H2;
      destruct (check_block c k a b c0 d (t, r)) as [[t2 r2] |]
  end;
  destruct (block_tags c "entry_time_valid" "entry_context_invalid" "entry_time_invalid")
    as [tc |]; try contradiction; [| exact I].
  destruct H2 as [-> Hr2].
  match goal with
  | |- context [check_block e ?k ?a ?b ?c0 ?d (?t, ?r)] =>
      pose proof (check_block_tags e k a b c0 d t r) as H3;
      destruct (check_block e k a b c0 d (t, r)) as [[t3 r3] |]
  end;
  destruct (block_tags e "valid" "ema_data_invalid" "ema_invalid")
    as [te |]; try contradiction; [| exact I].
  destruct H3 as [-> Hr3].
  split; [now rewrite <- app_assoc |].
  rewrite Hr3, Hr2, Hr1, !length_app. simpl. lia.
Qed.

Lemma flag_not_dict (v : pyval) (key : string) :
  is_dict v = false -> flag v key = None.
Proof.
  unfold flag, bind, get. destruct v; try reflexivity. discriminate.
Qed.

Lemma block_tags_nil (v : pyval) (key inv_tag blk_tag : string) :
  block_tags v key inv_tag blk_tag = Some [] <-> flag v key = Some true.
Proof.
  unfold block_tags. destruct (is_dict v) eqn:Hd; cbn [negb].
  - destruct (flag v key) as [[|] |]; split; congruence.
  - rewrite (flag_not_dict v key Hd). split; discriminate.
Qed.

(** The hard blocks are clear exactly when the three flags are set. *)
Lemma hard_blocks_clear (fmt_val : pyval -> string) (h e c : pyval) :
  (exists reasons, _evaluate_hard_blocks fmt_val h e c = Some ([], reasons))
  <-> flag h "is_trade_week" = Some true
      /\ flag c "entry_time_valid" = Some true
      /\ flag e "valid" = Some true.
Proof.
  pose proof (hard_blocks_tags fmt_val h e c) as H.
  rewrite <- (block_tags_nil h "is_trade_week" "holiday_data_invalid" "holiday_block"),
          <- (block_tags_nil c "entry_time_valid" "entry_context_invalid"
                             "entry_time_invalid"),
          <- (block_tags_nil e "valid" "ema_data_invalid" "ema_invalid").
  destruct (_evaluate_hard_blocks fmt_val h e c) as [[t r] |];
    destruct (block_tags h _ _ _) as [th |];
    destruct (block_tags c _ _ _) as [tc |];
    destruct (block_tags e _ _ _) as [te |];
    try contradiction.
  - destruct H as [-> _]. split.
    + intros (reasons & Heq). injection Heq as Ht _.
      apply app_eq_nil in Ht. destruct Ht as [-> Ht].
      apply app_eq_nil in Ht. destruct Ht as [-> ->]. auto.
    + intros ([= ->] & [= ->] & [= ->]). eexists. reflexivity.
  - split; [intros (? & [=]) | intros (_ & _ & [=])].
  - split; [intros (? & [=]) | intros (_ & [=] & _)].
  - split; [intros (? & [=]) | intros (_ & [=] & _)].
  - split; [intros (? & [=]) | intros ([=] & _ & _)].
  - split; [intros (? & [=]) | intros ([=] & _ & _)].
  - split; [intros (? & [=]) | intros ([=] & _ & _)].
  - split; [intros (? & [=]) | intros ([=] & _ & _)].
Qed.

(** The two signal conditions, each reported on its own. *)
Lemma signal_tags (ema_state : pyval) :
  match _evaluate_signal_conditions ema_state,
        flag ema_state "short_above_long", slope_negative ema_state with
  | Some (failed, reasons), Some above, Some negative =>
      failed = (if above then [] else ["short_ema_not_above_long"%string])
               ++ (if negative then ["long_ema_slope_negative"%string] else [])
      /\ List.length reasons = List.length failed
  | Some _, _, _ => False
  | None, Some _, Some _ => False
  | None, _, _ => True
  end.
Proof.
  unfold _evaluate_signal_conditions, flag, slope_negative, bind.
  destruct (get ema_state "short_above_long" (PBool false)) as [x |] eqn:Hx;
    [| exact I].
  destruct (truthy x) as [above |]; [| exact I].
  destruct (get ema_state "long_ema_slope" (PStr "negative")) as [y |] eqn:Hy.
  2:{ destruct ema_state; discriminate. }
  destruct (eq_string y "negative") as [negative |];
    destruct above; cbn; try exact I; destruct negative; cbn; auto.
Qed.

(** X5. [evaluate_entry] answers TRADE ALLOWED exactly when the three
    arguments are dicts whose [is_trade_week], [entry_time_valid] and
    [valid] entries are true, [short_above_long] is true and
    [long_ema_slope] is not ["negative"]; a missing entry counts as false
    (as ["negative"] for the slope), and a test that raises as a
    refusal. *)
Theorem evaluate_entry_allowed_iff (fmt_val : pyval -> string)
        (holiday_result ema_state entry_context : pyval) :
  decision (evaluate_entry fmt_val holiday_result ema_state entry_context)
  = DECISION_TRADE_ALLOWED
  <-> flag holiday_result "is_trade_week" = Some true
      /\ flag entry_context "entry_time_valid" = Some true
      /\ flag ema_state "valid" = Some true
      /\ flag ema_state "short_above_long" = Some true
      /\ slope_negative ema_state = Some false.
Proof.
  pose proof (hard_blocks_clear fmt_val holiday_result ema_state entry_context) as Hhb.
  pose proof (signal_tags ema_state) as Hsc.
  unfold evaluate_entry, on_exception.
  destruct (_evaluate_hard_blocks fmt_val holiday_result ema_state entry_context)
    as [[triggered hb_reasons] |].
  - destruct triggered as [| t triggered].
    + assert (Hflags : flag holiday_result "is_trade_week" = Some true
                       /\ flag entry_context "entry_time_valid" = Some true
                       /\ flag ema_state "valid" = Some true).
      { apply Hhb. eexists. reflexivity. }
      destruct (_evaluate_signal_conditions ema_state) as [[failed sc_reasons] |];
        destruct (flag ema_state "short_above_long") as [above |];
        destruct (slope_negative ema_state) as [negative |];
        try contradiction; cbn.
      * destruct Hsc as [-> _].
        destruct above, negative; cbn; split; try discriminate;
          try (intros (_ & _ & _ & H1 & H2); discriminate).
        -- intros _. tauto.
        -- reflexivity.
      * split; [discriminate | intros (_ & _ & _ & _ & [=])].
      * split; [discriminate | intros (_ & _ & _ & [=] & _)].
      * split; [discriminate | intros (_ & _ & _ & [=] & _)].
    + cbn. split; [discriminate |].
      intros (F1 & F2 & F3 & _).
      destruct (proj2 Hhb (conj F1 (conj F2 F3))) as (reasons & [=]).
  - cbn. split; [discriminate |].
    intros (F1 & F2 & F3 & _).
    destruct (proj2 Hhb (conj F1 (conj F2 F3))) as (reasons & [=]).
Qed.

(** X6. Every tag comes with one reason: the number of reasons is the
    number of hard blocks plus the number of signal failures, plus the one
    confirming reason of a TRADE ALLOWED decision. *)
Theorem evaluate_entry_reason_count (fmt_val : pyval -> string)
        (holiday_result ema_state entry_context : pyval) :
  let r := evaluate_entry fmt_val holiday_result ema_state entry_context in
  List.length (reasons r)
  = (List.length (hard_blocks_triggered r) + List.length (signal_failures r)
     + (if String.eqb (decision r) DECISION_TRADE_ALLOWED then 1 else 0))%nat.
Proof.
  pose proof (hard_blocks_tags fmt_val holiday_result ema_state entry_context) as Hhb.
  pose proof (signal_tags ema_state) as Hsc.
  unfold evaluate_entry, on_exception. cbv zeta.
  destruct (_evaluate_hard_blocks fmt_val holiday_result ema_state entry_context)
    as [[triggered hb_reasons] |]; [| reflexivity].
  assert (Hlen : List.length hb_reasons = List.length triggered).
  { destruct (block_tags holiday_result _ _ _); [| contradiction].
    destruct (block_tags entry_context _ _ _); [| contradiction].
    destruct (block_tags ema_state _ _ _); [| contradiction].
    exact (proj2 Hhb). }
  destruct triggered as [| t triggered].
  - destruct (_evaluate_signal_conditions ema_state) as [[failed sc_reasons] |].
    + assert (Hlen2 : List.length sc_reasons = List.length failed).
      { destruct (flag ema_state "short_above_long"); [| contradiction].
        destruct (slope_negative ema_state); [| contradiction].
        exact (proj2 Hsc). }
      destruct failed as [| f failed]; cbn; rewrite ?length_app; cbn; simpl in *; lia.
    + cbn. rewrite length_app. simpl in *. lia.
  - cbn. simpl in *. lia.
Qed.

(** X7. Unless an unexpected error was converted into the
    ["evaluation_error"] block, each of the six hard-block tags is reported
    exactly when its own condition holds, whatever the other two inputs
    are: the invalid tags for arguments that are not dicts, the block tags
    for flags that are false. *)
Theorem hard_blocks_all_reported (fmt_val : pyval -> string)
        (holiday_result ema_state entry_context : pyval)
        (Hclean : ~ In "evaluation_error"%string
                      (hard_blocks_triggered
                         (evaluate_entry fmt_val holiday_result ema_state entry_context))) :
  let hb := hard_blocks_triggered
              (evaluate_entry fmt_val holiday_result ema_state entry_context) in
  (In "holiday_data_invalid"%string hb <-> is_dict holiday_result = false)
  /\ (In "holiday_block"%string hb <-> flag holiday_result "is_trade_week" = Some false)
  /\ (In "entry_context_invalid"%string hb <-> is_dict entry_context = false)
  /\ (In "entry_time_invalid"%string hb
      <-> flag entry_context "entry_time_valid" = Some false)
  /\ (In "ema_data_invalid"%string hb <-> is_dict ema_state = false)
  /\ (In "ema_invalid"%string hb <-> flag ema_state "valid" = Some false).
Proof.
  pose proof (hard_blocks_tags fmt_val holiday_result ema_state entry_context) as Hhb.
  cbv zeta.
  assert (Hshape :
            exists th tc te,
              block_tags holiday_result "is_trade_week" "holiday_data_invalid"
                         "holiday_block" = Some th
              /\ block_tags entry_context "entry_time_valid" "entry_context_invalid"
                            "entry_time_invalid" = Some tc
              /\ block_tags ema_state "valid" "ema_data_invalid" "ema_invalid" = Some te
              /\ hard_blocks_triggered
                   (evaluate_entry fmt_val holiday_result ema_state entry_context)
                 = th ++ tc ++ te).
  { revert Hclean. unfold evaluate_entry, on_exception.
    destruct (_evaluate_hard_blocks fmt_val holiday_result ema_state entry_context)
      as [[triggered hb_reasons] |].
    - destruct (block_tags holiday_result _ _ _) as [th |]; [| contradiction].
      destruct (block_tags entry_context _ _ _) as [tc |]; [| contradiction].
      destruct (block_tags ema_state _ _ _) as [te |]; [| contradiction].
      destruct Hhb as [Ht _].
      destruct triggered as [| t triggered].
      + destruct (_evaluate_signal_conditions ema_state) as [[failed sc_reasons] |].
        * destruct failed; cbn; intros _; exists th, tc, te; auto.
        * cbn. intros Hclean. exfalso. apply Hclean. now left.
      + cbn. intros _. exists th, tc, te. auto.
    - cbn. intros Hclean. exfalso. apply Hclean. now left. }
  destruct Hshape as (th & tc & te & Hth & Htc & Hte & ->).
  unfold block_tags in Hth, Htc, Hte.
  destruct (is_dict holiday_result) eqn:Dh; cbn [negb] in Hth;
    [destruct (flag holiday_result "is_trade_week") as [[|] |] eqn:Fh
    | pose proof (flag_not_dict holiday_result "is_trade_week" Dh) as Fh];
    try discriminate Hth; injection Hth as <-;
    (destruct (is_dict entry_context) eqn:Dc; cbn [negb] in Htc;
     [destruct (flag entry_context "entry_time_valid") as [[|] |] eqn:Fc
     | pose proof (flag_not_dict entry_context "entry_time_valid" Dc) as Fc]);
    try discriminate Htc; injection Htc as <-;
    (destruct (is_dict ema_state) eqn:De; cbn [negb] in Hte;
     [destruct (flag ema_state "valid") as [[|] |] eqn:Fe
     | pose proof (flag_not_dict ema_state "valid" De) as Fe]);
    try discriminate Hte; injection Hte as <-;
    rewrite ?Fh, ?Fc, ?Fe; cbn;
    repeat split; intros H;
    try discriminate H; try reflexivity;
    repeat (destruct H as [H | H]; try discriminate H); try contradiction;
    auto.
Qed.

Lemma hard_blocks_all_reported_witness :
  let hb := hard_blocks_triggered
              (evaluate_entry (fun _ => EmptyString) holiday_closed PNone context_ok) in
  (In "holiday_data_invalid"%string hb <-> is_dict holiday_closed = false)
  /\ (In "holiday_block"%string hb <-> flag holiday_closed "is_trade_week" = Some false)
  /\ (In "entry_context_invalid"%string hb <-> is_dict context_ok = false)
  /\ (In "entry_time_invalid"%string hb
      <-> flag context_ok "entry_time_valid" = Some false)
  /\ (In "ema_data_invalid"%string hb <-> is_dict PNone = false)
  /\ (In "ema_invalid"%string hb <-> flag PNone "valid" = Some false).
Proof.
  apply (hard_blocks_all_reported (fun _ => EmptyString) holiday_closed PNone context_ok).
  cbn. intros [H | [H | []]]; discriminate H.
Defined.

End EntryMore.

Module BacktestMore.
Import Backtest Drawdown.

Lemma sum_app (xs ys : list Q) : Py.sum (xs ++ ys) == Py.sum xs + Py.sum ys.
Proof.
  induction xs as [| x xs IH]; simpl.
  - change (Py.sum []) with 0. ring.
  - rewrite !BacktestFacts.sum_cons, IH. ring.
Qed.

Lemma sum_snoc (xs : list Q) (x : Q) : Py.sum (xs ++ [x]) == Py.sum xs + x.
Proof.
  rewrite sum_app, BacktestFacts.sum_cons. change (Py.sum []) with 0. ring.
Qed.

(** How a list ending in [x] splits in two. *)
Lemma split_snoc {A : Type} (done a b : list A) (x : A) :
  done ++ [x] = a ++ b ->
  (b = [] /\ a = done ++ [x]) \/ (exists b', b = b' ++ [x] /\ done = a ++ b').
Proof.
  intros H. destruct b as [| y b] using rev_ind.
  - left. rewrite app_nil_r in H. auto.
  - right. exists b. rewrite app_assoc in H.
    apply app_inj_tail in H. destruct H as [-> ->]. auto.
Qed.

Lemma drawdown_step_inv (done : list Q) (st : Q * Q * Q) (x : Q) :
  drawdown_inv done st -> drawdown_inv (done ++ [x]) (drawdown_step st x).
Proof.
  destruct st as [[cum peak] dd].
  intros (Hcum & Hpeak & (pa & pb & Hpd & Hpa) & Hdd & (da & db & dc & Hdone & Hda)).
  assert (Hdd0 : 0 <= dd).
  { specialize (Hdd done [] []). rewrite app_nil_r in Hdd.
    change (Py.sum []) with 0 in Hdd. specialize (Hdd eq_refl). lra. }
  assert (Hcum' : cum + x == Py.sum (done ++ [x])).
  { rewrite sum_snoc, Hcum. reflexivity. }
  unfold drawdown_step, drawdown_inv.
  set (peak' := if Qlt_le_dec peak (cum + x) then cum + x else peak).
  set (dd' := if Qlt_le_dec dd (peak' - (cum + x)) then peak' - (cum + x) else dd).
  assert (Hpeak_ge : peak <= peak' /\ cum + x <= peak').
  { unfold peak'. destruct (Qlt_le_dec peak (cum + x)); split; lra. }
  assert (Hdd_ge : dd <= dd' /\ peak' - (cum + x) <= dd').
  { unfold dd'. destruct (Qlt_le_dec dd (peak' - (cum + x))); split; lra. }
  assert (Hpeak'_at : exists a b, done ++ [x] = a ++ b /\ peak' == Py.sum a).
  { unfold peak'. destruct (Qlt_le_dec peak (cum + x)).
    - exists (done ++ [x]), []. rewrite app_nil_r. split; [reflexivity |].
      exact Hcum'.
    - exists pa, (pb ++ [x]). rewrite Hpd, <- app_assoc. auto. }
  split; [exact Hcum' |].
  split.
  { intros a b Hab. apply split_snoc in Hab.
    destruct Hab as [[-> ->] | (b' & -> & Hd)].
    - rewrite <- Hcum'. lra.
    - specialize (Hpeak a b' Hd). lra. }
  split; [exact Hpeak'_at |].
  split.
  { intros a b c Habc. rewrite app_assoc in Habc. apply split_snoc in Habc.
    destruct Habc as [[-> Hab] | (c' & -> & Hd)].
    - symmetry in Hab. apply split_snoc in Hab.
      destruct Hab as [[-> _] | (b' & -> & Hd)].
      + change (Py.sum []) with 0. lra.
      + specialize (Hpeak a b' Hd).
        rewrite Hd, sum_app in Hcum. rewrite sum_snoc. lra.
    - rewrite <- app_assoc in Hd. specialize (Hdd a b c' Hd). lra. }
  unfold dd'. destruct (Qlt_le_dec dd (peak' - (cum + x))).
  - destruct Hpeak'_at as (a & b & Hab & Ha).
    exists a, b, []. rewrite app_nil_r. split; [exact Hab |].
    rewrite Hcum', Hab, sum_app, Ha. ring.
  - exists da, db, (dc ++ [x]). rewrite Hdone, <- !app_assoc. auto.
Qed.

Lemma drawdown_fold_inv (rest : list Q) :
  forall done st,
    drawdown_inv done st ->
    drawdown_inv (done ++ rest) (fold_left drawdown_step rest st).
Proof.
  induction rest as [| x rest IH]; intros done st Hinv; simpl.
  - now rewrite app_nil_r.
  - change (x :: rest) with ([x] ++ rest). rewrite app_assoc.
    apply IH. now apply drawdown_step_inv.
Qed.

Lemma drawdown_start : drawdown_inv [] (0, 0, 0).
Proof.
  unfold drawdown_inv. change (Py.sum []) with 0.
  split; [reflexivity |].
  split.
  { intros a b H. symmetry in H. apply app_eq_nil in H. destruct H as [-> _].
    change (Py.sum []) with 0. lra. }
  split; [exists [], []; split; reflexivity |].
  split.
  { intros a b c H. symmetry in H. apply app_eq_nil in H. destruct H as [_ H].
    apply app_eq_nil in H. destruct H as [-> _]. change (Py.sum []) with 0. lra. }
  exists [], [], []. split; reflexivity.
Qed.

Lemma compute_max_drawdown_inv (pnls : list Q) :
  0 <= _compute_max_drawdown pnls
  /\ (forall a b c, pnls = a ++ b ++ c -> - Py.sum b <= _compute_max_drawdown pnls)
  /\ (exists a b c, pnls = a ++ b ++ c /\ _compute_max_drawdown pnls == - Py.sum b).
Proof.
  assert (H : drawdown_inv pnls (fold_left drawdown_step pnls (0, 0, 0))).
  { apply (drawdown_fold_inv pnls [] (0, 0, 0)). exact drawdown_start. }
  assert (Hsame : _compute_max_drawdown pnls
                  = snd (fold_left drawdown_step pnls (0, 0, 0))).
  { destruct pnls; reflexivity. }
  rewrite Hsame.
  destruct (fold_left drawdown_step pnls (0, 0, 0)) as [[cum peak] dd].
  destruct H as (_ & _ & _ & Hdd & Hat). cbn [snd].
  split; [| split; assumption].
  specialize (Hdd pnls [] []). rewrite app_nil_r in Hdd.
  change (Py.sum []) with 0 in Hdd. specialize (Hdd eq_refl). lra.
Qed.

(** X8. [_compute_max_drawdown] returns the largest loss of a contiguous
    run of trades: it is not negative, no run of consecutive pnls sums to
    less than minus the drawdown, and some run (possibly empty) loses
    exactly that much. *)
Theorem compute_max_drawdown_is_worst_run (pnls : list Q) :
  0 <= _compute_max_drawdown pnls
  /\ (forall before run after,
         pnls = before ++ run ++ after ->
         - _compute_max_drawdown pnls <= Py.sum run)
  /\ (exists before run after,
         pnls = before ++ run ++ after
         /\ Py.sum run == - _compute_max_drawdown pnls).
Proof.
  destruct (compute_max_drawdown_inv pnls) as (H0 & Hbound & (a & b & c & Hsplit & Hat)).
  split; [exact H0 |]. split.
  - intros before run after Hs. specialize (Hbound before run after Hs). lra.
  - exists a, b, c. split; [exact Hsplit |]. rewrite Hat. ring.
Qed.

Lemma total_trades_count (ws : list weekly_record) :
  total_trades (evaluate_backtest ws)
  = Z.of_nat (List.length (_filter_traded_weeks ws)).
Proof.
  unfold evaluate_backtest. destruct ws as [| w ws]; [reflexivity |].
  destruct (_filter_traded_weeks (w :: ws)); reflexivity.
Qed.

Lemma filter_traded_idempotent (ws : list weekly_record) :
  _filter_traded_weeks (_filter_traded_weeks ws) = _filter_traded_weeks ws.
Proof.
  unfold _filter_traded_weeks.
  induction ws as [| w ws IH]; simpl; [reflexivity |].
  destruct (get_eqb (decision w) DECISION_TRADE_ALLOWED
            && negb (get_eqb (outcome w) OUTCOME_SKIPPED)) eqn:E; [| exact IH].
  simpl. rewrite E. now rewrite IH.
Qed.

(** X10. Weeks that are not traded never influence a metric: the result
    is the one computed from the traded weeks alone, so two inputs with
    the same traded weeks in the same order give the same metrics. *)
Theorem evaluate_backtest_ignores_untraded (ws ws' : list weekly_record)
        (Hsame : _filter_traded_weeks ws = _filter_traded_weeks ws') :
  evaluate_backtest ws = evaluate_backtest ws'
  /\ evaluate_backtest ws = evaluate_backtest (_filter_traded_weeks ws).
Proof.
  assert (Hred : forall l, evaluate_backtest l = evaluate_backtest (_filter_traded_weeks l)).
  { intros l. unfold evaluate_backtest at 2. rewrite filter_traded_idempotent.
    unfold evaluate_backtest. destruct l as [| w l]; [reflexivity |].
    destruct (_filter_traded_weeks (w :: l)); reflexivity. }
  split; [| apply Hred].
  rewrite (Hred ws), (Hred ws'). now rewrite Hsame.
Qed.

Lemma evaluate_backtest_ignores_untraded_witness :
  evaluate_backtest synthetic_data
  = evaluate_backtest (_filter_traded_weeks synthetic_data)
  /\ evaluate_backtest synthetic_data
     = evaluate_backtest (_filter_traded_weeks synthetic_data).
Proof.
  apply (evaluate_backtest_ignores_untraded
           synthetic_data (_filter_traded_weeks synthetic_data)).
  reflexivity.
Defined.

(** *** Rounding keeps integer bounds *)

Lemma round_half_even_le (y : Q) (n : Z) :
  y <= inject_Z n -> (Py.round_half_even y <= n)%Z.
Proof.
  intros Hy. unfold Py.round_half_even.
  assert (Hfloor : (Qfloor y <= n)%Z).
  { rewrite <- (Qfloor_Z n). now apply Qfloor_resp_le. }
  destruct (Z.eq_dec (Qfloor y) n) as [E | NE].
  - assert (Hlow : inject_Z (Qfloor y) <= y) by apply Qfloor_le.
    assert (Hfrac : y - inject_Z (Qfloor y) < 1 # 2).
    { rewrite E in *. lra. }
    destruct (Qcompare_spec (y - inject_Z (Qfloor y)) (1 # 2)) as [Heq | _ | Hgt];
      [exfalso; lra | lia | exfalso; lra].
  - destruct (Qcompare (y - inject_Z (Qfloor y)) (1 # 2)); [| lia | lia].
    destruct (Z.even (Qfloor y)); lia.
Qed.

Lemma round_half_even_comp (x y : Q) :
  x == y -> Py.round_half_even x = Py.round_half_even y.
Proof.
  intros H. unfold Py.round_half_even.
  rewrite (Qfloor_comp x y H).
  assert (Hfrac : x - inject_Z (Qfloor y) == y - inject_Z (Qfloor y))
    by (rewrite H; reflexivity).
  now rewrite (Qcompare_comp _ _ Hfrac _ _ (Qeq_refl (1 # 2))).
Qed.

Lemma round4_comp (x y : Q) : x == y -> Py.round4 x = Py.round4 y.
Proof.
  intros H. unfold Py.round4.
  rewrite (round_half_even_comp (x * 10000) (y * 10000)); [reflexivity |].
  now rewrite H.
Qed.

Lemma round4_le_one (x : Q) : x <= 1 -> Py.round4 x <= 1.
Proof.
  intros Hx. unfold Py.round4.
  assert (H : (Py.round_half_even (x * 10000) <= 10000)%Z).
  { apply round_half_even_le. change (inject_Z 10000) with 10000. lra. }
  unfold Qle. simpl. lia.
Qed.

Lemma win_or_loss_lengths (tw : list weekly_record) :
  Forall (fun w => outcome w = Some OUTCOME_WIN \/ outcome w = Some OUTCOME_LOSS) tw ->
  (List.length (filter (fun w => get_eqb (outcome w) OUTCOME_WIN) tw)
   + List.length (filter (fun w => get_eqb (outcome w) OUTCOME_LOSS) tw)
   = List.length tw)%nat.
Proof.
  induction 1 as [| w tw Hw _ IH]; simpl; [reflexivity |].
  destruct Hw as [Hw | Hw]; rewrite Hw; simpl; lia.
Qed.

Lemma ratio_in_unit (a b : nat) :
  (a <= b)%nat -> (0 < b)%nat ->
  0 <= inject_Z (Z.of_nat a) / inject_Z (Z.of_nat b)
  /\ inject_Z (Z.of_nat a) / inject_Z (Z.of_nat b) <= 1.
Proof.
  intros Hab Hb.
  assert (Hpos : 0 < inject_Z (Z.of_nat b)).
  { change 0 with (inject_Z 0). rewrite <- Zlt_Qlt. lia. }
  assert (Ha : 0 <= inject_Z (Z.of_nat a)).
  { change 0 with (inject_Z 0). rewrite <- Zle_Qle. lia. }
  assert (Hle : inject_Z (Z.of_nat a) <= inject_Z (Z.of_nat b)).
  { rewrite <- Zle_Qle. lia. }
  split.
  - apply Qle_shift_div_l; [exact Hpos | lra].
  - apply Qle_shift_div_r; [exact Hpos | lra].
Qed.

(** X11. In every result the counts are consistent: wins and losses are
    not negative and together never exceed [total_trades], with equality
    when every traded week is a WIN or a LOSS; and [win_rate] lies between
    0 and 1. *)
Theorem evaluate_backtest_counts (ws : list weekly_record) :
  let r := evaluate_backtest ws in
  (0 <= wins r)%Z /\ (0 <= losses r)%Z
  /\ (wins r + losses r <= total_trades r)%Z
  /\ (Forall (fun w => outcome w = Some OUTCOME_WIN \/ outcome w = Some OUTCOME_LOSS)
             (_filter_traded_weeks ws) ->
      (wins r + losses r = total_trades r)%Z)
  /\ 0 <= win_rate r /\ win_rate r <= 1.
Proof.
  unfold evaluate_backtest. cbv zeta.
  destruct ws as [| w ws].
  { cbn. repeat split; try lia; try discriminate. }
  destruct (_filter_traded_weeks (w :: ws)) as [| t tw] eqn:Etw.
  { cbn. repeat split; try lia; try discriminate. }
  cbn [wins losses total_trades win_rate].
  set (traded_weeks := t :: tw) in *.
  set (nw := List.length (filter (fun x => get_eqb (outcome x) OUTCOME_WIN) traded_weeks)).
  set (nl := List.length (filter (fun x => get_eqb (outcome x) OUTCOME_LOSS) traded_weeks)).
  assert (Hdisj : (nw + nl <= List.length traded_weeks)%nat).
  { apply BacktestFacts.disjoint_filters_length. intros x Hx.
    apply BacktestFacts.get_eqb_true in Hx. apply BacktestFacts.get_eqb_false.
    rewrite Hx. discriminate. }
  assert (Hpos : (0 < List.length traded_weeks)%nat) by (simpl; lia).
  split; [lia |]. split; [lia |]. split; [lia |].
  split.
  { intros Hall. apply win_or_loss_lengths in Hall. fold nw nl in Hall. lia. }
  destruct (Z.ltb_spec 0 (Z.of_nat (List.length traded_weeks))) as [_ | Hz]; [| lia].
  destruct (ratio_in_unit nw (List.length traded_weeks) ltac:(lia) Hpos) as [H0 H1].
  split.
  - apply BwbFacts.round4_nonneg. exact H0.
  - apply round4_le_one. exact H1.
Qed.

Lemma sum_nonnegative (xs : list Q) :
  Forall (fun x => 0 <= x) xs -> 0 <= Py.sum xs.
Proof.
  induction 1 as [| x xs Hx _ IH]; [change (Py.sum []) with 0; lra |].
  rewrite BacktestFacts.sum_cons. lra.
Qed.

(** X12. The [max_drawdown] of a result is never negative, and it is 0
    when no traded week has a negative pnl. *)
Theorem evaluate_backtest_drawdown (ws : list weekly_record) :
  let r := evaluate_backtest ws in
  0 <= max_drawdown r
  /\ (Forall (fun w => 0 <= get_pnl w) (_filter_traded_weeks ws) ->
      max_drawdown r == 0).
Proof.
  unfold evaluate_backtest. cbv zeta.
  destruct ws as [| w ws].
  { cbn. split; [lra | reflexivity]. }
  destruct (_filter_traded_weeks (w :: ws)) as [| t tw] eqn:Etw.
  { cbn. split; [lra | reflexivity]. }
  cbn [max_drawdown].
  set (pnls := map get_pnl (t :: tw)).
  destruct (compute_max_drawdown_inv pnls) as (H0 & _ & (a & b & c & Hsplit & Hat)).
  split; [now apply BwbFacts.round4_nonneg |].
  intros Hall.
  assert (Hpn : Forall (fun x => 0 <= x) pnls).
  { unfold pnls. apply Forall_map. exact Hall. }
  rewrite Hsplit in Hpn. apply Forall_app in Hpn. destruct Hpn as [_ Hpn].
  apply Forall_app in Hpn. destruct Hpn as [Hb _].
  apply sum_nonnegative in Hb.
  assert (Hzero : _compute_max_drawdown pnls == 0) by lra.
  rewrite (round4_comp _ _ Hzero). reflexivity.
Qed.

End BacktestMore.

Module BacktestAnyFacts.
Import BacktestAny.

(** *** Sums, means and the drawdown loop on values *)

Lemma sum_from_numbers (xs : list value) :
  forall acc,
    sum_from acc xs
    = match numbers xs with
      | Some ys => Some (fold_left Qplus ys acc)
      | None => None
      end.
Proof.
  induction xs as [| v xs IH]; intros acc; [reflexivity |].
  destruct v as [| x |]; simpl; [reflexivity | | reflexivity].
  rewrite IH. destruct (numbers xs); reflexivity.
Qed.

Lemma sum_numbers (xs : list value) : sum xs = option_map Py.sum (numbers xs).
Proof.
  unfold sum. rewrite sum_from_numbers. destruct (numbers xs); reflexivity.
Qed.

Lemma numbers_length (xs : list value) :
  forall ys, numbers xs = Some ys -> List.length ys = List.length xs.
Proof.
  induction xs as [| v xs IH]; intros ys H; simpl in H.
  - injection H as <-. reflexivity.
  - destruct v as [| x |]; try discriminate.
    destruct (numbers xs) as [zs |]; [| discriminate].
    injection H as <-. simpl. now rewrite (IH zs).
Qed.

Lemma mean_or_zero_numbers (xs : list value) :
  mean_or_zero xs = option_map Backtest.mean_or_zero (numbers xs).
Proof.
  destruct xs as [| v xs]; [reflexivity |].
  unfold mean_or_zero. rewrite sum_numbers.
  destruct (numbers (v :: xs)) as [ys |] eqn:E; [| reflexivity].
  pose proof (numbers_length _ _ E) as Hlen.
  destruct ys as [| y ys]; [discriminate Hlen |].
  cbn [option_map Backtest.mean_or_zero]. now rewrite Hlen.
Qed.

Lemma drawdown_fold_none (xs : list value) : fold_left drawdown_step xs None = None.
Proof. induction xs as [| v xs IH]; [reflexivity | exact IH]. Qed.

Lemma drawdown_fold_numbers (xs : list value) :
  forall st,
    fold_left drawdown_step xs (Some st)
    = match numbers xs with
      | Some ys => Some (fold_left Backtest.drawdown_step ys st)
      | None => None
      end.
Proof.
  induction xs as [| v xs IH]; intros st; [reflexivity |].
  destruct v as [| x |]; simpl.
  - apply drawdown_fold_none.
  - rewrite IH. destruct (numbers xs); reflexivity.
  - apply drawdown_fold_none.
Qed.

Lemma compute_max_drawdown_numbers (xs : list value) :
  _compute_max_drawdown xs = option_map Backtest._compute_max_drawdown (numbers xs).
Proof.
  destruct xs as [| v xs]; [reflexivity |].
  unfold _compute_max_drawdown. rewrite drawdown_fold_numbers.
  destruct (numbers (v :: xs)) as [ys |] eqn:E; [| reflexivity].
  pose proof (numbers_length _ _ E) as Hlen.
  destruct ys as [| y ys]; [discriminate Hlen | reflexivity].
Qed.

(** *** Which records can be read *)

Lemma get_pnl_number (w : weekly_record) (x : Q) :
  get_pnl w = VNumber x <-> pnl_is w x.
Proof.
  unfold get_pnl, pnl_is. destruct (pnl w) as [v |].
  - split.
    + intros ->. now left.
    + intros [[= ->] | [[=] _]]. reflexivity.
  - split.
    + intros [= <-]. right. now split.
    + intros [[=] | [_ ->]]. reflexivity.
Qed.

Lemma get_pnl_unreadable (w : weekly_record) :
  (forall x, get_pnl w <> VNumber x) <-> pnl_unreadable w.
Proof.
  unfold get_pnl, pnl_unreadable. destruct (pnl w) as [[| x |] |].
  - split; [now left | intros _ x; discriminate].
  - split.
    + intros H. now contradiction (H x).
    + intros [[=] | [=]].
  - split; [now right | intros _ x; discriminate].
  - split.
    + intros H. now contradiction (H 0).
    + intros [[=] | [=]].
Qed.

Lemma numbers_pnls (l : list weekly_record) :
  forall xs, numbers (map get_pnl l) = Some xs <-> Forall2 pnl_is l xs.
Proof.
  induction l as [| w l IH]; intros xs; simpl.
  - split.
    + intros [= <-]. constructor.
    + intros H. inversion H. reflexivity.
  - split.
    + intros H. destruct (get_pnl w) as [| x |] eqn:E; try discriminate.
      destruct (numbers (map get_pnl l)) as [ys |] eqn:El; [| discriminate].
      injection H as <-. constructor.
      * now apply get_pnl_number.
      * now apply IH.
    + intros H. inversion H as [| w' x l' ys Hw Hl]; subst.
      apply get_pnl_number in Hw. rewrite Hw.
      apply IH in Hl. now rewrite Hl.
Qed.

Lemma numbers_pnls_none (l : list weekly_record) :
  numbers (map get_pnl l) = None <-> exists w, In w l /\ pnl_unreadable w.
Proof.
  induction l as [| w l IH]; simpl.
  - split; [discriminate | intros (w & [] & _)].
  - destruct (get_pnl w) as [| x |] eqn:E.
    + split; [intros _ | reflexivity].
      exists w. split; [now left |]. apply get_pnl_unreadable.
      intros x. rewrite E. discriminate.
    + destruct (numbers (map get_pnl l)) as [ys |].
      * split; [discriminate |].
        intros (w' & [<- | Hin] & Hbad).
        -- pose proof (proj2 (get_pnl_unreadable _) Hbad x) as Hx. now contradiction Hx.
        -- assert (Habs : Some ys = None) by (apply IH; now exists w').
           discriminate Habs.
      * split; [| reflexivity]. intros _.
        destruct (proj1 IH eq_refl) as (w' & Hin & Hbad).
        exists w'. split; [now right | exact Hbad].
    + split; [intros _ | reflexivity].
      exists w. split; [now left |]. apply get_pnl_unreadable.
      intros x. rewrite E. discriminate.
Qed.

Lemma numbers_known_none (l : list weekly_record) :
  numbers (known_max_losses l) = None <-> exists w, In w l /\ max_loss_unreadable w.
Proof.
  unfold max_loss_unreadable.
  induction l as [| w l IH]; simpl.
  - split; [discriminate | intros (w & [] & _)].
  - destruct (max_loss w) as [[| x |] |] eqn:E; simpl.
    + rewrite IH. split.
      * intros (w' & Hin & Hbad). exists w'. split; [now right | exact Hbad].
      * intros (w' & [<- | Hin] & Hbad); [congruence | now exists w'].
    + destruct (numbers (known_max_losses l)) as [ys |].
      * split; [discriminate |].
        intros (w' & [<- | Hin] & Hbad); [congruence |].
        assert (Habs : Some ys = None) by (apply IH; now exists w').
        discriminate Habs.
      * split; [| reflexivity]. intros _.
        destruct (proj1 IH eq_refl) as (w' & Hin & Hbad).
        exists w'. split; [now right | exact Hbad].
    + split; [intros _ | reflexivity]. exists w. split; [now left | exact E].
    + rewrite IH. split.
      * intros (w' & Hin & Hbad). exists w'. split; [now right | exact Hbad].
      * intros (w' & [<- | Hin] & Hbad); [congruence | now exists w'].
Qed.

Lemma numbers_filter (f : weekly_record -> bool) (l : list weekly_record) :
  forall xs,
    numbers (map get_pnl l) = Some xs ->
    exists ys, numbers (map get_pnl (filter f l)) = Some ys.
Proof.
  induction l as [| w l IH]; intros xs H; simpl in *.
  - now exists [].
  - destruct (get_pnl w) as [| x |] eqn:E; try discriminate.
    destruct (numbers (map get_pnl l)) as [zs |]; [| discriminate].
    destruct (IH zs eq_refl) as (ys & Hys).
    destruct (f w); simpl.
    + rewrite E, Hys. now eexists.
    + now exists ys.
Qed.

(** *** The traded weeks *)

Lemma traded_week_filter (w : weekly_record) :
  Backtest.get_eqb (decision w) Backtest.DECISION_TRADE_ALLOWED
  && negb (Backtest.get_eqb (outcome w) Backtest.OUTCOME_SKIPPED) = true
  <-> traded w.
Proof.
  unfold traded.
  rewrite andb_true_iff, negb_true_iff,
    BacktestFacts.get_eqb_true, BacktestFacts.get_eqb_false. tauto.
Qed.

Lemma in_traded_any (ws : list weekly_record) (w : weekly_record) :
  In w (_filter_traded_weeks ws) <-> In w ws /\ traded w.
Proof.
  unfold _filter_traded_weeks. rewrite filter_In, traded_week_filter. tauto.
Qed.

(** *** The [try] block *)

Lemma try_untraded (ws : list weekly_record) :
  _filter_traded_weeks ws = [] ->
  evaluate_backtest_try ws = Some Backtest._empty_result.
Proof.
  intros E. unfold evaluate_backtest_try.
  destruct ws as [| w ws]; [reflexivity |]. now rewrite E.
Qed.

Lemma try_numbers (ws : list weekly_record) (t : weekly_record)
      (tw : list weekly_record) (all ms : list Q) :
  _filter_traded_weeks ws = t :: tw ->
  numbers (map get_pnl (t :: tw)) = Some all ->
  numbers (known_max_losses (t :: tw)) = Some ms ->
  exists average_win average_loss,
    evaluate_backtest_try ws
    = Some
        (let wins :=
           filter (fun w => Backtest.get_eqb (outcome w) Backtest.OUTCOME_WIN) (t :: tw) in
         let losses :=
           filter (fun w => Backtest.get_eqb (outcome w) Backtest.OUTCOME_LOSS) (t :: tw) in
         let total_trades := Z.of_nat (List.length (t :: tw)) in
         let win_rate :=
           if (0 <? total_trades)%Z
           then inject_Z (Z.of_nat (List.length wins)) / inject_Z total_trades else 0 in
         let expectancy := Backtest.mean_or_zero all in
         let avg_max_loss := Backtest.mean_or_zero ms in
         Backtest.mk_metrics total_trades
           (Z.of_nat (List.length wins)) (Z.of_nat (List.length losses))
           (Py.round4 win_rate) (Py.round4 average_win) (Py.round4 average_loss)
           (Py.round4 expectancy) (Py.round4 (Py.sum all))
           (Py.round4 (Backtest._compute_max_drawdown all))
           (Py.round4 (if Qlt_le_dec 0 avg_max_loss
                       then expectancy / avg_max_loss else 0))).
Proof.
  intros Etw Hall Hms.
  destruct (numbers_filter
              (fun w => Backtest.get_eqb (outcome w) Backtest.OUTCOME_WIN) _ _ Hall)
    as (wn & Hwn).
  destruct (numbers_filter
              (fun w => Backtest.get_eqb (outcome w) Backtest.OUTCOME_LOSS) _ _ Hall)
    as (ln & Hln).
  exists (Backtest.mean_or_zero wn), (Backtest.mean_or_zero ln).
  unfold evaluate_backtest_try.
  destruct ws as [| w0 ws0]; [discriminate Etw |].
  rewrite Etw. cbv zeta.
  rewrite !mean_or_zero_numbers, sum_numbers, compute_max_drawdown_numbers.
  rewrite Hwn, Hln, Hall, Hms. reflexivity.
Qed.

Lemma try_raises (ws : list weekly_record) (t : weekly_record)
      (tw : list weekly_record) :
  _filter_traded_weeks ws = t :: tw ->
  numbers (map get_pnl (t :: tw)) = None
  \/ numbers (known_max_losses (t :: tw)) = None ->
  evaluate_backtest_try ws = None.
Proof.
  intros Etw Hbad.
  unfold evaluate_backtest_try.
  destruct ws as [| w0 ws0]; [discriminate Etw |].
  rewrite Etw. cbv zeta.
  rewrite !mean_or_zero_numbers, sum_numbers, compute_max_drawdown_numbers.
  destruct (numbers (map get_pnl (filter _ (t :: tw)))) as [wn |]; [| reflexivity].
  destruct (numbers (map get_pnl (filter _ (t :: tw)))) as [ln |]; [| reflexivity].
  destruct (numbers (map get_pnl (t :: tw))) as [all |]; [| reflexivity].
  destruct Hbad as [Hbad | Hbad]; [discriminate Hbad |].
  rewrite Hbad. reflexivity.
Qed.

(** *** Documented records *)

Lemma documented_traded (ws : list Backtest.weekly_record) :
  _filter_traded_weeks (map documented ws)
  = map documented (Backtest._filter_traded_weeks ws).
Proof.
  unfold _filter_traded_weeks, Backtest._filter_traded_weeks.
  induction ws as [| w ws IH]; [reflexivity |].
  cbn [map filter documented decision outcome].
  destruct (Backtest.get_eqb (Backtest.decision w) Backtest.DECISION_TRADE_ALLOWED
            && negb (Backtest.get_eqb (Backtest.outcome w) Backtest.OUTCOME_SKIPPED));
    cbn [map]; now rewrite IH.
Qed.

Lemma documented_filter (key : string) (ws : list Backtest.weekly_record) :
  filter (fun w => Backtest.get_eqb (outcome w) key) (map documented ws)
  = map documented (filter (fun w => Backtest.get_eqb (Backtest.outcome w) key) ws).
Proof.
  induction ws as [| w ws IH]; [reflexivity |].
  cbn [map filter documented outcome].
  destruct (Backtest.get_eqb (Backtest.outcome w) key); cbn [map]; now rewrite IH.
Qed.

Lemma documented_pnls (ws : list Backtest.weekly_record) :
  numbers (map get_pnl (map documented ws)) = Some (map Backtest.get_pnl ws).
Proof.
  induction ws as [| w ws IH]; [reflexivity |].
  cbn [map numbers]. unfold get_pnl at 1, documented at 1, Backtest.get_pnl at 1.
  cbn [pnl]. destruct (Backtest.pnl w); cbn [option_map]; now rewrite IH.
Qed.

Lemma documented_max_losses (ws : list Backtest.weekly_record) :
  numbers (known_max_losses (map documented ws)) = Some (Backtest.known_max_losses ws).
Proof.
  induction ws as [| w ws IH]; [reflexivity |].
  cbn [map known_max_losses Backtest.known_max_losses documented max_loss].
  destruct (Backtest.max_loss w); cbn [option_map numbers]; now rewrite IH.
Qed.

(** On documented records no exception is raised, and the result is the
    one of [Backtest.evaluate_backtest]. *)
Lemma documented_records (ws : list Backtest.weekly_record) :
  evaluate_backtest_try (map documented ws) = Some (Backtest.evaluate_backtest ws)
  /\ evaluate_backtest (map documented ws) = Backtest.evaluate_backtest ws.
Proof.
  assert (H : evaluate_backtest_try (map documented ws)
              = Some (Backtest.evaluate_backtest ws)).
  { unfold evaluate_backtest_try, Backtest.evaluate_backtest.
    destruct ws as [| w ws]; [reflexivity |].
    cbn [map]. change (documented w :: map documented ws)
      with (map documented (w :: ws)).
    rewrite documented_traded.
    destruct (Backtest._filter_traded_weeks (w :: ws)) as [| t tw]; [reflexivity |].
    cbn [map]. cbv zeta.
    change (get_pnl (documented t) :: map get_pnl (map documented tw))
      with (map get_pnl (map documented (t :: tw))).
    change (documented t :: map documented tw) with (map documented (t :: tw)).
    rewrite !mean_or_zero_numbers, sum_numbers, compute_max_drawdown_numbers.
    rewrite !documented_filter, !documented_pnls, documented_max_losses.
    rewrite !length_map. reflexivity. }
  split; [exact H |]. unfold evaluate_backtest. now rewrite H.
Qed.

(** *** A traded week with another outcome *)

(** C9 (amended). A TRADE ALLOWED week whose outcome is none of WIN,
    LOSS and SKIPPED is a traded week, provided the pnl of every traded
    week is a number (or absent) and no traded week carries a [max_loss]
    that is neither [None] nor a number.  Placed anywhere in the input it
    adds one to [total_trades] and nothing to [wins] or [losses], so that
    [wins + losses < total_trades]; its pnl [x] is one of the pnls, in
    input order, whose mean is the expectancy, whose sum is the cumulative
    pnl, and whose largest loss over a contiguous run is the drawdown. *)
Theorem other_outcome_is_traded (l1 l2 : list weekly_record) (w : weekly_record)
        (x : Q) (xs1 xs2 : list Q)
        (Hdecision : decision w = Some Backtest.DECISION_TRADE_ALLOWED)
        (Hwin : outcome w <> Some Backtest.OUTCOME_WIN)
        (Hloss : outcome w <> Some Backtest.OUTCOME_LOSS)
        (Hskipped : outcome w <> Some Backtest.OUTCOME_SKIPPED)
        (Hpnl : pnl_is w x)
        (Hpnls1 : Forall2 pnl_is (_filter_traded_weeks l1) xs1)
        (Hpnls2 : Forall2 pnl_is (_filter_traded_weeks l2) xs2)
        (Hrisk : forall w', In w' (l1 ++ w :: l2) -> traded w' ->
                            ~ max_loss_unreadable w') :
  let r := evaluate_backtest (l1 ++ w :: l2) in
  let others := _filter_traded_weeks (l1 ++ l2) in
  let pnls := xs1 ++ x :: xs2 in
  let drawdown := Backtest._compute_max_drawdown pnls in
  (forall w', In w' others <-> In w' (l1 ++ l2) /\ traded w')
  /\ Backtest.total_trades r = (Z.of_nat (List.length others) + 1)%Z
  /\ Backtest.wins r
     = Z.of_nat (List.length
                   (filter (fun v => Backtest.get_eqb (outcome v) Backtest.OUTCOME_WIN)
                           others))
  /\ Backtest.losses r
     = Z.of_nat (List.length
                   (filter (fun v => Backtest.get_eqb (outcome v) Backtest.OUTCOME_LOSS)
                           others))
  /\ (Backtest.wins r + Backtest.losses r < Backtest.total_trades r)%Z
  /\ Backtest.expectancy r = Py.round4 (Py.mean pnls)
  /\ Backtest.cumulative_pnl r = Py.round4 (Py.sum pnls)
  /\ Py.sum pnls == Py.sum (xs1 ++ xs2) + x
  /\ Backtest.max_drawdown r = Py.round4 drawdown
  /\ 0 <= drawdown
  /\ (forall before run after,
         pnls = before ++ run ++ after -> - drawdown <= Py.sum run)
  /\ (exists before run after,
         pnls = before ++ run ++ after /\ Py.sum run == - drawdown).
Proof.
  assert (Hkeep : Backtest.get_eqb (decision w) Backtest.DECISION_TRADE_ALLOWED
                  && negb (Backtest.get_eqb (outcome w) Backtest.OUTCOME_SKIPPED) = true).
  { apply traded_week_filter. split; assumption. }
  assert (Hw : Backtest.get_eqb (outcome w) Backtest.OUTCOME_WIN = false)
    by now apply BacktestFacts.get_eqb_false.
  assert (Hl : Backtest.get_eqb (outcome w) Backtest.OUTCOME_LOSS = false)
    by now apply BacktestFacts.get_eqb_false.
  assert (Htw : _filter_traded_weeks (l1 ++ w :: l2)
                = _filter_traded_weeks l1 ++ w :: _filter_traded_weeks l2).
  { unfold _filter_traded_weeks. now rewrite BacktestFacts.filter_insert, Hkeep. }
  assert (Hothers : _filter_traded_weeks (l1 ++ l2)
                    = _filter_traded_weeks l1 ++ _filter_traded_weeks l2).
  { unfold _filter_traded_weeks. apply filter_app. }
  cbv zeta.
  split; [intros w'; apply in_traded_any |].
  rewrite Hothers.
  set (t1 := _filter_traded_weeks l1) in *.
  set (t2 := _filter_traded_weeks l2) in *.
  (* the pnls and the maximum losses can be read *)
  assert (Hall : numbers (map get_pnl (t1 ++ w :: t2)) = Some (xs1 ++ x :: xs2)).
  { apply numbers_pnls. apply Forall2_app; [exact Hpnls1 |].
    constructor; assumption. }
  assert (Hms : exists ms, numbers (known_max_losses (t1 ++ w :: t2)) = Some ms).
  { destruct (numbers (known_max_losses (t1 ++ w :: t2))) as [ms |] eqn:E;
      [now exists ms |].
    apply numbers_known_none in E. destruct E as (w' & Hin & Hbad).
    rewrite <- Htw in Hin. apply in_traded_any in Hin.
    destruct Hin as [Hin Htr]. now contradiction (Hrisk w' Hin Htr). }
  destruct Hms as (ms & Hms).
  assert (Hdisj :
            (List.length
               (filter (fun v => Backtest.get_eqb (outcome v) Backtest.OUTCOME_WIN)
                       (t1 ++ t2))
             + List.length
                 (filter (fun v => Backtest.get_eqb (outcome v) Backtest.OUTCOME_LOSS)
                         (t1 ++ t2))
             <= List.length (t1 ++ t2))%nat).
  { apply BacktestFacts.disjoint_filters_length. intros v Hv.
    apply BacktestFacts.get_eqb_true in Hv. apply BacktestFacts.get_eqb_false.
    rewrite Hv. discriminate. }
  (* run the function *)
  destruct (t1 ++ w :: t2) as [| t tw] eqn:Ht.
  { destruct t1; discriminate Ht. }
  destruct (try_numbers (l1 ++ w :: l2) t tw _ ms Htw Hall Hms)
    as (average_win & average_loss & Htry).
  unfold evaluate_backtest. rewrite Htry. cbv zeta.
  cbn [Backtest.total_trades Backtest.wins Backtest.losses Backtest.expectancy
         Backtest.cumulative_pnl Backtest.max_drawdown].
  rewrite <- Ht.
  rewrite !BacktestFacts.filter_insert, Hw, Hl.
  assert (Hlen : List.length (t1 ++ w :: t2) = S (List.length (t1 ++ t2))).
  { rewrite !length_app. simpl. lia. }
  rewrite Hlen.
  split; [lia |]. split; [reflexivity |]. split; [reflexivity |].
  split; [lia |].
  split.
  { rewrite BacktestFacts.mean_or_zero_mean; [reflexivity |].
    destruct xs1; discriminate. }
  split; [reflexivity |].
  split; [apply BacktestFacts.sum_insert |].
  split; [reflexivity |].
  destruct (BacktestMore.compute_max_drawdown_inv (xs1 ++ x :: xs2))
    as (Hpos & Hbound & (a & b & c & Hrun & Hexact)).
  split; [exact Hpos |]. split.
  - intros before run after Hsplit. specialize (Hbound before run after Hsplit). lra.
  - exists a, b, c. split; [exact Hrun |]. rewrite Hexact. ring.
Qed.

Lemma other_outcome_is_traded_witness :
  let r := evaluate_backtest ([week_win; week_skipped] ++ week_open :: [week_loss]) in
  let others := _filter_traded_weeks ([week_win; week_skipped] ++ [week_loss]) in
  let pnls := [250 # 100] ++ (-(125 # 100)) :: [-(2240 # 100)] in
  let drawdown := Backtest._compute_max_drawdown pnls in
  (forall w', In w' others
              <-> In w' ([week_win; week_skipped] ++ [week_loss]) /\ traded w')
  /\ Backtest.total_trades r = (Z.of_nat (List.length others) + 1)%Z
  /\ Backtest.wins r
     = Z.of_nat (List.length
                   (filter (fun v => Backtest.get_eqb (outcome v) Backtest.OUTCOME_WIN)
                           others))
  /\ Backtest.losses r
     = Z.of_nat (List.length
                   (filter (fun v => Backtest.get_eqb (outcome v) Backtest.OUTCOME_LOSS)
                           others))
  /\ (Backtest.wins r + Backtest.losses r < Backtest.total_trades r)%Z
  /\ Backtest.expectancy r = Py.round4 (Py.mean pnls)
  /\ Backtest.cumulative_pnl r = Py.round4 (Py.sum pnls)
  /\ Py.sum pnls == Py.sum ([250 # 100] ++ [-(2240 # 100)]) + -(125 # 100)
  /\ Backtest.max_drawdown r = Py.round4 drawdown
  /\ 0 <= drawdown
  /\ (forall before run after,
         pnls = before ++ run ++ after -> - drawdown <= Py.sum run)
  /\ (exists before run after,
         pnls = before ++ run ++ after /\ Py.sum run == - drawdown).
Proof.
  apply (other_outcome_is_traded [week_win; week_skipped] [week_loss] week_open
           (-(125 # 100)) [250 # 100] [-(2240 # 100)]).
  - reflexivity.
  - discriminate.
  - discriminate.
  - discriminate.
  - left. reflexivity.
  - simpl. constructor; [left; reflexivity | constructor].
  - simpl. constructor; [left; reflexivity | constructor].
  - intros w' Hin _ Hbad. unfold max_loss_unreadable in Hbad.
    simpl in Hin.
    destruct Hin as [<- | [<- | [<- | [<- | []]]]]; discriminate Hbad.
Defined.

(** C9 as stated fails for a record whose pnl is [None]: the week is
    TRADE ALLOWED with an outcome that is none of WIN, LOSS and SKIPPED,
    yet with it the sums raise and the result is the all-zero one, where
    the same input without it counts two trades. *)
Lemma unsettled_week_voids_backtest :
  decision week_open_unsettled = Some Backtest.DECISION_TRADE_ALLOWED
  /\ outcome week_open_unsettled <> Some Backtest.OUTCOME_WIN
  /\ outcome week_open_unsettled <> Some Backtest.OUTCOME_LOSS
  /\ outcome week_open_unsettled <> Some Backtest.OUTCOME_SKIPPED
  /\ pnl week_open_unsettled = Some VNone
  /\ Backtest.total_trades (evaluate_backtest [week_win; week_skipped; week_loss]) = 2%Z
  /\ evaluate_backtest [week_win; week_skipped; week_open_unsettled; week_loss]
     = Backtest._empty_result
  /\ Backtest.total_trades
       (evaluate_backtest [week_win; week_skipped; week_open_unsettled; week_loss])
     = 0%Z.
Proof.
  split; [reflexivity |]. split; [discriminate |]. split; [discriminate |].
  split; [discriminate |]. split; [reflexivity |].
  split; [vm_compute; reflexivity |].
  split; vm_compute; reflexivity.
Qed.

(** X9. [evaluate_backtest] returns the all-zero result exactly when no
    week of the input is traded, or some traded week cannot be read: its
    pnl is not a number, or its [max_loss] is neither [None] nor a number.
    In the second case the exception is swallowed and every traded week is
    lost from the result. *)
Theorem evaluate_backtest_empty_iff (ws : list weekly_record) :
  evaluate_backtest ws = Backtest._empty_result
  <-> (forall w, In w ws -> ~ traded w)
      \/ (exists w, In w ws /\ traded w
                    /\ (pnl_unreadable w \/ max_loss_unreadable w)).
Proof.
  unfold evaluate_backtest.
  destruct (_filter_traded_weeks ws) as [| t tw] eqn:Etw.
  - rewrite (try_untraded ws Etw). split; [intros _ | reflexivity].
    left. intros w Hin Htr.
    assert (Hw : In w (_filter_traded_weeks ws)) by (apply in_traded_any; now split).
    rewrite Etw in Hw. contradiction.
  - assert (Hsome : In t ws /\ traded t).
    { apply in_traded_any. rewrite Etw. now left. }
    destruct (numbers (map get_pnl (t :: tw))) as [all |] eqn:Hall.
    + destruct (numbers (known_max_losses (t :: tw))) as [ms |] eqn:Hms.
      * destruct (try_numbers ws t tw all ms Etw Hall Hms) as (aw & al & Htry).
        rewrite Htry. cbv zeta. split.
        -- intros E. apply (f_equal Backtest.total_trades) in E.
           cbn [Backtest.total_trades Backtest._empty_result List.length] in E. lia.
        -- intros [Hnone | (w & Hin & Htr & [Hbad | Hbad])].
           ++ destruct Hsome as [Hin Htr]. now contradiction (Hnone t Hin Htr).
           ++ assert (Habs : numbers (map get_pnl (t :: tw)) = None).
              { apply numbers_pnls_none. exists w. split; [| exact Hbad].
                rewrite <- Etw. apply in_traded_any. now split. }
              rewrite Hall in Habs. discriminate Habs.
           ++ assert (Habs : numbers (known_max_losses (t :: tw)) = None).
              { apply numbers_known_none. exists w. split; [| exact Hbad].
                rewrite <- Etw. apply in_traded_any. now split. }
              rewrite Hms in Habs. discriminate Habs.
      * rewrite (try_raises ws t tw Etw (or_intror Hms)).
        split; [intros _ | reflexivity]. right.
        apply numbers_known_none in Hms. destruct Hms as (w & Hin & Hbad).
        rewrite <- Etw in Hin. apply in_traded_any in Hin.
        exists w. split; [tauto |]. split; [tauto | now right].
    + rewrite (try_raises ws t tw Etw (or_introl Hall)).
      split; [intros _ | reflexivity]. right.
      apply numbers_pnls_none in Hall. destruct Hall as (w & Hin & Hbad).
      rewrite <- Etw in Hin. apply in_traded_any in Hin.
      exists w. split; [tauto |]. split; [tauto | now left].
Qed.

End BacktestAnyFacts.

Module BwbMore.
Import Bwb.

(** *** Lookups in the sorted list *)

Lemma index_of_spec (s : Q) (strikes : list Q) :
  forall i, index_of s strikes = Some i ->
            (i < List.length strikes)%nat /\ nth i strikes 0 == s.
Proof.
  induction strikes as [| x strikes IH]; intros i H; simpl in H; [discriminate H |].
  destruct (Qeq_bool x s) eqn:E.
  - injection H as <-. split; [simpl; lia |]. now apply Qeq_bool_iff.
  - destruct (index_of s strikes) as [j |]; [| discriminate H].
    injection H as <-. destruct (IH j eq_refl) as [Hj Hn].
    split; [simpl; lia | exact Hn].
Qed.

Lemma find_option_by_strike_spec (ps : list (Q * option_record)) (s : Q) :
  forall o, _find_option_by_strike ps s = Some o ->
            exists k, In (k, o) ps /\ k == s.
Proof.
  induction ps as [| [k' o'] ps IH]; intros o H; simpl in H; [discriminate H |].
  destruct (Qeq_bool k' s) eqn:E.
  - injection H as <-. exists k'. split; [now left | now apply Qeq_bool_iff].
  - destruct (IH o H) as (k & Hin & Hk). exists k. split; [now right | exact Hk].
Qed.

Lemma ascending_nth (ps : list (Q * option_record)) :
  ascending ps ->
  forall i j, (i <= j)%nat -> (j < List.length ps)%nat ->
              nth i (map fst ps) 0 <= nth j (map fst ps) 0.
Proof.
  unfold ascending. induction 1 as [| p ps _ IH Hall]; intros i j Hij Hj.
  - simpl in Hj. lia.
  - destruct i as [| i], j as [| j]; simpl in *; try lia.
    + apply Qle_refl.
    + rewrite Forall_forall in Hall.
      assert (Hin : In (nth j ps (0, mk_option None None None None None)) ps)
        by (apply nth_In; lia).
      specialize (Hall _ Hin).
      rewrite (nth_indep _ 0 (fst (0, mk_option None None None None None)))
        by (rewrite length_map; lia).
      now rewrite map_nth.
    + apply IH; lia.
Qed.

Lemma closest_in (ps : list (Q * option_record)) (t k : Q) (o : option_record) :
  _find_closest_delta ps t = Some (k, o) -> In (k, o) ps.
Proof.
  unfold _find_closest_delta.
  pose proof (BwbFacts.find_closest_delta_inv t ps) as Hinv.
  destruct (fold_left (closest_step t) ps (None, None)) as [[c |] [m |]];
    simpl in *; try contradiction; try discriminate.
  intros [= ->]. destruct Hinv as (d & before & after & -> & _).
  apply in_or_app. right. now left.
Qed.

Lemma sorted_member (opts : list option_record) (ps : list (Q * option_record))
      (k : Q) (o : option_record) :
  sorted_by_strike opts = Some ps -> In (k, o) ps ->
  In o opts /\ strike o = Some k.
Proof.
  intros Hs Hin.
  destruct (BwbFacts.sorted_by_strike_spec opts ps Hs) as (_ & Hperm & Hkeys).
  split.
  - apply (Permutation_in _ Hperm). now apply (in_map snd ps (k, o)).
  - rewrite Forall_forall in Hkeys. exact (Hkeys (k, o) Hin).
Qed.

(** *** The path of a builder to a valid structure *)

Lemma put_builder_valid (fmt_num fmt_2f : Q -> string)
      (chain : list option_record) (t : string) (r : bwb_structure) :
  _build_put_credit_bwb fmt_num fmt_2f chain (mk_bwb t [] 0 None false "") = Some r ->
  valid r = true ->
  exists ps k o i upper lower,
    sorted_by_strike (_filter_options chain "put") = Some ps
    /\ _find_closest_delta ps TARGET_DELTA_PUT_SHORT = Some (k, o)
    /\ index_of k (map fst ps) = Some i
    /\ (i + 1 < List.length ps)%nat /\ (2 <= i)%nat
    /\ _find_option_by_strike ps (nth (i + 1) (map fst ps) 0) = Some upper
    /\ _find_option_by_strike ps (nth (i - 2) (map fst ps) 0) = Some lower
    /\ legs r
       = [ _make_leg "SELL" 2 "put" k (_mid_price o) (delta o);
           _make_leg "BUY" 1 "put" (nth (i + 1) (map fst ps) 0) (_mid_price upper)
                     (delta upper);
           _make_leg "BUY" 1 "put" (nth (i - 2) (map fst ps) 0) (_mid_price lower)
                     (delta lower) ]
    /\ net_premium r
       = Py.round4 (2 * _mid_price o - _mid_price upper - _mid_price lower).
Proof.
  unfold _build_put_credit_bwb. cbv zeta.
  destruct (_filter_options chain "put") as [| p puts]; [intros [= <-]; discriminate |].
  destruct (sorted_by_strike (p :: puts)) as [ps |] eqn:Hs; [| discriminate].
  destruct (_find_closest_delta ps TARGET_DELTA_PUT_SHORT) as [[k o] |] eqn:Hf;
    [| intros [= <-]; discriminate].
  destruct (index_of k (map fst ps)) as [i |] eqn:Hi; [| discriminate].
  destruct (Nat.leb_spec (List.length (map fst ps)) (i + 1)) as [| Hup];
    [intros [= <-]; discriminate |].
  destruct (Nat.ltb_spec i 2) as [| Hlow]; [intros [= <-]; discriminate |].
  destruct (_find_option_by_strike ps (nth (i + 1) (map fst ps) 0)) as [upper |] eqn:Hupper;
    [| intros [= <-]; discriminate].
  destruct (_find_option_by_strike ps (nth (i - 2) (map fst ps) 0)) as [lower |] eqn:Hlower;
    [| intros [= <-]; discriminate].
  intros [= <-] _. rewrite length_map in Hup.
  exists ps, k, o, i, upper, lower. cbn. repeat split; auto.
Qed.

Lemma call_builder_valid (fmt_num fmt_2f : Q -> string)
      (chain : list option_record) (t : string) (r : bwb_structure) :
  _build_call_debit_bwb fmt_num fmt_2f chain (mk_bwb t [] 0 None false "") = Some r ->
  valid r = true ->
  exists ps k o i upper lower,
    sorted_by_strike (_filter_options chain "call") = Some ps
    /\ _find_closest_delta ps TARGET_DELTA_CALL_SHORT = Some (k, o)
    /\ index_of k (map fst ps) = Some i
    /\ (i + 2 < List.length ps)%nat /\ (1 <= i)%nat
    /\ _find_option_by_strike ps (nth (i + 2) (map fst ps) 0) = Some upper
    /\ _find_option_by_strike ps (nth (i - 1) (map fst ps) 0) = Some lower
    /\ legs r
       = [ _make_leg "SELL" 2 "call" k (_mid_price o) (delta o);
           _make_leg "BUY" 1 "call" (nth (i + 2) (map fst ps) 0) (_mid_price upper)
                     (delta upper);
           _make_leg "BUY" 1 "call" (nth (i - 1) (map fst ps) 0) (_mid_price lower)
                     (delta lower) ]
    /\ net_premium r
       = Py.round4 (2 * _mid_price o - _mid_price upper - _mid_price lower).
Proof.
  unfold _build_call_debit_bwb. cbv zeta.
  destruct (_filter_options chain "call") as [| p calls]; [intros [= <-]; discriminate |].
  destruct (sorted_by_strike (p :: calls)) as [ps |] eqn:Hs; [| discriminate].
  destruct (_find_closest_delta ps TARGET_DELTA_CALL_SHORT) as [[k o] |] eqn:Hf;
    [| intros [= <-]; discriminate].
  destruct (index_of k (map fst ps)) as [i |] eqn:Hi; [| discriminate].
  destruct (Nat.leb_spec (List.length (map fst ps)) (i + 2)) as [| Hup];
    [intros [= <-]; discriminate |].
  destruct (Nat.ltb_spec i 1) as [| Hlow]; [intros [= <-]; discriminate |].
  destruct (_find_option_by_strike ps (nth (i + 2) (map fst ps) 0)) as [upper |] eqn:Hupper;
    [| intros [= <-]; discriminate].
  destruct (_find_option_by_strike ps (nth (i - 1) (map fst ps) 0)) as [lower |] eqn:Hlower;
    [| intros [= <-]; discriminate].
  intros [= <-] _. rewrite length_map in Hup.
  exists ps, k, o, i, upper, lower. cbn. repeat split; auto.
Qed.

(** What the path says about the three records, for either builder. *)
Lemma three_records (option_type : string) (chain : list option_record)
      (ps : list (Q * option_record)) (target k : Q) (o upper lower : option_record)
      (i iu il : nat) :
  sorted_by_strike (_filter_options chain option_type) = Some ps ->
  _find_closest_delta ps target = Some (k, o) ->
  index_of k (map fst ps) = Some i ->
  (il <= i)%nat -> (i <= iu)%nat -> (iu < List.length ps)%nat ->
  _find_option_by_strike ps (nth iu (map fst ps) 0) = Some upper ->
  _find_option_by_strike ps (nth il (map fst ps) 0) = Some lower ->
  let records := _filter_options chain option_type in
  In o records /\ In upper records /\ In lower records
  /\ strike o = Some k
  /\ (exists ku, strike upper = Some ku /\ ku == nth iu (map fst ps) 0)
  /\ (exists kl, strike lower = Some kl /\ kl == nth il (map fst ps) 0)
  /\ nth il (map fst ps) 0 <= k /\ k <= nth iu (map fst ps) 0
  /\ (iu + 1 <= List.length records)%nat.
Proof.
  intros Hs Hfound Hidx Hil Hiu Hlen Hup Hlow records.
  destruct (BwbFacts.sorted_by_strike_spec _ _ Hs) as (Hasc & Hperm & _).
  destruct (sorted_member _ _ _ _ Hs (closest_in _ _ _ _ Hfound)) as [Ho Hko].
  destruct (find_option_by_strike_spec _ _ _ Hup) as (ku & Hinu & Hku).
  destruct (find_option_by_strike_spec _ _ _ Hlow) as (kl & Hinl & Hkl).
  destruct (sorted_member _ _ _ _ Hs Hinu) as [Hu Hsu].
  destruct (sorted_member _ _ _ _ Hs Hinl) as [Hl Hsl].
  destruct (index_of_spec _ _ _ Hidx) as [_ Hnth].
  split; [exact Ho |]. split; [exact Hu |]. split; [exact Hl |].
  split; [exact Hko |].
  split; [exists ku; auto |]. split; [exists kl; auto |].
  split.
  - rewrite <- Hnth. apply ascending_nth; [exact Hasc | exact Hil | lia].
  - split.
    + rewrite <- Hnth. apply ascending_nth; [exact Hasc | exact Hiu | exact Hlen].
    + unfold records. rewrite <- (Permutation_length Hperm), length_map. lia.
Qed.

(** X13. A valid PUT_CREDIT_BWB structure sells two of one put of the
    chain and buys one each of two other puts of the chain, the wing at or
    below and the long upper at or above the short strike; the leg prices
    are the mid prices, the net premium is
    [2 * mid(short) - mid(upper) - mid(wing)] rounded to 4 places, and the
    chain holds at least four puts. *)
Theorem valid_put_structure (fmt_num fmt_2f : Q -> string)
        (chain : list option_record)
        (Hvalid : valid (build_bwb_structure fmt_num fmt_2f chain
                                             STRUCTURE_PUT_CREDIT_BWB) = true) :
  let r := build_bwb_structure fmt_num fmt_2f chain STRUCTURE_PUT_CREDIT_BWB in
  let puts := _filter_options chain "put" in
  exists short upper wing k_short k_upper k_wing,
    In short puts /\ In upper puts /\ In wing puts
    /\ strike short = Some k_short
    /\ (exists k, strike upper = Some k /\ k == k_upper)
    /\ (exists k, strike wing = Some k /\ k == k_wing)
    /\ k_wing <= k_short /\ k_short <= k_upper
    /\ legs r
       = [ _make_leg "SELL" 2 "put" k_short (_mid_price short) (delta short);
           _make_leg "BUY" 1 "put" k_upper (_mid_price upper) (delta upper);
           _make_leg "BUY" 1 "put" k_wing (_mid_price wing) (delta wing) ]
    /\ net_premium r
       = Py.round4 (2 * _mid_price short - _mid_price upper - _mid_price wing)
    /\ (4 <= List.length puts)%nat.
Proof.
  cbv zeta. revert Hvalid. unfold build_bwb_structure. cbv zeta.
  destruct chain as [| o0 chain]; [discriminate |].
  change (String.eqb STRUCTURE_PUT_CREDIT_BWB STRUCTURE_PUT_CREDIT_BWB) with true.
  cbv iota.
  destruct (_build_put_credit_bwb fmt_num fmt_2f (o0 :: chain) _) as [r |] eqn:Hr;
    [| discriminate].
  intros Hvalid.
  destruct (put_builder_valid _ _ _ _ _ Hr Hvalid)
    as (ps & k & o & i & upper & lower & Hs & Hf & Hi & Hup & Hlow & Hfu & Hfl
        & Hlegs & Hnet).
  destruct (three_records "put" (o0 :: chain) ps _ k o upper lower i (i + 1) (i - 2)
              Hs Hf Hi ltac:(lia) ltac:(lia) Hup Hfu Hfl)
    as (Ho & Hu & Hl & Hko & Hku & Hkl & Hle1 & Hle2 & Hn).
  exists o, upper, lower, k, (nth (i + 1) (map fst ps) 0), (nth (i - 2) (map fst ps) 0).
  repeat split; try assumption. lia.
Qed.

Lemma valid_put_structure_witness :
  let r := build_bwb_structure (fun _ => EmptyString) (fun _ => EmptyString)
                               sample_put_chain STRUCTURE_PUT_CREDIT_BWB in
  let puts := _filter_options sample_put_chain "put" in
  exists short upper wing k_short k_upper k_wing,
    In short puts /\ In upper puts /\ In wing puts
    /\ strike short = Some k_short
    /\ (exists k, strike upper = Some k /\ k == k_upper)
    /\ (exists k, strike wing = Some k /\ k == k_wing)
    /\ k_wing <= k_short /\ k_short <= k_upper
    /\ legs r
       = [ _make_leg "SELL" 2 "put" k_short (_mid_price short) (delta short);
           _make_leg "BUY" 1 "put" k_upper (_mid_price upper) (delta upper);
           _make_leg "BUY" 1 "put" k_wing (_mid_price wing) (delta wing) ]
    /\ net_premium r
       = Py.round4 (2 * _mid_price short - _mid_price upper - _mid_price wing)
    /\ (4 <= List.length puts)%nat.
Proof.
  apply (valid_put_structure (fun _ => EmptyString) (fun _ => EmptyString)
           sample_put_chain).
  vm_compute. reflexivity.
Defined.

Lemma valid_call_structure_path (fmt_num fmt_2f : Q -> string)
      (chain : list option_record) :
  valid (build_bwb_structure fmt_num fmt_2f chain STRUCTURE_CALL_DEBIT_BWB) = true ->
  exists r,
    build_bwb_structure fmt_num fmt_2f chain STRUCTURE_CALL_DEBIT_BWB = r
    /\ _build_call_debit_bwb fmt_num fmt_2f chain
         (mk_bwb STRUCTURE_CALL_DEBIT_BWB [] 0 None false "") = Some r
    /\ valid r = true.
Proof.
  unfold build_bwb_structure. cbv zeta.
  destruct chain as [| o0 chain]; [discriminate |].
  change (String.eqb STRUCTURE_CALL_DEBIT_BWB STRUCTURE_PUT_CREDIT_BWB) with false.
  change (String.eqb STRUCTURE_CALL_DEBIT_BWB STRUCTURE_CALL_DEBIT_BWB) with true.
  cbv iota.
  destruct (_build_call_debit_bwb fmt_num fmt_2f (o0 :: chain) _) as [r |];
    [| discriminate].
  intros Hv. exists r. auto.
Qed.

(** X14. A valid CALL_DEBIT_BWB structure sells two of one call of the
    chain and buys one each of two other calls of the chain, the wing at
    or above and the long lower at or below the short strike; the net
    premium is [2 * mid(short) - mid(wing) - mid(lower)] rounded to 4
    places, and the chain holds at least four calls. *)
Theorem valid_call_structure (fmt_num fmt_2f : Q -> string)
        (chain : list option_record)
        (Hvalid : valid (build_bwb_structure fmt_num fmt_2f chain
                                             STRUCTURE_CALL_DEBIT_BWB) = true) :
  let r := build_bwb_structure fmt_num fmt_2f chain STRUCTURE_CALL_DEBIT_BWB in
  let calls := _filter_options chain "call" in
  exists short wing lower k_short k_wing k_lower,
    In short calls /\ In wing calls /\ In lower calls
    /\ strike short = Some k_short
    /\ (exists k, strike wing = Some k /\ k == k_wing)
    /\ (exists k, strike lower = Some k /\ k == k_lower)
    /\ k_lower <= k_short /\ k_short <= k_wing
    /\ legs r
       = [ _make_leg "SELL" 2 "call" k_short (_mid_price short) (delta short);
           _make_leg "BUY" 1 "call" k_wing (_mid_price wing) (delta wing);
           _make_leg "BUY" 1 "call" k_lower (_mid_price lower) (delta lower) ]
    /\ net_premium r
       = Py.round4 (2 * _mid_price short - _mid_price wing - _mid_price lower)
    /\ (4 <= List.length calls)%nat.
Proof.
  cbv zeta.
  destruct (valid_call_structure_path _ _ _ Hvalid) as (r & -> & Hr & Hv).
  destruct (call_builder_valid _ _ _ _ _ Hr Hv)
    as (ps & k & o & i & upper & lower & Hs & Hf & Hi & Hup & Hlow & Hfu & Hfl
        & Hlegs & Hnet).
  destruct (three_records "call" chain ps _ k o upper lower i (i + 2) (i - 1)
              Hs Hf Hi ltac:(lia) ltac:(lia) Hup Hfu Hfl)
    as (Ho & Hu & Hl & Hko & Hku & Hkl & Hle1 & Hle2 & Hn).
  exists o, upper, lower, k, (nth (i + 2) (map fst ps) 0), (nth (i - 1) (map fst ps) 0).
  repeat split; try assumption. lia.
Qed.

Lemma valid_call_structure_witness :
  let r := build_bwb_structure (fun _ => EmptyString) (fun _ => EmptyString)
                               BwbData.sample_call_chain STRUCTURE_CALL_DEBIT_BWB in
  let calls := _filter_options BwbData.sample_call_chain "call" in
  exists short wing lower k_short k_wing k_lower,
    In short calls /\ In wing calls /\ In lower calls
    /\ strike short = Some k_short
    /\ (exists k, strike wing = Some k /\ k == k_wing)
    /\ (exists k, strike lower = Some k /\ k == k_lower)
    /\ k_lower <= k_short /\ k_short <= k_wing
    /\ legs r
       = [ _make_leg "SELL" 2 "call" k_short (_mid_price short) (delta short);
           _make_leg "BUY" 1 "call" k_wing (_mid_price wing) (delta wing);
           _make_leg "BUY" 1 "call" k_lower (_mid_price lower) (delta lower) ]
    /\ net_premium r
       = Py.round4 (2 * _mid_price short - _mid_price wing - _mid_price lower)
    /\ (4 <= List.length calls)%nat.
Proof.
  apply (valid_call_structure (fun _ => EmptyString) (fun _ => EmptyString)
           BwbData.sample_call_chain).
  vm_compute. reflexivity.
Defined.

(** The record the scan returns, for any target: it has a delta, nothing
    with a delta is closer, everything listed before it is strictly
    farther, and in an ascending list it has the lowest strike among the
    closest. *)
Lemma closest_selection (target : Q) (ps : list (Q * option_record))
      (k : Q) (o : option_record) :
  ascending ps ->
  _find_closest_delta ps target = Some (k, o) ->
  exists d before after,
    ps = before ++ (k, o) :: after
    /\ delta o = Some d
    /\ (forall y d', In y ps -> delta (snd y) = Some d' ->
          delta_distance target d <= delta_distance target d')
    /\ (forall y d', In y before -> delta (snd y) = Some d' ->
          delta_distance target d < delta_distance target d')
    /\ (forall y d', In y ps -> delta (snd y) = Some d' ->
          delta_distance target d' == delta_distance target d -> k <= fst y).
Proof.
  intros Hasc Hfound.
  pose proof (BwbFacts.find_closest_delta_inv target ps) as Hinv.
  unfold _find_closest_delta in Hfound.
  destruct (fold_left (closest_step target) ps (None, None)) as [c m].
  simpl in Hfound. subst c.
  destruct m as [m |]; [| contradiction].
  destruct Hinv as (d & before & after & Hps & Hd & Hm & Hbefore & Hafter).
  simpl in Hd. subst m.
  exists d, before, after.
  split; [exact Hps |]. split; [exact Hd |].
  split.
  { intros y d' Hy Hd'. rewrite Hps in Hy.
    apply in_app_or in Hy. destruct Hy as [Hy | [<- | Hy]].
    - apply Qlt_le_weak. now apply (Hbefore y d').
    - simpl in Hd'. rewrite Hd in Hd'. injection Hd' as <-. apply Qle_refl.
    - now apply (Hafter y d'). }
  split; [exact Hbefore |].
  intros y d' Hy Hd' Htie. rewrite Hps in Hy.
  apply in_app_or in Hy. destruct Hy as [Hy | [<- | Hy]].
  - exfalso. specialize (Hbefore y d' Hy Hd'). lra.
  - apply Qle_refl.
  - rewrite Hps in Hasc. apply BwbFacts.ascending_suffix in Hasc.
    inversion Hasc as [| ? ? _ Hall]; subst.
    rewrite Forall_forall in Hall. exact (Hall y Hy).
Qed.

(** X15. In the ascending list of the call records, the record the call
    builder takes as its short strike carries a delta, no call record with
    a delta is closer to 0.45 in the distance the code computes,
    [abs(abs(delta) - 0.45)] on doubles, every record listed before it is
    strictly farther, so that ties in the computed distance go to the
    lowest strike.  As decimals, with deltas between -1 and 1, no call is
    closer to 0.45 than the selected one by more than [6 * 2^-53].  A
    valid structure sells the selected record twice. *)
Theorem call_short_strike_selection (fmt_num fmt_2f : Q -> string)
        (chain : list option_record)
        (ps : list (Q * option_record)) (k : Q) (o : option_record)
        (Hsorted : sorted_by_strike (_filter_options chain "call") = Some ps)
        (Hfound : _find_closest_delta ps TARGET_DELTA_CALL_SHORT = Some (k, o)) :
  ascending ps
  /\ Permutation (map snd ps) (_filter_options chain "call")
  /\ exists d before after,
      ps = before ++ (k, o) :: after
      /\ strike o = Some k
      /\ delta o = Some d
      /\ (forall y d', In y ps -> delta (snd y) = Some d' ->
            delta_distance TARGET_DELTA_CALL_SHORT d
            <= delta_distance TARGET_DELTA_CALL_SHORT d')
      /\ (forall y d', In y before -> delta (snd y) = Some d' ->
            delta_distance TARGET_DELTA_CALL_SHORT d
            < delta_distance TARGET_DELTA_CALL_SHORT d')
      /\ (forall y d', In y ps -> delta (snd y) = Some d' ->
            delta_distance TARGET_DELTA_CALL_SHORT d'
            == delta_distance TARGET_DELTA_CALL_SHORT d ->
            k <= fst y)
      /\ (Qabs d <= 1 ->
          forall y d', In y ps -> delta (snd y) = Some d' -> Qabs d' <= 1 ->
            decimal_distance TARGET_DELTA_CALL_SHORT d
            <= decimal_distance TARGET_DELTA_CALL_SHORT d' + (6 # 2 ^ 53))
      /\ (valid (build_bwb_structure fmt_num fmt_2f chain STRUCTURE_CALL_DEBIT_BWB) = true ->
          exists wing lower,
            legs (build_bwb_structure fmt_num fmt_2f chain STRUCTURE_CALL_DEBIT_BWB)
            = [_make_leg "SELL" 2 "call" k (_mid_price o) (Some d); wing; lower]).
Proof.
  destruct (BwbFacts.sorted_by_strike_spec _ _ Hsorted) as (Hasc & Hperm & _).
  split; [exact Hasc |]. split; [exact Hperm |].
  destruct (closest_selection _ _ _ _ Hasc Hfound)
    as (d & before & after & Hps & Hd & Hmin & Hbefore & Htie).
  exists d, before, after.
  split; [exact Hps |].
  split; [exact (proj2 (sorted_member _ _ _ _ Hsorted (closest_in _ _ _ _ Hfound))) |].
  split; [exact Hd |]. split; [exact Hmin |]. split; [exact Hbefore |].
  split; [exact Htie |].
  split.
  { intros Hunit y d' Hy Hd' Hunit'.
    specialize (Hmin y d' Hy Hd').
    assert (Ht0 : 0 <= TARGET_DELTA_CALL_SHORT) by discriminate.
    assert (Ht1 : TARGET_DELTA_CALL_SHORT <= 3 # 4) by discriminate.
    pose proof (BwbFacts.delta_distance_error _ d Ht0 Ht1 Hunit) as E.
    pose proof (BwbFacts.delta_distance_error _ d' Ht0 Ht1 Hunit') as E'.
    apply Qabs_Qle_condition in E. apply Qabs_Qle_condition in E'.
    assert (Hsix : (6 # 2 ^ 53) == 2 * (3 # 2 ^ 53)) by reflexivity.
    rewrite Hsix. lra. }
  intros Hvalid.
  destruct (valid_call_structure_path _ _ _ Hvalid) as (r & -> & Hr & Hv).
  destruct (call_builder_valid _ _ _ _ _ Hr Hv)
    as (ps' & k' & o' & i & upper & lower & Hs' & Hf' & _ & _ & _ & _ & _ & Hlegs & _).
  rewrite Hsorted in Hs'. injection Hs' as <-.
  rewrite Hfound in Hf'. injection Hf' as <- <-.
  rewrite Hlegs, Hd. eexists. eexists. reflexivity.
Qed.

Lemma call_short_strike_selection_witness :
  ascending BwbData.sample_call_chain_sorted
  /\ Permutation (map snd BwbData.sample_call_chain_sorted)
                 (_filter_options BwbData.sample_call_chain "call")
  /\ exists d before after,
      BwbData.sample_call_chain_sorted
      = before ++ (5925, BwbData.call 5925 (45 # 100) 28 29) :: after
      /\ strike (BwbData.call 5925 (45 # 100) 28 29) = Some 5925
      /\ delta (BwbData.call 5925 (45 # 100) 28 29) = Some d
      /\ (forall y d', In y BwbData.sample_call_chain_sorted ->
            delta (snd y) = Some d' ->
            delta_distance TARGET_DELTA_CALL_SHORT d
            <= delta_distance TARGET_DELTA_CALL_SHORT d')
      /\ (forall y d', In y before -> delta (snd y) = Some d' ->
            delta_distance TARGET_DELTA_CALL_SHORT d
            < delta_distance TARGET_DELTA_CALL_SHORT d')
      /\ (forall y d', In y BwbData.sample_call_chain_sorted ->
            delta (snd y) = Some d' ->
            delta_distance TARGET_DELTA_CALL_SHORT d'
            == delta_distance TARGET_DELTA_CALL_SHORT d ->
            5925 <= fst y)
      /\ (Qabs d <= 1 ->
          forall y d', In y BwbData.sample_call_chain_sorted ->
            delta (snd y) = Some d' -> Qabs d' <= 1 ->
            decimal_distance TARGET_DELTA_CALL_SHORT d
            <= decimal_distance TARGET_DELTA_CALL_SHORT d' + (6 # 2 ^ 53))
      /\ (valid (build_bwb_structure (fun _ => EmptyString) (fun _ => EmptyString)
                   BwbData.sample_call_chain STRUCTURE_CALL_DEBIT_BWB) = true ->
          exists wing lower,
            legs (build_bwb_structure (fun _ => EmptyString) (fun _ => EmptyString)
                    BwbData.sample_call_chain STRUCTURE_CALL_DEBIT_BWB)
            = [_make_leg "SELL" 2 "call" 5925
                 (_mid_price (BwbData.call 5925 (45 # 100) 28 29)) (Some d);
               wing; lower]).
Proof.
  apply (call_short_strike_selection (fun _ => EmptyString) (fun _ => EmptyString)
           BwbData.sample_call_chain BwbData.sample_call_chain_sorted 5925
           (BwbData.call 5925 (45 # 100) 28 29)).
  - vm_compute. reflexivity.
  - vm_compute. reflexivity.
Defined.

(** *** When the catch-all handler is reached *)

Lemma strike_keys_none (opts : list option_record) :
  strike_keys opts = None <-> exists o, In o opts /\ strike o = None.
Proof.
  induction opts as [| o opts IH]; simpl.
  - split; [discriminate | intros (o & [] & _)].
  - destruct (strike o) as [k |] eqn:Hk.
    + destruct (strike_keys opts) as [rest |].
      * split; [discriminate |].
        intros (o' & [<- | Hin] & Ho'); [congruence |].
        assert (Habs : Some rest = None) by (apply IH; exists o'; auto).
        discriminate Habs.
      * split; [| reflexivity]. intros _.
        destruct (proj1 IH eq_refl) as (o' & Hin & Ho'). exists o'. auto.
    + split; [| reflexivity]. intros _. exists o. auto.
Qed.

Lemma filter_options_idempotent (chain : list option_record) (ty : string) :
  _filter_options (_filter_options chain ty) ty = _filter_options chain ty.
Proof.
  unfold _filter_options.
  induction chain as [| o chain IH]; simpl; [reflexivity |].
  destruct (option_string_eqb (otype o) ty) eqn:E; [| exact IH].
  simpl. rewrite E. now rewrite IH.
Qed.


(** *** The order of the chain *)

Lemma strike_keys_map (opts : list option_record) (keyed : list (Q * option_record)) :
  strike_keys opts = Some keyed -> keyed = map BwbData.key_pair opts.
Proof.
  revert keyed. induction opts as [| o opts IH]; intros keyed H; simpl in H.
  - now injection H as <-.
  - unfold BwbData.key_pair at 1. simpl.
    destruct (strike o) as [k |]; [| discriminate H].
    destruct (strike_keys opts) as [rest |]; [| discriminate H].
    injection H as <-. now rewrite (IH rest eq_refl).
Qed.

Lemma strike_keys_perm (opts1 opts2 : list option_record)
      (keyed1 : list (Q * option_record)) :
  Permutation opts1 opts2 ->
  strike_keys opts1 = Some keyed1 ->
  exists keyed2, strike_keys opts2 = Some keyed2 /\ Permutation keyed1 keyed2.
Proof.
  intros Hperm H1.
  destruct (strike_keys opts2) as [keyed2 |] eqn:H2.
  - exists keyed2. split; [reflexivity |].
    rewrite (strike_keys_map _ _ H1), (strike_keys_map _ _ H2).
    now apply Permutation_map.
  - exfalso. apply strike_keys_none in H2. destruct H2 as (o & Hin & Ho).
    assert (Hnone : strike_keys opts1 = None).
    { apply strike_keys_none. exists o. split; [| exact Ho].
      apply (Permutation_in _ (Permutation_sym Hperm) Hin). }
    congruence.
Qed.

Lemma fold_insert_perm (keyed : list (Q * option_record)) :
  Permutation (fold_right insert_by_strike [] keyed) keyed.
Proof.
  induction keyed as [| x keyed IH]; simpl; [constructor |].
  eapply perm_trans; [apply BwbFacts.insert_by_strike_perm | now apply perm_skip].
Qed.

Lemma fold_insert_ascending (keyed : list (Q * option_record)) :
  ascending (fold_right insert_by_strike [] keyed).
Proof.
  induction keyed as [| x keyed IH]; simpl.
  - constructor.
  - now apply BwbFacts.insert_by_strike_ascending.
Qed.

(** Two ascending lists with the same elements are the same list when
    elements with equal keys are equal. *)
Lemma ascending_unique (l1 : list (Q * option_record)) :
  forall l2,
    ascending l1 -> ascending l2 -> Permutation l1 l2 ->
    (forall a b, In a l1 -> In b l1 -> fst a == fst b -> a = b) ->
    l1 = l2.
Proof.
  unfold ascending.
  induction l1 as [| x l1 IH]; intros l2 H1 H2 Hperm Hdist.
  - apply Permutation_nil in Hperm. now subst.
  - destruct l2 as [| y l2].
    { apply Permutation_sym, Permutation_nil in Hperm. discriminate Hperm. }
    inversion H1 as [| ? ? H1' Hx]; subst.
    inversion H2 as [| ? ? H2' Hy]; subst.
    rewrite Forall_forall in Hx, Hy.
    assert (Hxy : x = y).
    { assert (Hx2 : In x (y :: l2)) by (apply (Permutation_in _ Hperm); now left).
      assert (Hy1 : In y (x :: l1))
        by (apply (Permutation_in _ (Permutation_sym Hperm)); now left).
      destruct Hx2 as [-> | Hx2]; [reflexivity |].
      destruct Hy1 as [-> | Hy1]; [reflexivity |].
      apply Hdist; [now left | now right |].
      apply Qle_antisym; [exact (Hx y Hy1) | exact (Hy x Hx2)]. }
    subst y. f_equal.
    apply IH; try assumption.
    + now apply Permutation_cons_inv in Hperm.
    + intros a b Ha Hb. apply Hdist; now right.
Qed.

Lemma sorted_by_strike_perm (opts1 opts2 : list option_record) :
  Permutation opts1 opts2 ->
  BwbData.distinct_strikes opts1 ->
  sorted_by_strike opts1 = sorted_by_strike opts2.
Proof.
  intros Hperm Hdist. unfold sorted_by_strike.
  destruct (strike_keys opts1) as [keyed1 |] eqn:H1.
  - destruct (strike_keys_perm _ _ _ Hperm H1) as (keyed2 & -> & Hk).
    f_equal. apply ascending_unique.
    + apply fold_insert_ascending.
    + apply fold_insert_ascending.
    + eapply perm_trans; [apply fold_insert_perm |].
      eapply perm_trans; [exact Hk | apply Permutation_sym, fold_insert_perm].
    + intros a b Ha Hb Hab.
      apply (Permutation_in _ (fold_insert_perm keyed1)) in Ha, Hb.
      rewrite (strike_keys_map _ _ H1) in Ha, Hb.
      apply in_map_iff in Ha, Hb.
      destruct Ha as (oa & <- & Hoa). destruct Hb as (ob & <- & Hob).
      assert (Hsa : strike_keys opts1 <> None) by congruence.
      destruct (strike oa) as [ka |] eqn:Eka.
      2:{ exfalso. apply Hsa, strike_keys_none. exists oa. auto. }
      destruct (strike ob) as [kb |] eqn:Ekb.
      2:{ exfalso. apply Hsa, strike_keys_none. exists ob. auto. }
      unfold BwbData.key_pair in *. rewrite Eka, Ekb in *. simpl in Hab.
      assert (E : oa = ob) by exact (Hdist oa ob ka kb Hoa Hob Eka Ekb Hab).
      subst ob. congruence.
  - destruct (strike_keys opts2) as [keyed2 |] eqn:H2; [| reflexivity].
    exfalso.
    destruct (strike_keys_perm _ _ _ (Permutation_sym Hperm) H2) as (k & Hk & _).
    congruence.
Qed.

Lemma put_builder_same (fmt_num fmt_2f : Q -> string)
      (chain1 chain2 : list option_record) (result : bwb_structure) :
  (_filter_options chain1 "put" = [] <-> _filter_options chain2 "put" = []) ->
  sorted_by_strike (_filter_options chain1 "put")
  = sorted_by_strike (_filter_options chain2 "put") ->
  _build_put_credit_bwb fmt_num fmt_2f chain1 result
  = _build_put_credit_bwb fmt_num fmt_2f chain2 result.
Proof.
  unfold _build_put_credit_bwb. cbv zeta. intros Hnil Hs.
  destruct (_filter_options chain1 "put") as [| p1 puts1],
           (_filter_options chain2 "put") as [| p2 puts2];
    try reflexivity.
  - destruct Hnil as [Hnil _]. discriminate (Hnil eq_refl).
  - destruct Hnil as [_ Hnil]. discriminate (Hnil eq_refl).
  - now rewrite Hs.
Qed.

Lemma call_builder_same (fmt_num fmt_2f : Q -> string)
      (chain1 chain2 : list option_record) (result : bwb_structure) :
  (_filter_options chain1 "call" = [] <-> _filter_options chain2 "call" = []) ->
  sorted_by_strike (_filter_options chain1 "call")
  = sorted_by_strike (_filter_options chain2 "call") ->
  _build_call_debit_bwb fmt_num fmt_2f chain1 result
  = _build_call_debit_bwb fmt_num fmt_2f chain2 result.
Proof.
  unfold _build_call_debit_bwb. cbv zeta. intros Hnil Hs.
  destruct (_filter_options chain1 "call") as [| p1 calls1],
           (_filter_options chain2 "call") as [| p2 calls2];
    try reflexivity.
  - destruct Hnil as [Hnil _]. discriminate (Hnil eq_refl).
  - destruct Hnil as [_ Hnil]. discriminate (Hnil eq_refl).
  - now rewrite Hs.
Qed.

Lemma perm_nil_iff {A : Type} (l1 l2 : list A) :
  Permutation l1 l2 -> (l1 = [] <-> l2 = []).
Proof.
  intros Hperm. split; intros ->.
  - now apply Permutation_nil.
  - now apply Permutation_nil, Permutation_sym.
Qed.

(** X18. A structure depends on the chain only through the records of
    the requested kind, and not on the order in which they are listed
    when no two of them share a strike: two non-empty chains whose puts
    are the same up to order, with distinct strikes, give the same
    PUT_CREDIT_BWB structure, whatever else the chains contain; likewise
    for calls and CALL_DEBIT_BWB. *)
Theorem structure_order_independent (fmt_num fmt_2f : Q -> string)
        (chain1 chain2 : list option_record)
        (Hne1 : chain1 <> []) (Hne2 : chain2 <> []) :
  (Permutation (_filter_options chain1 "put") (_filter_options chain2 "put") ->
   BwbData.distinct_strikes (_filter_options chain1 "put") ->
   build_bwb_structure fmt_num fmt_2f chain1 STRUCTURE_PUT_CREDIT_BWB
   = build_bwb_structure fmt_num fmt_2f chain2 STRUCTURE_PUT_CREDIT_BWB)
  /\ (Permutation (_filter_options chain1 "call") (_filter_options chain2 "call") ->
      BwbData.distinct_strikes (_filter_options chain1 "call") ->
      build_bwb_structure fmt_num fmt_2f chain1 STRUCTURE_CALL_DEBIT_BWB
      = build_bwb_structure fmt_num fmt_2f chain2 STRUCTURE_CALL_DEBIT_BWB).
Proof.
  destruct chain1 as [| a1 chain1]; [congruence |].
  destruct chain2 as [| a2 chain2]; [congruence |].
  split; intros Hperm Hdist; unfold build_bwb_structure; cbv zeta.
  - change (String.eqb STRUCTURE_PUT_CREDIT_BWB STRUCTURE_PUT_CREDIT_BWB) with true.
    cbv iota.
    rewrite (put_builder_same fmt_num fmt_2f (a1 :: chain1) (a2 :: chain2));
      [reflexivity | now apply perm_nil_iff | now apply sorted_by_strike_perm].
  - change (String.eqb STRUCTURE_CALL_DEBIT_BWB STRUCTURE_PUT_CREDIT_BWB) with false.
    change (String.eqb STRUCTURE_CALL_DEBIT_BWB STRUCTURE_CALL_DEBIT_BWB) with true.
    cbv iota.
    rewrite (call_builder_same fmt_num fmt_2f (a1 :: chain1) (a2 :: chain2));
      [reflexivity | now apply perm_nil_iff | now apply sorted_by_strike_perm].
Qed.

Lemma structure_order_independent_witness :
  (Permutation (_filter_options (rev sample_put_chain ++ BwbData.sample_call_chain) "put")
               (_filter_options sample_put_chain "put") ->
   BwbData.distinct_strikes
     (_filter_options (rev sample_put_chain ++ BwbData.sample_call_chain) "put") ->
   build_bwb_structure (fun _ => EmptyString) (fun _ => EmptyString)
     (rev sample_put_chain ++ BwbData.sample_call_chain) STRUCTURE_PUT_CREDIT_BWB
   = build_bwb_structure (fun _ => EmptyString) (fun _ => EmptyString)
       sample_put_chain STRUCTURE_PUT_CREDIT_BWB)
  /\ (Permutation
        (_filter_options (rev sample_put_chain ++ BwbData.sample_call_chain) "call")
        (_filter_options sample_put_chain "call") ->
      BwbData.distinct_strikes
        (_filter_options (rev sample_put_chain ++ BwbData.sample_call_chain) "call") ->
      build_bwb_structure (fun _ => EmptyString) (fun _ => EmptyString)
        (rev sample_put_chain ++ BwbData.sample_call_chain) STRUCTURE_CALL_DEBIT_BWB
      = build_bwb_structure (fun _ => EmptyString) (fun _ => EmptyString)
          sample_put_chain STRUCTURE_CALL_DEBIT_BWB).
Proof.
  apply (structure_order_independent (fun _ => EmptyString) (fun _ => EmptyString)
           (rev sample_put_chain ++ BwbData.sample_call_chain) sample_put_chain);
    discriminate.
Defined.

End BwbMore.

Module GammaMore.
Import Bwb GammaWarning.

(** X19. [extract_short_strike] reads back the strike the builder
    chose: on a valid structure it returns the strike of the record
    selected by the delta scan (target 0.55 among the puts, 0.45 among the
    calls), on an invalid structure and on a value that is not a dict it
    returns [None]. *)
Theorem extract_short_strike_of_built (fmt_num fmt_2f : Q -> string)
        (chain : list option_record) (t : string) :
  let r := build_bwb_structure fmt_num fmt_2f chain t in
  extract_short_strike None = None
  /\ (valid r = false -> extract_short_strike (Some r) = None)
  /\ (valid r = true ->
      exists ps k o,
        extract_short_strike (Some r) = Some k
        /\ ((t = STRUCTURE_PUT_CREDIT_BWB
             /\ sorted_by_strike (_filter_options chain "put") = Some ps
             /\ _find_closest_delta ps TARGET_DELTA_PUT_SHORT = Some (k, o))
            \/ (t = STRUCTURE_CALL_DEBIT_BWB
                /\ sorted_by_strike (_filter_options chain "call") = Some ps
                /\ _find_closest_delta ps TARGET_DELTA_CALL_SHORT = Some (k, o)))).
Proof.
  cbv zeta. split; [reflexivity |]. split.
  - intros Hinv.
    destruct (BwbFacts.build_outcome fmt_num fmt_2f chain t)
      as [(_ & Hlegs & _) | (Hv & _)]; [| congruence].
    unfold extract_short_strike. now rewrite Hlegs.
  - unfold build_bwb_structure. cbv zeta.
    destruct chain as [| o0 chain]; [discriminate |].
    destruct (String.eqb_spec t STRUCTURE_PUT_CREDIT_BWB) as [-> | _].
    + destruct (_build_put_credit_bwb fmt_num fmt_2f (o0 :: chain) _) as [r |] eqn:Hr;
        [| discriminate].
      intros Hv.
      destruct (BwbMore.put_builder_valid _ _ _ _ _ Hr Hv)
        as (ps & k & o & i & upper & lower & Hs & Hf & _ & _ & _ & _ & _ & Hlegs & _).
      exists ps, k, o. split; [| left; auto].
      unfold extract_short_strike. rewrite Hlegs. reflexivity.
    + destruct (String.eqb_spec t STRUCTURE_CALL_DEBIT_BWB) as [-> | _];
        [| discriminate].
      destruct (_build_call_debit_bwb fmt_num fmt_2f (o0 :: chain) _) as [r |] eqn:Hr;
        [| discriminate].
      intros Hv.
      destruct (BwbMore.call_builder_valid _ _ _ _ _ Hr Hv)
        as (ps & k & o & i & upper & lower & Hs & Hf & _ & _ & _ & _ & _ & Hlegs & _).
      exists ps, k, o. split; [| right; auto].
      unfold extract_short_strike. rewrite Hlegs. reflexivity.
Qed.

End GammaMore.

Module HolidayMore.
Import Holiday.

(** X20. Whatever the input and the calendar, a result of the gate has
    [is_trade_week] equal to the conjunction of its two day flags, and a
    week is allowed only for a date that parses and is a Monday. *)
Theorem is_trade_week_flags (strptime : string -> option Z) (Calendar : Type)
        (get_calendar : option Calendar)
        (schedule : Calendar -> Z -> Z -> option (option (list Z)))
        (fmt_date : Z -> string) (monday_date : string) (r : trade_week_result)
        (Hr : is_trade_week strptime Calendar get_calendar schedule fmt_date monday_date
              = Some r) :
  allowed r = monday_trading_day r && friday_trading_day r
  /\ (allowed r = true ->
      exists monday, strptime monday_date = Some monday /\ weekday monday = 0%Z).
Proof.
  revert Hr. unfold is_trade_week.
  destruct (strptime monday_date) as [monday |].
  2:{ intros [= <-]. cbn. split; [reflexivity | discriminate]. }
  destruct (Z.eqb_spec (weekday monday) 0) as [Hmon | Hnot]; cbn [negb].
  2:{ intros [= <-]. cbn. split; [reflexivity | discriminate]. }
  destruct (add_days monday 4) as [friday |]; [| discriminate].
  destruct get_calendar as [nyse |].
  2:{ intros [= <-]. cbn. split; [reflexivity | discriminate]. }
  destruct (schedule nyse monday friday) as [[[| d dates] |] |].
  - intros [= <-]. cbn. split; [reflexivity | discriminate].
  - set (m := mem_date monday (d :: dates)).
    set (f := mem_date friday (d :: dates)).
    intros [= <-].
    destruct m, f; cbn; (split; [reflexivity |]); try discriminate.
    intros _. exists monday. auto.
  - intros [= <-]. cbn. split; [reflexivity | discriminate].
  - intros [= <-]. cbn. split; [reflexivity | discriminate].
Qed.

Lemma is_trade_week_flags_witness :
  exists r,
    is_trade_week january_strptime unit (Some tt) january_schedule
                  (fun _ => EmptyString) "2024-01-08" = Some r
    /\ allowed r = monday_trading_day r && friday_trading_day r
    /\ (allowed r = true ->
        exists monday,
          january_strptime "2024-01-08" = Some monday /\ weekday monday = 0%Z).
Proof.
  eexists. split; [vm_compute; reflexivity |].
  apply (is_trade_week_flags january_strptime unit (Some tt) january_schedule
           (fun _ => EmptyString) "2024-01-08").
  vm_compute. reflexivity.
Defined.

End HolidayMore.

Module RunWeekMore.
Import RunWeek.

(** The state on rising prices, as the entry evaluator reads it. *)
Lemma rising_state (fmt_int : Z -> string) (fmt_4f : Q -> string)
      (fmt_bool : bool -> string) (prices : list Q) :
  (10 <= List.length prices)%nat ->
  Ema.strictly_increasing prices ->
  let st := Ema.compute_ema_state fmt_int fmt_4f fmt_bool prices 3 8 in
  Ema.valid st = true /\ Ema.short_above_long st = true
  /\ Ema.long_ema_slope st <> "negative"%string.
Proof.
  intros Hlen Hinc.
  destruct (EmaStateFacts.ten_prices prices Hlen)
    as (p0 & p1 & p2 & p3 & p4 & p5 & p6 & p7 & mid & a & b & ->).
  destruct (EmaMore.compute_ema_state_run fmt_int fmt_4f fmt_bool
              p0 p1 p2 p3 p4 p5 p6 p7 mid a b) as (Hv & _ & _ & Habove & Hslope).
  cbv zeta. rewrite Hv, Habove, Hslope. clear Hv Habove Hslope.
  assert (Horder : p0 < p1 /\ p1 < p2 /\ p2 < p3 /\ p3 < p4 /\ p4 < p5
                   /\ p5 < p6 /\ p6 < p7
                   /\ Ema.increasing_from p7 (mid ++ [a; b])).
  { simpl in Hinc. tauto. }
  destruct Horder as (H01 & H12 & H23 & H34 & H45 & H56 & H67 & Hrest).
  change (mid ++ [a; b]) with (mid ++ [a] ++ [b]) in Hrest.
  rewrite app_assoc in Hrest.
  apply EmaStateFacts.increasing_from_app in Hrest. destruct Hrest as [Hmid_a Hab].
  rewrite last_last in Hab. simpl in Hab. destruct Hab as [Hab _].
  pose proof EmaMore.short_multiplier as Hms.
  pose proof EmaMore.long_multiplier as Hml.
  pose proof (EmaMore.short_seed p0 p1 p2) as Hseed_s.
  pose proof (EmaMore.long_seed p0 p1 p2 p3 p4 p5 p6 p7) as Hseed_l.
  set (ms := 2 / inject_Z (3 + 1)) in *.
  set (ml := 2 / inject_Z (8 + 1)) in *.
  set (seed_s := Py.sum [p0; p1; p2] / inject_Z 3) in *.
  set (seed_l := Py.sum [p0; p1; p2; p3; p4; p5; p6; p7] / inject_Z 8) in *.
  simpl fold_left at 2 4.
  set (s7 := Ema.ema_step ms (Ema.ema_step ms (Ema.ema_step ms (Ema.ema_step ms
               (Ema.ema_step ms seed_s p3) p4) p5) p6) p7) in *.
  assert (Hbase : seed_l < s7 /\ s7 <= p7).
  { unfold s7, Ema.ema_step. rewrite Hms, Hseed_s, Hseed_l. split; lra. }
  destruct Hbase as [Hbase1 Hbase2].
  destruct (EmaStateFacts.ema_pair_invariant ms ml Hms Hml (mid ++ [a]) s7 seed_l p7
              Hbase1 Hbase2 Hmid_a) as [Ha1 Ha2].
  rewrite last_last in Ha2.
  rewrite fold_left_app in Ha2. rewrite 2!fold_left_app in Ha1.
  simpl fold_left in Ha1, Ha2.
  set (sa := Ema.ema_step ms (fold_left (Ema.ema_step ms) mid s7) a) in *.
  set (la := Ema.ema_step ml (fold_left (Ema.ema_step ml) mid seed_l) a) in *.
  assert (Hfinal : Ema.ema_step ml la b < Ema.ema_step ms sa b).
  { unfold Ema.ema_step. rewrite Hms, Hml. lra. }
  assert (Hdiff : 0 < Ema.ema_step ml la b - la).
  { unfold Ema.ema_step. rewrite Hml. lra. }
  split; [reflexivity |]. split.
  - destruct (Qlt_le_dec (Ema.ema_step ml la b) (Ema.ema_step ms sa b)) as [_ | Hle];
      [reflexivity |].
    exfalso. lra.
  - unfold Ema.classify_slope.
    destruct (Qlt_le_dec Ema.SLOPE_EPSILON (Ema.ema_step ml la b - la)); [discriminate |].
    destruct (Qlt_le_dec (Ema.ema_step ml la b - la) (- Ema.SLOPE_EPSILON)) as [Hneg | _];
      [| discriminate].
    exfalso. unfold Ema.SLOPE_EPSILON in Hneg. lra.
Qed.

(** The entry decision on the dicts the pipeline builds. *)
Lemma pipeline_entry (fmt_val : Entry.pyval -> string)
      (hr : Holiday.trade_week_result) (st : Ema.ema_state) (entry_time_valid : bool) :
  Entry.decision
    (Entry.evaluate_entry fmt_val (holiday_dict hr) (ema_dict st)
                          (entry_context_dict entry_time_valid))
  = Entry.DECISION_TRADE_ALLOWED
  <-> Holiday.allowed hr = true /\ entry_time_valid = true
      /\ Ema.valid st = true /\ Ema.short_above_long st = true
      /\ Ema.long_ema_slope st <> "negative"%string.
Proof.
  unfold Entry.evaluate_entry, Entry._evaluate_hard_blocks, Entry.check_block,
    Entry._evaluate_signal_conditions, Entry.bind, holiday_dict, ema_dict,
    entry_context_dict.
  cbn.
  destruct (String.eqb_spec (Ema.long_ema_slope st) "negative") as [Hs | Hs];
    destruct (Holiday.allowed hr), entry_time_valid, (Ema.valid st),
             (Ema.short_above_long st);
    cbn; split;
    try discriminate;
    try (intros (H1 & H2 & H3 & H4 & H5);
         solve [discriminate | contradiction]);
    auto.
Qed.

(** With every condition met, the decision carries no tag. *)
Lemma pipeline_entry_clean (fmt_val : Entry.pyval -> string)
      (hr : Holiday.trade_week_result) (st : Ema.ema_state) :
  Holiday.allowed hr = true -> Ema.valid st = true ->
  Ema.short_above_long st = true -> Ema.long_ema_slope st <> "negative"%string ->
  let d := Entry.evaluate_entry fmt_val (holiday_dict hr) (ema_dict st)
             (entry_context_dict true) in
  Entry.hard_blocks_triggered d = [] /\ Entry.signal_failures d = [].
Proof.
  intros Ha Hv Hs Hn.
  unfold Entry.evaluate_entry, Entry._evaluate_hard_blocks, Entry.check_block,
    Entry._evaluate_signal_conditions, Entry.bind, holiday_dict, ema_dict,
    entry_context_dict.
  cbn. rewrite Ha, Hv, Hs.
  destruct (String.eqb_spec (Ema.long_ema_slope st) "negative") as [E | _];
    [contradiction |].
  cbn. split; reflexivity.
Qed.

Section PipelineFacts.

Variable strptime : string -> option Z.
Variable Calendar : Type.
Variable get_calendar : option Calendar.
Variable schedule : Calendar -> Z -> Z -> option (option (list Z)).
Variable fmt_date : Z -> string.
Variable fmt_int : Z -> string.
Variable fmt_4f : Q -> string.
Variable fmt_bool : bool -> string.
Variable fmt_val : Entry.pyval -> string.
Variable fmt_num : Q -> string.
Variable fmt_2f : Q -> string.
Variable get_macro_event_tags : string -> list string.

(** X21. The pipeline always reports an entry decision.  It is TRADE
    ALLOWED exactly when the holiday gate returns an allowed week, the
    entry time is valid, the EMA state of the prices is valid with the
    short EMA above the long one and a slope that is not negative; the
    structure builder is run exactly in that case, and the structure is
    absent otherwise. *)
Theorem run_weekly_pipeline_decision (monday_date : string) (entry_time_valid : bool)
        (prices : list Q) (chain : list Bwb.option_record) (structure_type : string) :
  let res := run_weekly_pipeline strptime Calendar get_calendar schedule fmt_date
               fmt_int fmt_4f fmt_bool fmt_val fmt_num fmt_2f get_macro_event_tags
               monday_date entry_time_valid prices chain structure_type in
  let st := Ema.compute_ema_state fmt_int fmt_4f fmt_bool prices 3 8 in
  exists d,
    entry_decision res = Some d
    /\ (Entry.decision d = Entry.DECISION_TRADE_ALLOWED
        <-> exists hr,
             Holiday.is_trade_week strptime Calendar get_calendar schedule fmt_date
                                   monday_date = Some hr
             /\ Holiday.allowed hr = true /\ entry_time_valid = true
             /\ Ema.valid st = true /\ Ema.short_above_long st = true
             /\ Ema.long_ema_slope st <> "negative"%string)
    /\ (Entry.decision d = Entry.DECISION_TRADE_ALLOWED ->
        bwb_structure res
        = Some (Bwb.build_bwb_structure fmt_num fmt_2f chain structure_type))
    /\ (Entry.decision d <> Entry.DECISION_TRADE_ALLOWED -> bwb_structure res = None).
Proof.
  cbv zeta. unfold run_weekly_pipeline. cbv zeta.
  destruct (Holiday.is_trade_week strptime Calendar get_calendar schedule fmt_date
                                  monday_date) as [hr |].
  - set (st := Ema.compute_ema_state fmt_int fmt_4f fmt_bool prices 3 8).
    pose proof (pipeline_entry fmt_val hr st entry_time_valid) as Hiff.
    set (d := Entry.evaluate_entry fmt_val (holiday_dict hr) (ema_dict st)
                (entry_context_dict entry_time_valid)) in *.
    exists d.
    destruct (String.eqb_spec (Entry.decision d) DECISION_TRADE_ALLOWED) as [Hd | Hd];
      cbn [negb entry_decision bwb_structure].
    + split; [reflexivity |]. split; [| split; [reflexivity |]].
      * split; [| intros _; exact Hd].
        intros Hall. exists hr. split; [reflexivity |]. now apply Hiff.
      * intros Hne. contradiction.
    + split; [reflexivity |]. split; [| split; [| reflexivity]].
      * split; [intros Hall; contradiction |].
        intros (hr' & [= <-] & Hrest). exfalso. apply Hd. now apply Hiff.
      * intros Hall. contradiction.
  - exists pipeline_error. cbn.
    split; [reflexivity |]. split; [| split; [discriminate | reflexivity]].
    split; [discriminate | intros (hr & [=] & _)].
Qed.

(** X22. An open week, a valid entry time and at least ten strictly
    increasing prices always lead to TRADE ALLOWED, and the pipeline then
    returns the structure the builder makes of the chain, with the last
    price as spot proxy. *)
Theorem run_weekly_pipeline_rising (monday_date : string) (monday : Z)
        (nyse : Calendar) (dates : list Z)
        (prices : list Q) (chain : list Bwb.option_record) (structure_type : string)
        (Hparse : strptime monday_date = Some monday)
        (Hdate : Holiday.valid_date monday)
        (Hmonday : Holiday.weekday monday = 0%Z)
        (Hcalendar : get_calendar = Some nyse)
        (Hschedule : schedule nyse monday (monday + 4) = Some (Some dates))
        (Hopen_monday : In monday dates)
        (Hopen_friday : In (monday + 4)%Z dates)
        (Hlen : (10 <= List.length prices)%nat)
        (Hrising : Ema.strictly_increasing prices) :
  let res := run_weekly_pipeline strptime Calendar get_calendar schedule fmt_date
               fmt_int fmt_4f fmt_bool fmt_val fmt_num fmt_2f get_macro_event_tags
               monday_date true prices chain structure_type in
  (exists d, entry_decision res = Some d
             /\ Entry.decision d = Entry.DECISION_TRADE_ALLOWED
             /\ Entry.hard_blocks_triggered d = [] /\ Entry.signal_failures d = [])
  /\ bwb_structure res
     = Some (Bwb.build_bwb_structure fmt_num fmt_2f chain structure_type)
  /\ spot_proxy res = Some (last prices 0).
Proof.
  assert (Hmem : forall x, In x dates -> Holiday.mem_date x dates = true).
  { intros x Hx. unfold Holiday.mem_date. apply existsb_exists.
    exists x. split; [exact Hx | apply Z.eqb_refl]. }
  assert (Hgate : exists hr,
             Holiday.is_trade_week strptime Calendar get_calendar schedule fmt_date
                                   monday_date = Some hr
             /\ Holiday.allowed hr = true).
  { unfold Holiday.is_trade_week. rewrite Hparse.
    destruct (Z.eqb_spec (Holiday.weekday monday) 0) as [_ | Hn]; [| contradiction].
    cbn [negb]. rewrite (HolidayFacts.friday_of_monday monday Hdate Hmonday).
    rewrite Hcalendar, Hschedule.
    destruct dates as [| d0 dates]; [contradiction |].
    rewrite (Hmem monday Hopen_monday), (Hmem _ Hopen_friday). cbn.
    eexists. split; reflexivity. }
  destruct Hgate as (hr & Hhr & Hallowed).
  destruct (rising_state fmt_int fmt_4f fmt_bool prices Hlen Hrising)
    as (Hv & Habove & Hslope).
  cbv zeta. unfold run_weekly_pipeline. cbv zeta. rewrite Hhr.
  set (st := Ema.compute_ema_state fmt_int fmt_4f fmt_bool prices 3 8) in *.
  assert (Hd : Entry.decision
                 (Entry.evaluate_entry fmt_val (holiday_dict hr) (ema_dict st)
                                       (entry_context_dict true))
               = Entry.DECISION_TRADE_ALLOWED).
  { apply pipeline_entry. auto. }
  pose proof (pipeline_entry_clean fmt_val hr st Hallowed Hv Habove Hslope) as Hclean.
  cbv zeta in Hclean.
  set (d := Entry.evaluate_entry fmt_val (holiday_dict hr) (ema_dict st)
              (entry_context_dict true)) in *.
  assert (Hspot : Py.index_neg prices 1 = Some (last prices 0)).
  { destruct (PyFacts.two_last prices) as (front & a & b & E); [lia |].
    rewrite E. change (front ++ [a; b]) with (front ++ [a] ++ [b]).
    rewrite !app_assoc, PyFacts.index_neg_last, last_last. reflexivity. }
  rewrite Hd. unfold DECISION_TRADE_ALLOWED, Entry.DECISION_TRADE_ALLOWED.
  rewrite String.eqb_refl. cbn [negb entry_decision bwb_structure spot_proxy].
  split; [| split; [reflexivity | exact Hspot]].
  exists d. split; [reflexivity |]. split; [exact Hd |]. exact Hclean.
Qed.

End PipelineFacts.

Lemma run_weekly_pipeline_rising_witness :
  let res := run_weekly_pipeline Holiday.january_strptime unit (Some tt)
               Holiday.january_schedule (fun _ => EmptyString) (fun _ => EmptyString)
               (fun _ => EmptyString) (fun _ => EmptyString) (fun _ => EmptyString)
               (fun _ => EmptyString) (fun _ => EmptyString) (fun _ => [])
               "2024-01-08" true Ema.unit_steps Bwb.sample_put_chain
               "PUT_CREDIT_BWB" in
  (exists d, entry_decision res = Some d
             /\ Entry.decision d = Entry.DECISION_TRADE_ALLOWED
             /\ Entry.hard_blocks_triggered d = [] /\ Entry.signal_failures d = [])
  /\ bwb_structure res
     = Some (Bwb.build_bwb_structure (fun _ => EmptyString) (fun _ => EmptyString)
                                     Bwb.sample_put_chain "PUT_CREDIT_BWB")
  /\ spot_proxy res = Some (last Ema.unit_steps 0).
Proof.
  apply (run_weekly_pipeline_rising Holiday.january_strptime unit (Some tt)
           Holiday.january_schedule (fun _ => EmptyString) (fun _ => EmptyString)
           (fun _ => EmptyString) (fun _ => EmptyString) (fun _ => EmptyString)
           (fun _ => EmptyString) (fun _ => EmptyString) (fun _ => [])
           "2024-01-08" 738893%Z tt [738893; 738894; 738895; 738896; 738897]%Z
           Ema.unit_steps Bwb.sample_put_chain "PUT_CREDIT_BWB").
  - reflexivity.
  - unfold Holiday.valid_date, Holiday.MIN_ORDINAL, Holiday.MAX_ORDINAL. lia.
  - reflexivity.
  - reflexivity.
  - reflexivity.
  - simpl. auto.
  - simpl. auto 10.
  - simpl. lia.
  - unfold Ema.unit_steps, Ema.strictly_increasing, Ema.increasing_from.
    repeat split; reflexivity.
Defined.

End RunWeekMore.

Module OutcomesMore.
Import Outcomes OutcomesData.

Lemma round4_nonpos (x : Q) : x <= 0 -> Py.round4 x <= 0.
Proof.
  intros Hx. unfold Py.round4.
  assert (H : (Py.round_half_even (x * 10000) <= 0)%Z).
  { apply BacktestMore.round_half_even_le. change (inject_Z 0) with 0. lra. }
  unfold Qle. simpl. lia.
Qed.

Lemma valid_max_loss (fmt_num fmt_2f : Q -> string)
      (chain : list Bwb.option_record) (t : string) :
  Bwb.valid (Bwb.build_bwb_structure fmt_num fmt_2f chain t) = true ->
  exists m, Bwb.max_loss (Bwb.build_bwb_structure fmt_num fmt_2f chain t) = Some m
            /\ 0 <= m.
Proof.
  intros Hv.
  destruct (BwbFacts.build_outcome fmt_num fmt_2f chain t)
    as [(Hbad & _) | (_ & short & upper & lower & net & _ & _ & Hloss)].
  - rewrite Hv in Hbad. discriminate.
  - destruct Hloss as [[_ Hloss] | [_ Hloss]]; rewrite Hloss;
      eexists; (split; [reflexivity | apply BwbFacts.floor_at_zero_nonneg]).
Qed.

(** *** The Friday lookup *)

Lemma in_option_lookup (chain : list friday_record) (t : string) (k : Q)
      (opt : friday_record) :
  In (t, k, opt) (_build_option_lookup chain) ->
  In opt chain /\ f_type opt = Some t /\ f_strike opt = Some k.
Proof.
  unfold _build_option_lookup. rewrite in_flat_map.
  intros (o & Hin & Hentry).
  destruct (f_type o) as [t' |] eqn:Et; [| contradiction].
  destruct (f_strike o) as [k' |] eqn:Ek; [| contradiction].
  destruct (Py.nonempty_string t'); [| contradiction].
  destruct Hentry as [[= <- <- <-] | []]. auto.
Qed.

Lemma lookup_get_found (lookup : list (string * Q * friday_record))
      (t : string) (k : Q) (opt : friday_record) :
  lookup_get lookup t k = Some opt ->
  exists k', In (t, k', opt) lookup /\ k' == k.
Proof.
  unfold lookup_get.
  assert (Hgen : forall acc,
             fold_left (fun found entry =>
                          let '(t', k', o) := entry in
                          if String.eqb t' t && Qeq_bool k' k then Some o else found)
                       lookup acc = Some opt ->
             acc = Some opt \/ exists k', In (t, k', opt) lookup /\ k' == k).
  { induction lookup as [| [[t' k'] o] lookup IH]; intros acc H; simpl in H.
    - now left.
    - apply IH in H. destruct H as [H | (k'' & Hin & Hk)].
      + destruct (String.eqb_spec t' t) as [-> | _]; simpl in H.
        * destruct (Qeq_bool k' k) eqn:Hk.
          -- injection H as ->. right. exists k'. split; [now left |].
             now apply Qeq_bool_iff.
          -- now left.
        * now left.
      + right. exists k''. split; [now right | exact Hk]. }
  intros H. apply Hgen in H. destruct H as [H | H]; [discriminate | exact H].
Qed.

Lemma leg_values_quoted (chain : list friday_record) (legs : list Bwb.leg) :
  forall total p,
    leg_values (_build_option_lookup chain) legs total = Some p ->
    Forall (quoted chain) legs.
Proof.
  induction legs as [| l legs IH]; intros total p H; [constructor |].
  simpl in H.
  destruct (lookup_get (_build_option_lookup chain) (Bwb.leg_type l) (Bwb.leg_strike l))
    as [opt |] eqn:Eopt; [| discriminate].
  destruct (settlement_price opt) as [s |] eqn:Es; [| discriminate].
  constructor; [| exact (IH _ _ H)].
  apply lookup_get_found in Eopt. destruct Eopt as (k' & Hin & Hk).
  apply in_option_lookup in Hin. destruct Hin as (Hin & Ht & Hstrike).
  exists opt, k', s. auto.
Qed.

(** X23. A P&L at expiration is only computed when every leg has, in the
    Friday chain, a record of its type and strike that carries a settlement
    price; with no legs the P&L is the net premium. *)
Theorem compute_expiration_pnl_quoted (legs : list Bwb.leg)
        (friday_chain : list friday_record) (net_premium p : Q)
        (Hpnl : _compute_expiration_pnl legs friday_chain net_premium = Some p) :
  Forall (quoted friday_chain) legs
  /\ (legs = [] -> p == net_premium).
Proof.
  unfold _compute_expiration_pnl in Hpnl.
  destruct (leg_values (_build_option_lookup friday_chain) legs 0) as [v |] eqn:E;
    [| discriminate].
  injection Hpnl as <-. split.
  - exact (leg_values_quoted _ _ _ _ E).
  - intros ->. simpl in E. injection E as <-. lra.
Qed.

Lemma compute_expiration_pnl_quoted_witness :
  let r := Bwb.build_bwb_structure (fun _ => EmptyString) (fun _ => EmptyString)
             Bwb.sample_put_chain "PUT_CREDIT_BWB" in
  exists p,
    _compute_expiration_pnl (Bwb.legs r) friday_chain_loss (Bwb.net_premium r) = Some p
    /\ p == -(29 # 1)
    /\ Forall (quoted friday_chain_loss) (Bwb.legs r)
    /\ (Bwb.legs r = [] -> p == Bwb.net_premium r).
Proof.
  cbv zeta. eexists.
  split; [vm_compute; reflexivity |].
  split; [vm_compute; reflexivity |].
  apply (compute_expiration_pnl_quoted
           (Bwb.legs (Bwb.build_bwb_structure (fun _ => EmptyString)
                        (fun _ => EmptyString) Bwb.sample_put_chain "PUT_CREDIT_BWB"))
           friday_chain_loss).
  vm_compute. reflexivity.
Defined.

Section EvaluateFacts.

Variable fmt_num : Q -> string.
Variable fmt_2f : Q -> string.
Variable monday_chains : string -> option (list Bwb.option_record).
Variable friday_chains : string -> option (list friday_record).

Lemma single_week_cases (d : decision_record) :
  let r := (_evaluate_single_week fmt_num fmt_2f monday_chains friday_chains) d in
  let w := record r in
  Backtest.decision w = Some (get_string (decision d) "NO TRADE")
  /\ ((Backtest.outcome w = Some "SKIPPED"%string /\ Backtest.pnl w = Some 0
       /\ (get_string (decision d) "NO TRADE" <> DECISION_TRADE_ALLOWED ->
           Backtest.max_loss w = None /\ record_structure_type r = None))
      \/ (get_string (decision d) "NO TRADE" = DECISION_TRADE_ALLOWED
          /\ exists total m,
              Backtest.pnl w = Some (Py.round4 total)
              /\ Backtest.max_loss w = Some m /\ 0 <= m
              /\ ((0 <= total /\ Backtest.outcome w = Some "WIN"%string)
                  \/ (total < 0 /\ Backtest.outcome w = Some "LOSS"%string)))).
Proof.
  unfold _evaluate_single_week. cbv zeta.
  set (dec := get_string (decision d) "NO TRADE").
  set (st := get_string (structure_type d) "PUT_CREDIT_BWB").
  set (monday := get_string (monday_date d) "").
  destruct (String.eqb_spec dec DECISION_TRADE_ALLOWED) as [Hd | Hd]; cbn [negb].
  2: { cbn. split; [reflexivity |]. left. auto. }
  assert (Hskip : forall s m,
             Backtest.decision (record (skipped (get_string (week d) "") dec s m))
             = Some dec
             /\ ((Backtest.outcome (record (skipped (get_string (week d) "") dec s m))
                  = Some "SKIPPED"%string
                  /\ Backtest.pnl (record (skipped (get_string (week d) "") dec s m))
                     = Some 0
                  /\ (dec <> DECISION_TRADE_ALLOWED ->
                      Backtest.max_loss (record (skipped (get_string (week d) "") dec s m))
                      = None
                      /\ record_structure_type (skipped (get_string (week d) "") dec s m)
                         = None))
                 \/ (dec = DECISION_TRADE_ALLOWED
                     /\ exists total m0,
                         Backtest.pnl (record (skipped (get_string (week d) "") dec s m))
                         = Some (Py.round4 total)
                         /\ Backtest.max_loss
                              (record (skipped (get_string (week d) "") dec s m)) = Some m0
                         /\ 0 <= m0
                         /\ ((0 <= total
                              /\ Backtest.outcome
                                   (record (skipped (get_string (week d) "") dec s m))
                                 = Some "WIN"%string)
                             \/ (total < 0
                                 /\ Backtest.outcome
                                      (record (skipped (get_string (week d) "") dec s m))
                                    = Some "LOSS"%string))))).
  { intros s m. cbn. split; [reflexivity |]. left.
    split; [reflexivity |]. split; [reflexivity |]. intros Hn. contradiction. }
  destruct (monday_chains monday) as [[| o mc] |]; try apply Hskip.
  destruct (friday_chains monday) as [[| f fc] |]; try apply Hskip.
  destruct (Bwb.valid (Bwb.build_bwb_structure fmt_num fmt_2f (o :: mc) st)) eqn:Hv;
    cbn [negb]; [| apply Hskip].
  destruct (valid_max_loss fmt_num fmt_2f (o :: mc) st Hv) as (m & Hm & Hm0).
  destruct (_compute_expiration_pnl _ _ _) as [total |]; [| apply Hskip].
  cbn. split; [reflexivity |]. right. split; [exact Hd |].
  exists total, m. split; [reflexivity |]. split; [exact Hm |]. split; [exact Hm0 |].
  destruct (Qle_bool 0 total) eqn:Hsign.
  - left. split; [now apply Qle_bool_iff | reflexivity].
  - right. split; [| reflexivity].
    apply Qnot_le_lt. intros Hle. apply Qle_bool_iff in Hle. congruence.
Qed.

(** X24. Every weekly record is a WIN, a LOSS or SKIPPED and repeats the
    decision of its input.  A SKIPPED record has pnl 0.  A WIN or a LOSS
    only comes from a TRADE ALLOWED decision, carries a [max_loss] that is
    not negative, and its pnl is not negative for a WIN and not positive
    for a LOSS.  A record whose decision is not TRADE ALLOWED is SKIPPED,
    with no [max_loss] and no structure type. *)
Theorem evaluate_single_week_record (d : decision_record) :
  let r := _evaluate_single_week fmt_num fmt_2f monday_chains friday_chains d in
  let w := record r in
  Backtest.decision w = Some (get_string (decision d) "NO TRADE")
  /\ (Backtest.outcome w = Some "WIN"%string \/ Backtest.outcome w = Some "LOSS"%string
      \/ Backtest.outcome w = Some "SKIPPED"%string)
  /\ (Backtest.outcome w = Some "SKIPPED"%string -> Backtest.pnl w = Some 0)
  /\ (Backtest.outcome w = Some "WIN"%string ->
      Backtest.decision w = Some DECISION_TRADE_ALLOWED
      /\ exists p m, Backtest.pnl w = Some p /\ 0 <= p
                     /\ Backtest.max_loss w = Some m /\ 0 <= m)
  /\ (Backtest.outcome w = Some "LOSS"%string ->
      Backtest.decision w = Some DECISION_TRADE_ALLOWED
      /\ exists p m, Backtest.pnl w = Some p /\ p <= 0
                     /\ Backtest.max_loss w = Some m /\ 0 <= m)
  /\ (Backtest.decision w <> Some DECISION_TRADE_ALLOWED ->
      Backtest.outcome w = Some "SKIPPED"%string
      /\ Backtest.max_loss w = None /\ record_structure_type r = None).
Proof.
  cbv zeta.
  destruct (single_week_cases d) as [Hdec Hcases]. cbv zeta in Hdec, Hcases.
  split; [exact Hdec |].
  destruct Hcases as [(Hout & Hpnl & Hno)
                     | (Hd & total & m & Hpnl & Hm & Hm0 & Hsign)].
  - rewrite Hout, Hdec. split; [auto |]. split; [auto |].
    split; [discriminate |]. split; [discriminate |].
    intros Hn. split; [reflexivity |]. apply Hno. congruence.
  - rewrite Hdec, Hd.
    destruct Hsign as [[Hpos Hout] | [Hneg Hout]]; rewrite Hout.
    + split; [auto |]. split; [discriminate |]. split; [| split; [discriminate |]].
      * intros _. split; [reflexivity |]. exists (Py.round4 total), m.
        split; [exact Hpnl |]. split; [now apply BwbFacts.round4_nonneg |]. auto.
      * intros Hn. now contradiction Hn.
    + split; [auto |]. split; [discriminate |]. split; [discriminate |]. split.
      * intros _. split; [reflexivity |]. exists (Py.round4 total), m.
        split; [exact Hpnl |]. split; [apply round4_nonpos; lra |]. auto.
      * intros Hn. now contradiction Hn.
Qed.

Lemma traded_records (ds : list decision_record) :
  Backtest._filter_traded_weeks
    (map record
       (map (_evaluate_single_week fmt_num fmt_2f monday_chains friday_chains)
            ds))
  = filter (fun w => Backtest.get_eqb (Backtest.outcome w) "WIN"
                     || Backtest.get_eqb (Backtest.outcome w) "LOSS")
    (map record
       (map (_evaluate_single_week fmt_num fmt_2f monday_chains friday_chains)
            ds)).
Proof.
  unfold Backtest._filter_traded_weeks.
  apply filter_ext_in. intros w Hin.
  rewrite map_map in Hin. apply in_map_iff in Hin. destruct Hin as (d & <- & _).
  destruct (single_week_cases d) as [Hdec Hcases]. cbv zeta in Hdec, Hcases.
  rewrite Hdec.
  destruct Hcases as [(Hout & _) | (Hd & total & m & _ & _ & _ & Hsign)].
  - rewrite Hout. cbn. apply andb_false_r.
  - rewrite Hd. destruct Hsign as [[_ Hout] | [_ Hout]]; rewrite Hout; reflexivity.
Qed.

Lemma traded_are_win_or_loss (ds : list decision_record) :
  Forall win_or_loss (Backtest._filter_traded_weeks
    (map record
       (map (_evaluate_single_week fmt_num fmt_2f monday_chains friday_chains)
            ds))).
Proof.
  rewrite traded_records. apply Forall_forall. intros w Hin.
  apply filter_In in Hin. destruct Hin as [_ Hw].
  apply orb_true_iff in Hw. unfold win_or_loss.
  destruct Hw as [Hw | Hw]; apply BacktestFacts.get_eqb_true in Hw; auto.
Qed.

Lemma filter_map_length {A B : Type} (f : B -> bool) (h : A -> bool) (g : A -> B)
      (l : list A) :
  (forall x, f (g x) = true -> h x = true) ->
  (List.length (filter f (map g l)) <= List.length (filter h l))%nat.
Proof.
  intros Hfh. induction l as [| x l IH]; [apply Nat.le_refl |].
  cbn [map filter]. destruct (f (g x)) eqn:Ef.
  - rewrite (Hfh x Ef). cbn [List.length]. lia.
  - destruct (h x); cbn [List.length]; lia.
Qed.

Lemma traded_at_most_allowed (ds : list decision_record) :
  (List.length (Backtest._filter_traded_weeks
    (map record
       (map (_evaluate_single_week fmt_num fmt_2f monday_chains friday_chains)
            ds)))
   <= allowed_count ds)%nat.
Proof.
  unfold allowed_count, Backtest._filter_traded_weeks.
  rewrite map_map. apply filter_map_length. intros d Hd.
  apply andb_true_iff in Hd. destruct Hd as [Hd _].
  destruct (single_week_cases d) as [Hdec _]. cbv zeta in Hdec.
  rewrite Hdec in Hd. exact Hd.
Qed.

(** X25. The outcome engine returns one record per decision, in order,
    and metrics in which every trade is a win or a loss:
    wins + losses = total_trades, where total_trades counts the WIN and
    LOSS records and never exceeds the number of TRADE ALLOWED decisions. *)
Theorem evaluate_historical_outcomes_counts (weekly_decisions : list decision_record) :
  let res := evaluate_historical_outcomes fmt_num fmt_2f monday_chains friday_chains
               weekly_decisions in
  weekly_records res
  = map (_evaluate_single_week fmt_num fmt_2f monday_chains friday_chains)
        weekly_decisions
  /\ (Backtest.wins (metrics res) + Backtest.losses (metrics res)
      = Backtest.total_trades (metrics res))%Z
  /\ Backtest.total_trades (metrics res)
     = Z.of_nat (List.length
                   (filter (fun w => Backtest.get_eqb (Backtest.outcome w) "WIN"
                                     || Backtest.get_eqb (Backtest.outcome w) "LOSS")
                           (map record (weekly_records res))))
  /\ (Backtest.total_trades (metrics res) <= Z.of_nat (allowed_count weekly_decisions))%Z.
Proof.
  cbv zeta. unfold evaluate_historical_outcomes. cbv zeta.
  cbn [weekly_records metrics].
  split; [reflexivity |].
  pose proof (traded_are_win_or_loss weekly_decisions) as Hall.
  pose proof (traded_at_most_allowed weekly_decisions) as Hle.
  pose proof (traded_records weekly_decisions) as Hrec.
  pose proof (BacktestMore.total_trades_count
    (map record
       (map (_evaluate_single_week fmt_num fmt_2f monday_chains friday_chains)
            weekly_decisions)))
    as Htotal.
  split; [| split; [rewrite Htotal, Hrec; reflexivity | rewrite Htotal; lia]].
  rewrite Htotal. unfold Backtest.evaluate_backtest.
  destruct
    (map record
       (map (_evaluate_single_week fmt_num fmt_2f monday_chains friday_chains)
            weekly_decisions)) as [| w ws] eqn:Ews;
    [reflexivity |].
  destruct (Backtest._filter_traded_weeks (w :: ws)) as [| t tw] eqn:Etw; [reflexivity |].
  cbn [Backtest.wins Backtest.losses].
  apply BacktestMore.win_or_loss_lengths in Hall. lia.
Qed.

End EvaluateFacts.

End OutcomesMore.
